(** * osmdata: extraction of OSM data as Simple Features (osmdata.cpp)

    A shallow embedding of [get_osm_relations], [get_osm_ways],
    [get_osm_nodes] and [rcpp_osmdata_sf] of [src/osmdata.cpp], and the
    properties of the conversion that the specification states.

    Conventions of the embedding.
    - [osmid_t] (a 64-bit integer) is [Z]; identifiers are only compared
      and printed, never computed with.
    - [std::set <T>] is the list of its elements in iteration order
      (ascending for [std::less]); [std::map <K, V>] is the list of its
      pairs in iteration order.  [set_ok] and [map_ok] state the ordering a
      value of these types has.
    - [std::vector <T>] is [list T]; [push_back] appends at the end.
    - A C++ loop over a container is [for_each] over a frame holding the
      variables the loop assigns.
    - A [throw] is the status [Throw], and so is an error that Rcpp or R
      raises: a write outside an R vector, which R checks, or names longer
      than their vector.  An access outside a [std::vector] or through an
      end iterator, which nothing checks, is the status [Undefined].
    - Sizes are natural numbers: the [int] counters of the source hold
      container sizes, taken to be in the range of [int].
    - The headers [osmdata.h], [trace_osm.h], [convert_osm_rcpp.h],
      [cleanup.h] and [get-bbox.h] are not part of the sources.  What
      [osmdata.cpp] calls from them is either a variable of the section
      [Model], or a definition whose comment says it is modelled from the
      specification. *)

From Stdlib Require Import String Ascii DecimalString.
From Stdlib Require Import ZArith List Bool Arith Lia.
From Stdlib Require Import Sorted Permutation.
From Stdlib Require DecimalZ DecimalPos.
Import ListNotations.

Local Open Scope string_scope.
Local Open Scope list_scope.

(** ** Outcomes *)

Definition osmid_t := Z.

(** The exceptions of the source ([std::runtime_error]), the error kinds
    the specification names for the absent helpers, and the errors that
    Rcpp and R raise on the accesses of the source:
    [index_out_of_bounds] is the exception of Rcpp for [l (i)] outside the
    list [l]; [set_index_error] is the error of R, attempt to set index
    [index]/[len] in [setter], for a write through [operator[]] outside
    the vector; [names_length_error] is the error of R for a names
    attribute longer than its vector. *)
Inductive exn : Type :=
| runtime_error (what : string)
| StructuralMismatchError (collection : string) (len1 len2 : nat)
| UnknownKeyError (key : string)
| UnclosedRingError (way : osmid_t)
| MissingNodeError (node way : osmid_t)
| index_out_of_bounds (index extent : nat)
| set_index_error (setter : string) (index len : nat)
| names_length_error (names len : nat).

(** How a statement ends. *)
Inductive status : Type :=
| Done
| Throw (e : exn)
| Undefined.

(** A value-returning call. *)
Inductive result (A : Type) : Type :=
| Ok (a : A)
| Raise (e : exn)
| Undef.
Arguments Ok {A} a.
Arguments Raise {A} e.
Arguments Undef {A}.

Definition status_of {A : Type} (r : result A) : status :=
  match r with
  | Ok _ => Done
  | Raise e => Throw e
  | Undef => Undefined
  end.

(** [for (x : xs) body]: the frame after the loop and how the loop ended.
    The loop stops at the first iteration that does not end normally. *)
Fixpoint for_each {X S : Type} (body : X -> S -> S * status)
    (xs : list X) (s : S) : S * status :=
  match xs with
  | [] => (s, Done)
  | x :: xs' =>
      match body x s with
      | (s', Done) => for_each body xs' s'
      | stopped => stopped
      end
  end.

(** ** Ordered containers *)

Section Ordered.
Context {K : Type} (ltb : K -> K -> bool).

(** Keys are equivalent when neither is less than the other. *)
Definition equivb (x y : K) : bool := negb (ltb x y) && negb (ltb y x).

(** [std::set::insert]. *)
Fixpoint set_insert (x : K) (s : list K) : list K :=
  match s with
  | [] => [x]
  | y :: s' =>
      if ltb x y then x :: s
      else if ltb y x then y :: set_insert x s'
      else s
  end.

(** [s.find (x) != s.end ()]. *)
Fixpoint set_mem (x : K) (s : list K) : bool :=
  match s with
  | [] => false
  | y :: s' => equivb x y || set_mem x s'
  end.

(** [std::distance (s.begin (), s.find (x))]: the position of [x], and
    the size of [s] when [find] returns [s.end ()]. *)
Fixpoint set_index (x : K) (s : list K) : nat :=
  match s with
  | [] => 0
  | y :: s' => if equivb x y then 0 else S (set_index x s')
  end.

(** [std::map::find]. *)
Fixpoint map_find {V : Type} (k : K) (m : list (K * V)) : option V :=
  match m with
  | [] => None
  | (k', v) :: m' => if equivb k k' then Some v else map_find k m'
  end.

Definition lt_of (x y : K) : Prop := ltb x y = true.

(** The elements of a [std::set] are strictly ascending. *)
Definition set_ok (s : list K) : Prop := StronglySorted lt_of s.

(** The keys of a [std::map] are strictly ascending. *)
Definition map_ok {V : Type} (m : list (K * V)) : Prop :=
  set_ok (map fst m).
End Ordered.

(** The set built by inserting the elements of [xs] one after the other. *)
Definition set_of_list {K : Type} (ltb : K -> K -> bool) (xs : list K)
    : list K :=
  fold_left (fun s x => set_insert ltb x s) xs [].

(** [std::to_string] of an identifier: its decimal digits, with a sign. *)
Definition to_string (z : osmid_t) : string :=
  NilZero.string_of_int (Z.to_int z).

(** ** Vectors written by index *)

(** [v [i] = x]; [None] when [i] is outside [v]. *)
Fixpoint vec_set {A : Type} (v : list A) (i : nat) (x : A)
    : option (list A) :=
  match v, i with
  | [], _ => None
  | _ :: t, O => Some (x :: t)
  | h :: t, S i' =>
      match vec_set t i' x with
      | Some t' => Some (h :: t')
      | None => None
      end
  end.

(** [v.front ()] and [v.back ()]; [None] on an empty vector. *)
Definition front {A : Type} (v : list A) : option A := hd_error v.

Fixpoint back {A : Type} (v : list A) : option A :=
  match v with
  | [] => None
  | [x] => Some x
  | _ :: t => back t
  end.

(** ** Character matrices *)

(** An element of a character vector. *)
Inductive cell : Type :=
| NA_STRING
| Chr (s : string).

(** The value of the [dimnames] attribute written by the source. *)
Record dimnames_t : Type := {
  dn_rows : list string;
  dn_cols : list string
}.

(** [Rcpp::CharacterMatrix]: [cm_nrow * cm_ncol] cells stored by column,
    the cell of row [i] and column [j] at offset [i + cm_nrow * j]. *)
Record CharacterMatrix : Type := {
  cm_nrow : nat;
  cm_ncol : nat;
  cm_data : list cell;
  cm_names : option (list cell);
  cm_dimnames : option dimnames_t
}.

(** [Rcpp::CharacterMatrix m (Rcpp::Dimension (nrow, ncol))]: every cell
    the empty string. *)
Definition new_matrix (nrow ncol : nat) : CharacterMatrix :=
  {| cm_nrow := nrow; cm_ncol := ncol;
     cm_data := repeat (Chr "") (nrow * ncol);
     cm_names := None; cm_dimnames := None |}.

(** [std::fill (m.begin (), m.end (), c)]. *)
Definition fill (m : CharacterMatrix) (c : cell) : CharacterMatrix :=
  {| cm_nrow := cm_nrow m; cm_ncol := cm_ncol m;
     cm_data := map (fun _ => c) (cm_data m);
     cm_names := cm_names m; cm_dimnames := cm_dimnames m |}.

(** [m (i, j) = c]: Rcpp checks neither [i] against the rows nor [j]
    against the columns; the write is [SET_STRING_ELT] at the offset
    [i + nrow * j], which R refuses outside the storage. *)
Definition mat_set (m : CharacterMatrix) (i j : nat) (c : cell)
    : result CharacterMatrix :=
  match vec_set (cm_data m) (i + cm_nrow m * j) c with
  | Some d =>
      Ok {| cm_nrow := cm_nrow m; cm_ncol := cm_ncol m; cm_data := d;
            cm_names := cm_names m; cm_dimnames := cm_dimnames m |}
  | None =>
      Raise (set_index_error "SET_STRING_ELT" (i + cm_nrow m * j)
               (length (cm_data m)))
  end.

(** The cell of row [i] and column [j]. *)
Definition mat_get (m : CharacterMatrix) (i j : nat) : cell :=
  nth (i + cm_nrow m * j) (cm_data m) NA_STRING.

(** Row [i], from the first column to the last. *)
Definition mat_row (m : CharacterMatrix) (i : nat) : list cell :=
  map (mat_get m i) (seq 0 (cm_ncol m)).

(** The names attribute that R stores for names not longer than the
    storage of the matrix: the names, filled up with [NA_STRING] to the
    length of the storage. *)
Definition padded_names (m : CharacterMatrix) (names : list string)
    : list cell :=
  map Chr names
  ++ repeat NA_STRING (length (cm_data m) - length names).

Definition with_names (m : CharacterMatrix) (names : list string)
    : CharacterMatrix :=
  {| cm_nrow := cm_nrow m; cm_ncol := cm_ncol m; cm_data := cm_data m;
     cm_names := Some (padded_names m names);
     cm_dimnames := cm_dimnames m |}.

(** [m.attr ("names") = names]: R refuses names longer than the storage
    of the matrix. *)
Definition set_matrix_names (m : CharacterMatrix) (names : list string)
    : result CharacterMatrix :=
  if (length names <=? length (cm_data m))%nat then Ok (with_names m names)
  else Raise (names_length_error (length names) (length (cm_data m))).

Definition set_matrix_dimnames (m : CharacterMatrix)
    (rows cols : list string) : CharacterMatrix :=
  {| cm_nrow := cm_nrow m; cm_ncol := cm_ncol m; cm_data := cm_data m;
     cm_names := cm_names m;
     cm_dimnames := Some {| dn_rows := rows; dn_cols := cols |} |}.

(** ** The entity graph *)

Definition tags := list (string * string).

(** Modelled from the spec: the types of [osmdata.h] (not part of the
    sources), after section 3 and the members that [osmdata.cpp] reads.
    [UniqueVals]: the tag keys of each kind of entity, as [std::set]s. *)
Record UniqueVals : Type := {
  k_point : list string;
  k_way : list string;
  k_rel : list string
}.

(** Modelled from the spec: [OneWay] of [osmdata.h], a tag map and the
    sequence of the node identifiers. *)
Record OneWay : Type := {
  w_key_val : tags;
  w_nodes : list osmid_t
}.

(** Modelled from the spec: [Relation] of [osmdata.h]; [r_ways] pairs each
    member way with its role, [r_ispoly] is the classification that the
    ingestion supplies. *)
Record Relation : Type := {
  r_id : osmid_t;
  r_ispoly : bool;
  r_key_val : tags;
  r_ways : list (osmid_t * string)
}.

Definition Ways := list (osmid_t * OneWay).
Definition Relations := list Relation.

(** The roles of the way members of a relation, as the [std::set] that the
    source fills with [roles_set.insert (itw->second)]. *)
Definition roles_set_of (r : Relation) : list string :=
  fold_left (fun s (w : osmid_t * string) => set_insert String.ltb (snd w) s)
    (r_ways r) [].

(** The label of the line strings of role [role] of relation [id]. *)
Definition role_label (id : osmid_t) (role : string) : string :=
  if (role =? "")%string then (to_string id ++ "-(no role)")%string
  else (to_string id ++ "-" ++ role)%string.

(** ** Attribute rows *)

(** The row the specification describes for a tag map: under each key of
    [keys] the value of the tag of that key, and [NA_STRING] where the map
    has no such tag. *)
Definition attr_row (keys : list string) (kv : tags) : list cell :=
  map (fun k =>
         match map_find String.ltb k kv with
         | Some v => Chr v
         | None => NA_STRING
         end) keys.

(** The loop of [get_osm_nodes] over the tags of one node:
    [kv_mat (count, distance (begin, find (key))) = value]. *)
Fixpoint write_tags (keys : list string) (kv : tags) (count : nat)
    (m : CharacterMatrix) : result CharacterMatrix :=
  match kv with
  | [] => Ok m
  | (key, val) :: kv' =>
      let ni := set_index String.ltb key keys in
      match mat_set m count ni (Chr val) with
      | Ok m' => write_tags keys kv' count m'
      | stopped => stopped
      end
  end.

(** Modelled from the spec: the first step of the attribute table
    builder, [m (rowi, i) = NA_STRING] for every column [i] of [cols]. *)
Fixpoint na_row (m : CharacterMatrix) (rowi : nat) (cols : list nat)
    : result CharacterMatrix :=
  match cols with
  | [] => Ok m
  | i :: cols' =>
      match mat_set m rowi i NA_STRING with
      | Ok m' => na_row m' rowi cols'
      | stopped => stopped
      end
  end.

(** Modelled from the spec: the writes of the attribute table builder for
    one tag map (section 4.2), a key outside [keys] being an
    [UnknownKeyError]. *)
Fixpoint write_tags_checked (keys : list string) (kv : tags) (rowi : nat)
    (m : CharacterMatrix) : result CharacterMatrix :=
  match kv with
  | [] => Ok m
  | (key, val) :: kv' =>
      if set_mem String.ltb key keys then
        match mat_set m rowi (set_index String.ltb key keys) (Chr val) with
        | Ok m' => write_tags_checked keys kv' rowi m'
        | stopped => stopped
        end
      else Raise (UnknownKeyError key)
  end.

(** Modelled from the spec: the attribute table builder of section 4.2,
    which stands for [get_value_mat_way] and [get_value_mat_rel] of
    [convert_osm_rcpp.h] (not part of the sources).  Row [rowi] of the
    matrix becomes the attribute row of the tag map: every cell absent,
    then the value of each tag under the column of its key. *)
Definition get_value_mat (kv : tags) (keys : list string)
    (m : CharacterMatrix) (rowi : nat) : result CharacterMatrix :=
  match na_row m rowi (seq 0 (cm_ncol m)) with
  | Ok m' => write_tags_checked keys kv rowi m'
  | stopped => stopped
  end.

(** Modelled from the spec: [get_value_mat_rel (itr, rels, unique_vals,
    value_arr, rowi)] of [convert_osm_rcpp.h], the builder on the tags of a
    relation and the keys of the relations. *)
Definition get_value_mat_rel (r : Relation) (unique_vals : UniqueVals)
    (m : CharacterMatrix) (rowi : nat) : result CharacterMatrix :=
  get_value_mat (r_key_val r) (k_rel unique_vals) m rowi.

(** Modelled from the spec: [get_value_mat_way (wj, ways, unique_vals,
    value_arr, rowi)] of [convert_osm_rcpp.h], the builder on the tags of a
    way and the keys of the ways; [wj] is the result of [ways.find], and
    the end iterator has no way to read. *)
Definition get_value_mat_way (wj : option OneWay) (unique_vals : UniqueVals)
    (m : CharacterMatrix) (rowi : nat) : result CharacterMatrix :=
  match wj with
  | Some w => get_value_mat (w_key_val w) (k_way unique_vals) m rowi
  | None => Undef
  end.

(** ** Checks of the geometry arrays *)

(** Modelled from the spec: the checks of [cleanup.h] (not part of the
    sources), after section 4.5: parallel sequences have equal lengths at
    every level, and a difference is a [StructuralMismatchError] naming
    the collection and the two lengths.  [check_sizes] runs [inner] on
    the elements at the same position. *)
Fixpoint check_sizes {A B : Type}
    (inner : A -> B -> status) (xs : list A) (ys : list B) : status :=
  match xs, ys with
  | x :: xs', y :: ys' =>
      match inner x y with
      | Done => check_sizes inner xs' ys'
      | stopped => stopped
      end
  | _, _ => Done
  end.

(** Modelled from the spec: one level of a check, the two lengths and
    then the elements. *)
Definition check_level {A B : Type} (collection : string)
    (inner : A -> B -> status) (xs : list A) (ys : list B) : status :=
  if (length xs =? length ys)%nat then check_sizes inner xs ys
  else Throw (StructuralMismatchError collection (length xs) (length ys)).

(** Modelled from the spec: the innermost level, the two lengths alone. *)
Definition check_leaf {A B : Type} (collection : string)
    (xs : list A) (ys : list B) : status :=
  check_level collection (fun _ _ => Done) xs ys.

(** Modelled from the spec: two arrays of three levels, level by level. *)
Definition check_arr3 {A B : Type} (collection : string)
    (xs : list (list (list A))) (ys : list (list (list B))) : status :=
  check_level collection
    (check_level collection (check_leaf collection)) xs ys.

(** Modelled from the spec: [check_geom_arrs (lon_arr, lat_arr,
    rowname_arr)] of [cleanup.h]. *)
Definition check_geom_arrs {F : Type} (lon_arr lat_arr : list (list (list F)))
    (rowname_arr : list (list (list string))) : status :=
  match check_arr3 "lat" lon_arr lat_arr with
  | Done => check_arr3 "rownames" lon_arr rowname_arr
  | stopped => stopped
  end.

(** Modelled from the spec: [check_id_arr (lon_arr, arr)] of [cleanup.h]:
    as many identifiers as geometries, in each entry. *)
Definition check_id_arr {F T : Type} (lon_arr : list (list (list F)))
    (arr : list (list T)) : status :=
  check_level "ids" (fun g ids => check_leaf "ids" g ids) lon_arr arr.

(** What the checks are to establish. *)
Definition aligned3 {A B : Type} (xs : list (list (list A)))
    (ys : list (list (list B))) : Prop :=
  Forall2 (Forall2 (fun a b => length a = length b)) xs ys.

Definition aligned_ids {A T : Type} (xs : list (list (list A)))
    (ids : list (list T)) : Prop :=
  Forall2 (fun g i => length g = length i) xs ids.

(** ** The functions of osmdata.cpp *)

Section Model.
(** [float] is the type of a coordinate, which the source only copies.
    [NumericMatrix] is what [trace_way_nmat] fills, [DataFrame] what
    [restructure_kv_mat] returns; [BBox] and [CRS] are the metadata that
    the source attaches unchanged. *)
Context {float NumericMatrix DataFrame BBox CRS : Type}.

(** Modelled from the spec: [Node] of [osmdata.h]; the identifier is the
    key of the node in [Nodes]. *)
Record Node : Type := {
  n_lon : float;
  n_lat : float;
  n_key_val : tags
}.

Definition Nodes := list (osmid_t * Node).

(** *** Values handed to R *)

Inductive attr_value : Type :=
| Strings (l : list string)
| Integer (z : Z)
| Real_zero
| Bbox (b : BBox)
| Crs (c : CRS).

Definition attributes := list (string * attr_value).

(** [x.attr (name) = v]. *)
Fixpoint set_attr (name : string) (v : attr_value) (a : attributes)
    : attributes :=
  match a with
  | [] => [(name, v)]
  | (n, w) :: a' =>
      if (n =? name)%string then (n, v) :: a'
      else (n, w) :: set_attr name v a'
  end.

Fixpoint get_attr (name : string) (a : attributes) : option attr_value :=
  match a with
  | [] => None
  | (n, w) :: a' => if (n =? name)%string then Some w else get_attr name a'
  end.

Inductive SEXP : Type :=
| R_NilValue
| NumericVector (v : list float) (a : attributes)
| Matrix (m : NumericMatrix) (a : attributes)
| MatrixList (l : list NumericMatrix) (a : attributes).

(** [Rcpp::List]. *)
Record RcppList : Type := {
  elts : list SEXP;
  attrs : attributes
}.

(** [Rcpp::List l (n)]. *)
Definition new_list (n : nat) : RcppList :=
  {| elts := repeat R_NilValue n; attrs := [] |}.

Definition list_attr (l : RcppList) (name : string) (v : attr_value)
    : RcppList :=
  {| elts := elts l; attrs := set_attr name v (attrs l) |}.

(** [l [i] = x]: Rcpp does not check [i], and writes with
    [SET_VECTOR_ELT], which R refuses for an index outside the list. *)
Definition list_set (l : RcppList) (i : nat) (x : SEXP)
    : result RcppList :=
  match vec_set (elts l) i x with
  | Some e => Ok {| elts := e; attrs := attrs l |}
  | None => Raise (set_index_error "SET_VECTOR_ELT" i (length (elts l)))
  end.

(** [l (i) = x]: Rcpp checks [i] against the size of the list. *)
Definition list_put (l : RcppList) (i : nat) (x : SEXP)
    : result RcppList :=
  match vec_set (elts l) i x with
  | Some e => Ok {| elts := e; attrs := attrs l |}
  | None => Raise (index_out_of_bounds i (length (elts l)))
  end.

(** The attributes that every geometry column receives. *)
Definition sfc_attrs (class : list string) (bbox : BBox) (crs : CRS)
    (l : RcppList) : RcppList :=
  list_attr
    (list_attr
       (list_attr
          (list_attr (list_attr l "n_empty" (Integer 0))
             "class" (Strings class))
          "precision" Real_zero)
       "bbox" (Bbox bbox))
    "crs" (Crs crs).

(** What a slot of a returned list holds where the source stores a
    table: a value of R, which can be the null value or a data frame.  A
    variable of type [Rcpp::DataFrame] is a [DataFrame]: it never holds
    the null value. *)
Inductive TableValue : Type :=
| NullValue
| FrameValue (d : DataFrame).

(** *** What the absent headers provide *)

(** The vectors a tracer of relations fills: [lon_vec], [lat_vec],
    [rowname_vec] and the identifiers of the traced ways. *)
Record traced (T : Type) : Type := {
  lon_vec : list (list float);
  lat_vec : list (list float);
  rowname_vec : list (list string);
  ids : list T
}.
Arguments lon_vec {T} _.
Arguments lat_vec {T} _.
Arguments rowname_vec {T} _.
Arguments ids {T} _.

Variable trace_multipolygon :
  Relation -> Ways -> Nodes -> traced string -> result (traced string).
Variable trace_multilinestring :
  Relation -> string -> Ways -> Nodes -> traced osmid_t ->
  result (traced osmid_t).
Variable trace_way_nmat : Ways -> Nodes -> osmid_t -> result NumericMatrix.
Variable convert_poly_linestring_to_Rcpp :
  forall T : Type,
    list (list (list float)) -> list (list (list float)) ->
    list (list (list string)) -> list (list T) -> list string -> string ->
    RcppList.
Variable restructure_kv_mat : CharacterMatrix -> bool -> DataFrame.

(** What [kv_df = R_NilValue] stores in a variable of type
    [Rcpp::DataFrame]: the assignment of Rcpp converts a value that is no
    data frame with [as.data.frame] of R, which makes of the null value a
    data frame without columns and rows. *)
Variable as_data_frame_null : DataFrame.

(** *** get_osm_relations *)

(** What the source accumulates for one kind of relation. *)
Record collected (T : Type) : Type := {
  lon_arr : list (list (list float));
  lat_arr : list (list (list float));
  rowname_arr : list (list (list string));
  id_vec : list (list T);
  rel_id : list string;
  kv_mat : CharacterMatrix;
  count : nat
}.
Arguments lon_arr {T} _.
Arguments lat_arr {T} _.
Arguments rowname_arr {T} _.
Arguments id_vec {T} _.
Arguments rel_id {T} _.
Arguments kv_mat {T} _.
Arguments count {T} _.

(** The four [push_back]s after a trace. *)
Definition push_traced {T : Type} (label : string) (t : traced T)
    (c : collected T) : collected T :=
  {| rel_id := rel_id c ++ [label];
     lon_arr := lon_arr c ++ [lon_vec t];
     lat_arr := lat_arr c ++ [lat_vec t];
     rowname_arr := rowname_arr c ++ [rowname_vec t];
     id_vec := id_vec c ++ [ids t];
     kv_mat := kv_mat c;
     count := count c |}.

(** [get_value_mat_rel (itr, rels, unique_vals, kv_mat, count++)]. *)
Definition put_row {T : Type} (m : CharacterMatrix) (c : collected T)
    : collected T :=
  {| rel_id := rel_id c; lon_arr := lon_arr c; lat_arr := lat_arr c;
     rowname_arr := rowname_arr c; id_vec := id_vec c;
     kv_mat := m; count := S (count c) |}.

(** The variables that the loop over the relations assigns. *)
Record rel_frame : Type := {
  f_lon_vec : list (list float);
  f_lat_vec : list (list float);
  f_rowname_vec : list (list string);
  f_ids_mp : list string;
  f_ids_ls : list osmid_t;
  f_roles : list string;
  f_roles_ls : list (list string);
  f_mp : collected string;
  f_ls : collected osmid_t
}.

(** The first loop: [nmp] and [nls]. *)
Definition count_rel (c : nat * nat) (r : Relation) : nat * nat :=
  if r_ispoly r then (S (fst c), snd c)
  else (fst c, snd c + length (roles_set_of r)).

Definition count_rels (rels : Relations) : nat * nat :=
  fold_left count_rel rels (0, 0).

(** The body of the branch [itr->ispoly]. *)
Definition poly_body (ways : Ways) (nodes : Nodes)
    (unique_vals : UniqueVals) (r : Relation) (f : rel_frame)
    : rel_frame * status :=
  match trace_multipolygon r ways nodes
          {| lon_vec := f_lon_vec f; lat_vec := f_lat_vec f;
             rowname_vec := f_rowname_vec f; ids := f_ids_mp f |} with
  | Ok t =>
      let mp := push_traced (to_string (r_id r)) t (f_mp f) in
      (* clean_vecs (lon_vec, lat_vec, rowname_vec), of cleanup.h, taken
         to empty the three vectors; ids_mp.clear () *)
      match get_value_mat_rel r unique_vals (kv_mat mp) (count mp) with
      | Ok m =>
          ({| f_lon_vec := []; f_lat_vec := []; f_rowname_vec := [];
              f_ids_mp := []; f_ids_ls := f_ids_ls f;
              f_roles := f_roles f; f_roles_ls := f_roles_ls f;
              f_mp := put_row m mp; f_ls := f_ls f |}, Done)
      | stopped => (f, status_of stopped)
      end
  | stopped => (f, status_of stopped)
  end.

(** The body of [for (std::string role: roles)]. *)
Definition role_body (ways : Ways) (nodes : Nodes)
    (unique_vals : UniqueVals) (r : Relation) (role : string)
    (f : rel_frame) : rel_frame * status :=
  match trace_multilinestring r role ways nodes
          {| lon_vec := f_lon_vec f; lat_vec := f_lat_vec f;
             rowname_vec := f_rowname_vec f; ids := f_ids_ls f |} with
  | Ok t =>
      let ls := push_traced (role_label (r_id r) role) t (f_ls f) in
      (* clean_vecs (lon_vec, lat_vec, rowname_vec); ids_ls.clear () *)
      match get_value_mat_rel r unique_vals (kv_mat ls) (count ls) with
      | Ok m =>
          ({| f_lon_vec := []; f_lat_vec := []; f_rowname_vec := [];
              f_ids_mp := f_ids_mp f; f_ids_ls := [];
              f_roles := f_roles f; f_roles_ls := f_roles_ls f;
              f_mp := f_mp f; f_ls := put_row m ls |}, Done)
      | stopped => (f, status_of stopped)
      end
  | stopped => (f, status_of stopped)
  end.

(** [roles.push_back] of every element of [roles_set]. *)
Definition set_roles (roles : list string) (f : rel_frame) : rel_frame :=
  {| f_lon_vec := f_lon_vec f; f_lat_vec := f_lat_vec f;
     f_rowname_vec := f_rowname_vec f;
     f_ids_mp := f_ids_mp f; f_ids_ls := f_ids_ls f;
     f_roles := roles; f_roles_ls := f_roles_ls f;
     f_mp := f_mp f; f_ls := f_ls f |}.

(** [roles_ls.push_back (roles); roles.clear ()]. *)
Definition store_roles (f : rel_frame) : rel_frame :=
  {| f_lon_vec := f_lon_vec f; f_lat_vec := f_lat_vec f;
     f_rowname_vec := f_rowname_vec f;
     f_ids_mp := f_ids_mp f; f_ids_ls := f_ids_ls f;
     f_roles := []; f_roles_ls := f_roles_ls f ++ [f_roles f];
     f_mp := f_mp f; f_ls := f_ls f |}.

(** The body of the branch of the other relations. *)
Definition line_body (ways : Ways) (nodes : Nodes)
    (unique_vals : UniqueVals) (r : Relation) (f : rel_frame)
    : rel_frame * status :=
  let f1 := set_roles (f_roles f ++ roles_set_of r) f in
  match for_each (role_body ways nodes unique_vals r) (f_roles f1) f1 with
  | (f2, Done) => (store_roles f2, Done)
  | stopped => stopped
  end.

(** The body of the second loop over the relations. *)
Definition rel_body (ways : Ways) (nodes : Nodes)
    (unique_vals : UniqueVals) (r : Relation) (f : rel_frame)
    : rel_frame * status :=
  if r_ispoly r then poly_body ways nodes unique_vals r f
  else line_body ways nodes unique_vals r f.

Definition new_collected (T : Type) (nrow ncol : nat) : collected T :=
  {| rel_id := []; lon_arr := []; lat_arr := []; rowname_arr := [];
     id_vec := []; kv_mat := new_matrix nrow ncol; count := 0 |}.

(** The frame when the second loop starts. *)
Definition rel_frame0 (rels : Relations) (unique_vals : UniqueVals)
    : rel_frame :=
  let ncol := length (k_rel unique_vals) in
  {| f_lon_vec := []; f_lat_vec := []; f_rowname_vec := [];
     f_ids_mp := []; f_ids_ls := []; f_roles := []; f_roles_ls := [];
     f_mp := new_collected string (fst (count_rels rels)) ncol;
     f_ls := new_collected osmid_t (snd (count_rels rels)) ncol |}.

(** The two loops of [get_osm_relations]. *)
Definition trace_relations (rels : Relations) (nodes : Nodes)
    (ways : Ways) (unique_vals : UniqueVals) : rel_frame * status :=
  for_each (rel_body ways nodes unique_vals) rels
    (rel_frame0 rels unique_vals).

(** The four checks, in the order of the source. *)
Definition check_frame (f : rel_frame) : status :=
  match check_geom_arrs (lon_arr (f_mp f)) (lat_arr (f_mp f))
          (rowname_arr (f_mp f)) with
  | Done =>
      match check_geom_arrs (lon_arr (f_ls f)) (lat_arr (f_ls f))
              (rowname_arr (f_ls f)) with
      | Done =>
          match check_id_arr (lon_arr (f_ls f)) (id_vec (f_ls f)) with
          | Done => check_id_arr (lon_arr (f_mp f)) (id_vec (f_mp f))
          | stopped => stopped
          end
      | stopped => stopped
      end
  | stopped => stopped
  end.

(** The geometry column of one kind of relation. *)
Definition rel_geometries {T : Type} (c : collected T) (kind : string)
    (bbox : BBox) (crs : CRS) : RcppList :=
  sfc_attrs [("sfc_" ++ kind)%string; "sfc"] bbox crs
    (convert_poly_linestring_to_Rcpp T (lon_arr c) (lat_arr c)
       (rowname_arr c) (id_vec c) (rel_id c) kind).

(** The attribute table of one kind of relation, as the variable
    [kv_df_ls] or [kv_df_mp] holds it. *)
Definition rel_table {T : Type} (c : collected T)
    (unique_vals : UniqueVals) (ls : bool) : result DataFrame :=
  if (0 <? length (rel_id c))%nat then
    match set_matrix_names (kv_mat c) (k_rel unique_vals) with
    | Ok m =>
        Ok (restructure_kv_mat
              (set_matrix_dimnames m (rel_id c) (k_rel unique_vals)) ls)
    | Raise e => Raise e
    | Undef => Undef
    end
  else Ok as_data_frame_null.

(** The list of four that [get_osm_relations] returns; the two tables are
    the values of the variables [kv_df_mp] and [kv_df_ls]. *)
Record relations_ret : Type := {
  polygonList : RcppList;
  kv_df_mp : TableValue;
  linestringList : RcppList;
  kv_df_ls : TableValue
}.

Definition get_osm_relations (rels : Relations) (nodes : Nodes)
    (ways : Ways) (unique_vals : UniqueVals) (bbox : BBox) (crs : CRS)
    : result relations_ret :=
  match trace_relations rels nodes ways unique_vals with
  | (f, Done) =>
      match check_frame f with
      | Done =>
          match rel_table (f_ls f) unique_vals true with
          | Ok df_ls =>
              match rel_table (f_mp f) unique_vals false with
              | Ok df_mp =>
                  Ok {| polygonList :=
                          rel_geometries (f_mp f) "MULTIPOLYGON" bbox crs;
                        kv_df_mp := FrameValue df_mp;
                        linestringList :=
                          rel_geometries (f_ls f) "MULTILINESTRING"
                            bbox crs;
                        kv_df_ls := FrameValue df_ls |}
              | Raise e => Raise e
              | Undef => Undef
              end
          | Raise e => Raise e
          | Undef => Undef
          end
      | Throw e => Raise e
      | Undefined => Undef
      end
  | (_, Throw e) => Raise e
  | (_, Undefined) => Undef
  end.

(** *** get_osm_ways *)

(** The variables that the loop over [way_ids] assigns. *)
Record way_frame : Type := {
  wf_wayList : RcppList;
  wf_waynames : list string;
  wf_kv_mat : CharacterMatrix;
  wf_count : nat
}.

Definition sfg_class (geom_type : string) : attributes :=
  [("class", Strings ["XY"; geom_type; "sfg"])].

(** The geometry stored for one way: the matrix itself for a line
    string, a list holding the matrix for a polygon. *)
Definition way_geometry (geom_type : string) (nmat : NumericMatrix)
    : SEXP :=
  if (geom_type =? "LINESTRING")%string
  then Matrix nmat (sfg_class geom_type)
  else MatrixList [nmat] (sfg_class geom_type).

Definition way_body (ways : Ways) (nodes : Nodes)
    (unique_vals : UniqueVals) (geom_type : string) (wi : osmid_t)
    (f : way_frame) : way_frame * status :=
  let names := wf_waynames f ++ [to_string wi] in
  match trace_way_nmat ways nodes wi with
  | Ok nmat =>
      match list_set (wf_wayList f) (wf_count f)
              (way_geometry geom_type nmat) with
      | Ok l =>
          match get_value_mat_way (map_find Z.ltb wi ways) unique_vals
                  (wf_kv_mat f) (wf_count f) with
          | Ok m =>
              ({| wf_wayList := l; wf_waynames := names;
                  wf_kv_mat := m; wf_count := S (wf_count f) |}, Done)
          | stopped =>
              ({| wf_wayList := l; wf_waynames := names;
                  wf_kv_mat := wf_kv_mat f; wf_count := wf_count f |},
               status_of stopped)
          end
      | stopped =>
          ({| wf_wayList := wf_wayList f; wf_waynames := names;
              wf_kv_mat := wf_kv_mat f; wf_count := wf_count f |},
           status_of stopped)
      end
  | stopped =>
      ({| wf_wayList := wf_wayList f; wf_waynames := names;
          wf_kv_mat := wf_kv_mat f; wf_count := wf_count f |},
       status_of stopped)
  end.

(** [wayList] and [kv_df] are the two references that the caller passes;
    the result holds their values when the call ends, and how it ends. *)
Definition get_osm_ways (wayList : RcppList) (kv_df : DataFrame)
    (way_ids : list osmid_t) (ways : Ways) (nodes : Nodes)
    (unique_vals : UniqueVals) (geom_type : string) (bbox : BBox)
    (crs : CRS) : (RcppList * DataFrame) * status :=
  if negb ((geom_type =? "POLYGON")%string
           || (geom_type =? "LINESTRING")%string)
  then ((wayList, kv_df),
        Throw (runtime_error "geom_type must be POLYGON or LINESTRING"))
  else if negb (length (elts wayList) =? length way_ids)%nat
  then ((wayList, kv_df),
        Throw (runtime_error "ways and IDs must have same lengths"))
  else
    let nrow := length way_ids in
    let ncol := length (k_way unique_vals) in
    let f0 := {| wf_wayList := wayList; wf_waynames := [];
                 wf_kv_mat := fill (new_matrix nrow ncol) NA_STRING;
                 wf_count := 0 |} in
    match for_each (way_body ways nodes unique_vals geom_type)
            way_ids f0 with
    | (f, Done) =>
        let waynames := wf_waynames f in
        let l := sfc_attrs [("sfc_" ++ geom_type)%string; "sfc"] bbox crs
                   (list_attr (wf_wayList f) "names" (Strings waynames)) in
        match set_matrix_names (wf_kv_mat f) (k_way unique_vals) with
        | Ok m =>
            ((l, restructure_kv_mat
                   (set_matrix_dimnames m waynames (k_way unique_vals))
                   false),
             Done)
        | stopped => ((l, kv_df), status_of stopped)
        end
    | (f, stopped) => ((wf_wayList f, kv_df), stopped)
    end.

(** *** get_osm_nodes *)

(** The variables that the loop over [nodes] assigns. *)
Record node_frame : Type := {
  nf_ptList : RcppList;
  nf_ptnames : list string;
  nf_kv_mat : CharacterMatrix;
  nf_count : nat
}.

(** [ptxy], once its two coordinates are written. *)
Definition point_geometry (n : Node) : SEXP :=
  NumericVector [n_lon n; n_lat n] [("class", Strings ["XY"; "POINT"; "sfg"])].

Definition node_body (unique_vals : UniqueVals) (ni : osmid_t * Node)
    (f : node_frame) : node_frame * status :=
  match list_put (nf_ptList f) (nf_count f) (point_geometry (snd ni)) with
  | Ok l =>
      let names := nf_ptnames f ++ [to_string (fst ni)] in
      match write_tags (k_point unique_vals) (n_key_val (snd ni))
              (nf_count f) (nf_kv_mat f) with
      | Ok m =>
          ({| nf_ptList := l; nf_ptnames := names;
              nf_kv_mat := m; nf_count := S (nf_count f) |}, Done)
      | stopped =>
          ({| nf_ptList := l; nf_ptnames := names;
              nf_kv_mat := nf_kv_mat f; nf_count := nf_count f |},
           status_of stopped)
      end
  | stopped => (f, status_of stopped)
  end.

(** The loop of [get_osm_nodes], from the frame it starts with. *)
Definition nodes_loop (ptList : RcppList) (nodes : Nodes)
    (unique_vals : UniqueVals) : node_frame * status :=
  for_each (node_body unique_vals) nodes
    {| nf_ptList := ptList; nf_ptnames := [];
       nf_kv_mat :=
         fill (new_matrix (length nodes) (length (k_point unique_vals)))
           NA_STRING;
       nf_count := 0 |}.

Definition get_osm_nodes (ptList : RcppList) (kv_df : DataFrame)
    (nodes : Nodes) (unique_vals : UniqueVals) (bbox : BBox) (crs : CRS)
    : (RcppList * DataFrame) * status :=
  if negb (length (elts ptList) =? length nodes)%nat
  then ((ptList, kv_df),
        Throw (runtime_error "points must have same size as nodes"))
  else
    match nodes_loop ptList nodes unique_vals with
    | (f, Done) =>
        ((sfc_attrs ["sfc_POINT"; "sfc"] bbox crs
            (list_attr (nf_ptList f) "names" (Strings (nf_ptnames f))),
          restructure_kv_mat
            (set_matrix_dimnames (nf_kv_mat f) (nf_ptnames f)
               (k_point unique_vals)) false),
         Done)
    | (f, stopped) => ((nf_ptList f, kv_df), stopped)
    end.

(** *** rcpp_osmdata_sf *)

(** The division of the ways into [poly_ways] and [non_poly_ways];
    [front] and [back] of a way without nodes are not defined. *)
Definition classify_body (itw : osmid_t * OneWay)
    (s : list osmid_t * list osmid_t)
    : (list osmid_t * list osmid_t) * status :=
  match front (w_nodes (snd itw)), back (w_nodes (snd itw)) with
  | Some a, Some b =>
      if (a =? b)%Z then
        if negb (set_mem Z.ltb (fst itw) (fst s))
        then ((set_insert Z.ltb (fst itw) (fst s), snd s), Done)
        else (s, Done)
      else if negb (set_mem Z.ltb (fst itw) (snd s))
      then ((fst s, set_insert Z.ltb (fst itw) (snd s)), Done)
      else (s, Done)
  | _, _ => (s, Undefined)
  end.

Definition classify_ways (ways : Ways)
    : (list osmid_t * list osmid_t) * status :=
  for_each classify_body ways ([], []).

(** The conversion of a slot that holds a table to [Rcpp::List], and the
    value of a [Rcpp::DataFrame] that is declared without an initial
    value. *)
Variable as_list : TableValue -> RcppList.
Variable empty_frame : DataFrame.

(** The named list of ten that [rcpp_osmdata_sf] returns. *)
Record osmdata_ret : Type := {
  points : RcppList;
  points_kv : DataFrame;
  linestrings : RcppList;
  linestrings_kv : DataFrame;
  polygons : RcppList;
  polygons_kv : DataFrame;
  multipolygons : RcppList;
  multipolygons_kv : RcppList;
  multilinestrings : RcppList;
  multilinestrings_kv : RcppList
}.

Definition stopped_as {A : Type} (s : status) : result A :=
  match s with
  | Throw e => Raise e
  | _ => Undef
  end.

(** [rcpp_osmdata_sf] from the parsed document on: [XmlData], the
    bounding box and the reference system come from the absent headers,
    so the entity graph, [bbox] and [crs] are arguments here. *)
Definition rcpp_osmdata_sf (nodes : Nodes) (ways : Ways)
    (rels : Relations) (unique_vals : UniqueVals) (bbox : BBox)
    (crs : CRS) : result osmdata_ret :=
  match get_osm_relations rels nodes ways unique_vals bbox crs with
  | Ok t =>
      match classify_ways ways with
      | ((poly_ways, non_poly_ways), Done) =>
          match get_osm_ways (new_list (length poly_ways))
                  empty_frame poly_ways ways nodes unique_vals
                  "POLYGON" bbox crs with
          | ((polyList, kv_df_polys), Done) =>
              match get_osm_ways (new_list (length non_poly_ways))
                      empty_frame non_poly_ways ways nodes
                      unique_vals "LINESTRING" bbox crs with
              | ((lineList, kv_df_lines), Done) =>
                  match get_osm_nodes (new_list (length nodes))
                          empty_frame nodes unique_vals
                          bbox crs with
                  | ((pointList, kv_df_points), Done) =>
                      Ok {| points := pointList;
                            points_kv := kv_df_points;
                            linestrings := lineList;
                            linestrings_kv := kv_df_lines;
                            polygons := polyList;
                            polygons_kv := kv_df_polys;
                            multipolygons := polygonList t;
                            multipolygons_kv :=
                              list_attr (as_list (kv_df_mp t)) "class"
                                (Strings ["data.frame"]);
                            multilinestrings := linestringList t;
                            multilinestrings_kv :=
                              list_attr (as_list (kv_df_ls t)) "class"
                                (Strings ["data.frame"]) |}
                  | (_, stopped) => stopped_as stopped
                  end
              | (_, stopped) => stopped_as stopped
              end
          | (_, stopped) => stopped_as stopped
          end
      | (_, stopped) => stopped_as stopped
      end
  | Raise e => Raise e
  | Undef => Undef
  end.

(** *** The relation tracer of the specification *)

(** The way tracer of section 4.1: the longitudes, the latitudes and
    the row labels of one way. *)
Variable trace_way :
  Ways -> Nodes -> osmid_t ->
  result (list float * list float * list string).

(** A ring is closed when its first and last row labels are the same. *)
Definition ring_closed (labels : list string) : bool :=
  match front labels, back labels with
  | Some a, Some b => (a =? b)%string
  | _, _ => false
  end.

(** Modelled from the spec: [trace_multipolygon] of [trace_osm.h] (not
    part of the sources), after section 4.4: the member ways are taken in
    the declared order, each one is traced on its own and appended as one
    ring, the identifier of the member labels the ring, and a ring that
    does not close is an [UnclosedRingError] of its way. *)
Fixpoint trace_rings (ways : Ways) (nodes : Nodes)
    (members : list (osmid_t * string)) (t : traced string)
    : result (traced string) :=
  match members with
  | [] => Ok t
  | (w, _) :: members' =>
      match trace_way ways nodes w with
      | Ok (lons, lats, labels) =>
          if ring_closed labels then
            trace_rings ways nodes members'
              {| lon_vec := lon_vec t ++ [lons];
                 lat_vec := lat_vec t ++ [lats];
                 rowname_vec := rowname_vec t ++ [labels];
                 ids := ids t ++ [to_string w] |}
          else Raise (UnclosedRingError w)
      | Raise e => Raise e
      | Undef => Undef
      end
  end.

(** Modelled from the spec: [trace_multipolygon (itr, ways, nodes, lon_vec,
    lat_vec, rowname_vec, ids)], the rings of the members appended to the
    four vectors. *)
Definition trace_multipolygon_spec (r : Relation) (ways : Ways)
    (nodes : Nodes) (t : traced string) : result (traced string) :=
  trace_rings ways nodes (r_ways r) t.
End Model.

Arguments lon_vec {float T} _.
Arguments lat_vec {float T} _.
Arguments rowname_vec {float T} _.
Arguments ids {float T} _.
Arguments lon_arr {float T} _.
Arguments lat_arr {float T} _.
Arguments rowname_arr {float T} _.
Arguments id_vec {float T} _.
Arguments rel_id {float T} _.
Arguments kv_mat {float T} _.
Arguments count {float T} _.

(** ** Vocabulary of the statements *)

(** The storage of a matrix has one cell for each row and column. *)
Definition mat_ok (m : CharacterMatrix) : Prop :=
  length (cm_data m) = cm_nrow m * cm_ncol m.

(** The tag map holds a tag whose key has column [j] under [keys]. *)
Definition tag_at (keys : list string) (kv : tags) (j : nat) (v : string)
    : Prop :=
  exists k, In (k, v) kv /\ set_index String.ltb k keys = j.

(** Every key of the tag map is one of [keys]. *)
Definition keys_known (keys : list string) (kv : tags) : Prop :=
  forall k v, In (k, v) kv -> In k keys.

(** The error of R for a write to a matrix of [len] cells at an offset
    that is not one of them. *)
Definition write_outside (len : nat) (e : exn) : Prop :=
  exists off, len <= off /\ e = set_index_error "SET_STRING_ELT" off len.

(** Row [i] of the matrix is the attribute row of the tag map: the value
    of each tag under the column of its key, [NA_STRING] elsewhere. *)
Definition row_is (keys : list string) (kv : tags) (m : CharacterMatrix)
    (i : nat) : Prop :=
  (forall j v, tag_at keys kv j v -> mat_get m i j = Chr v) /\
  (forall j, j < cm_ncol m -> (forall v, ~ tag_at keys kv j v) ->
             mat_get m i j = NA_STRING).

(** Row [i] of the matrix is the row that the specification describes
    for the tag map under [keys]: one cell for each key, the value of
    each tag in the column of its key, and [NA_STRING] in every other
    column. *)
Definition attribute_row (keys : list string) (kv : tags)
    (m : CharacterMatrix) (i : nat) : Prop :=
  length (mat_row m i) = length keys /\
  (forall k v,
      In (k, v) kv ->
      nth_error keys (set_index String.ltb k keys) = Some k /\
      nth_error (mat_row m i) (set_index String.ltb k keys)
      = Some (Chr v)) /\
  (forall j,
      j < length keys ->
      (forall k v, In (k, v) kv -> set_index String.ltb k keys <> j) ->
      nth_error (mat_row m i) j = Some NA_STRING).

(** The tag map of a node, a way or a relation is a [std::map]. *)
Definition tags_ok (kv : tags) : Prop := map_ok String.ltb kv.

(** The test of [rcpp_osmdata_sf] on the nodes of a way:
    [nodes.front () == nodes.back ()]. *)
Definition same_endpoints (v : list osmid_t) : bool :=
  match front v, back v with
  | Some a, Some b => (a =? b)%Z
  | _, _ => false
  end.

Definition closed_way (itw : osmid_t * OneWay) : bool :=
  same_endpoints (w_nodes (snd itw)).

(** A closed way in the words of the specification (section 3): the first
    identifier is the last one, and the sequence has more than one. *)
Definition closed_spec (v : list osmid_t) : bool :=
  same_endpoints v && (1 <? length v)%nat.

(** The relations of the two branches of [get_osm_relations]. *)
Definition poly_rels (rels : Relations) : list Relation :=
  filter r_ispoly rels.

Definition line_rels (rels : Relations) : list Relation :=
  filter (fun r => negb (r_ispoly r)) rels.

(** The line strings that the other relations give: for each relation in
    turn, one for each role of its role set, in the order of the set. *)
Definition line_items (rels : Relations) : list (Relation * string) :=
  flat_map (fun r => map (pair r) (roles_set_of r)) (line_rels rels).

Definition item_label (x : Relation * string) : string :=
  role_label (r_id (fst x)) (snd x).

Definition rel_label (r : Relation) : string := to_string (r_id r).

(** A check ends normally and establishes [P], or throws a
    [StructuralMismatchError] of two different lengths and [P] fails. *)
Definition checked (st : status) (P : Prop) : Prop :=
  (st = Done /\ P) \/
  (exists collection len1 len2,
      len1 <> len2 /\
      st = Throw (StructuralMismatchError collection len1 len2) /\ ~ P).

(** ** A small entity graph

    Coordinates are integers, a traced way is the list of the coordinates
    of its nodes, and a data frame is the matrix it is made of. *)

Definition ex_node (lon lat : Z) (kv : tags) : @Node Z :=
  {| n_lon := lon; n_lat := lat; n_key_val := kv |}.

Definition ex_nodes : list (osmid_t * @Node Z) :=
  [(1%Z, ex_node 10 50 [("name", "a")]);
   (2%Z, ex_node 11 51 []);
   (3%Z, ex_node 12 52 [("amenity", "cafe"); ("name", "c")]);
   (4%Z, ex_node 13 53 [])].

Definition ex_unique_vals : UniqueVals :=
  {| k_point := ["amenity"; "name"];
     k_way := ["highway"; "name"];
     k_rel := ["name"; "type"] |}.

(** The same keys without [name], which the nodes carry. *)
Definition ex_short_vals : UniqueVals :=
  {| k_point := ["amenity"];
     k_way := ["highway"; "name"];
     k_rel := ["name"; "type"] |}.

Definition ex_restructure (m : CharacterMatrix) (_ : bool)
    : CharacterMatrix := m.

Definition ex_list (n : nat) : @RcppList Z (list (Z * Z)) unit unit :=
  new_list n.

Definition ex_frame : CharacterMatrix := new_matrix 0 0.

(** Three ways: a ring, an open way, and a way of a single node. *)
Definition ex_ways : Ways :=
  [(10%Z, {| w_key_val := [("name", "ring")];
             w_nodes := [1; 2; 3; 1]%Z |});
   (11%Z, {| w_key_val := [("highway", "path")];
             w_nodes := [2; 4]%Z |});
   (12%Z, {| w_key_val := []; w_nodes := [3%Z] |})].

(** A polygon relation of two members, a relation whose three members
    carry two roles, and a relation without members. *)
Definition ex_lake : Relation :=
  {| r_id := 100%Z; r_ispoly := true;
     r_key_val := [("name", "lake"); ("type", "multipolygon")];
     r_ways := [(10%Z, "outer"); (12%Z, "inner")] |}.

Definition ex_route : Relation :=
  {| r_id := 101%Z; r_ispoly := false;
     r_key_val := [("type", "route")];
     r_ways := [(11%Z, ""); (10%Z, "alt"); (11%Z, "")] |}.

Definition ex_bare : Relation :=
  {| r_id := 102%Z; r_ispoly := false; r_key_val := []; r_ways := [] |}.

Definition ex_rels : Relations := [ex_lake; ex_route; ex_bare].

Definition ex_way_nodes (ways : Ways) (id : osmid_t) : list osmid_t :=
  match map_find Z.ltb id ways with
  | Some w => w_nodes w
  | None => []
  end.

Definition ex_coords (nodes : @Nodes Z) (ids : list osmid_t)
    : list (Z * Z) :=
  flat_map (fun id =>
              match map_find Z.ltb id nodes with
              | Some n => [(n_lon n, n_lat n)]
              | None => []
              end) ids.

Definition ex_trace_way_nmat (ways : Ways) (nodes : @Nodes Z)
    (id : osmid_t) : result (list (Z * Z)) :=
  Ok (ex_coords nodes (ex_way_nodes ways id)).

Definition ex_trace_way (ways : Ways) (nodes : @Nodes Z) (id : osmid_t)
    : result (list Z * list Z * list string) :=
  let c := ex_coords nodes (ex_way_nodes ways id) in
  Ok (map fst c, map snd c, map to_string (ex_way_nodes ways id)).

Definition ex_members (r : Relation) (role : string)
    : list (osmid_t * string) :=
  filter (fun w => (snd w =? role)%string) (r_ways r).

(** One entry for each member way of the role. *)
Definition ex_trace_multilinestring (r : Relation) (role : string)
    (ways : Ways) (nodes : @Nodes Z) (t : @traced Z osmid_t)
    : result (@traced Z osmid_t) :=
  let ws := map fst (ex_members r role) in
  Ok {| lon_vec :=
          lon_vec t
          ++ map (fun w => map fst (ex_coords nodes (ex_way_nodes ways w)))
               ws;
        lat_vec :=
          lat_vec t
          ++ map (fun w => map snd (ex_coords nodes (ex_way_nodes ways w)))
               ws;
        rowname_vec :=
          rowname_vec t
          ++ map (fun w => map to_string (ex_way_nodes ways w)) ws;
        ids := ids t ++ ws |}.

(** A tracer that forgets the latitudes. *)
Definition ex_trace_no_lat (r : Relation) (role : string)
    (ways : Ways) (nodes : @Nodes Z) (t : @traced Z osmid_t)
    : result (@traced Z osmid_t) :=
  match ex_trace_multilinestring r role ways nodes t with
  | Ok t' =>
      Ok {| lon_vec := lon_vec t'; lat_vec := lat_vec t;
            rowname_vec := rowname_vec t'; ids := ids t' |}
  | stopped => stopped
  end.

Definition ex_trace_multipolygon (r : Relation) (ways : Ways)
    (nodes : @Nodes Z) (t : @traced Z string) : result (@traced Z string) :=
  trace_multipolygon_spec ex_trace_way r ways nodes t.

Definition ex_convert (T : Type) (lon_arr lat_arr : list (list (list Z)))
    (rowname_arr : list (list (list string))) (id_vec : list (list T))
    (rel_id : list string) (kind : string)
    : @RcppList Z (list (Z * Z)) unit unit :=
  {| elts :=
       map (fun g =>
              MatrixList
                (map (fun p => combine (fst p) (snd p))
                   (combine (fst g) (snd g)))
                [("class", Strings ["XY"; kind; "sfg"])])
         (combine lon_arr lat_arr);
     attrs := [("names", Strings rel_id)] |}.

Definition ex_as_list (d : @TableValue CharacterMatrix)
    : @RcppList Z (list (Z * Z)) unit unit :=
  new_list 0.

(** The two calls on the small graph. *)
Abbreviation ex_relations tracer :=
  (get_osm_relations ex_trace_multipolygon tracer ex_convert ex_restructure
     ex_frame ex_rels ex_nodes ex_ways ex_unique_vals tt tt).

Abbreviation ex_osmdata :=
  (rcpp_osmdata_sf ex_trace_multipolygon ex_trace_multilinestring
     ex_trace_way_nmat ex_convert ex_restructure ex_frame ex_as_list
     ex_frame ex_nodes ex_ways ex_rels ex_unique_vals tt tt).

(** A tracer of ways that misses way [bad], and tracers of relations that
    raise at once. *)
Definition ex_trace_without (bad : osmid_t) (ways : Ways) (nodes : @Nodes Z)
    (id : osmid_t) : result (list (Z * Z)) :=
  if (id =? bad)%Z then Raise (MissingNodeError 0%Z id)
  else ex_trace_way_nmat ways nodes id.

Definition ex_trace_unclosed (r : Relation) (ways : Ways)
    (nodes : @Nodes Z) (t : @traced Z string) : result (@traced Z string) :=
  Raise (UnclosedRingError (r_id r)).

Definition ex_trace_missing (r : Relation) (role : string) (ways : Ways)
    (nodes : @Nodes Z) (t : @traced Z osmid_t)
    : result (@traced Z osmid_t) :=
  Raise (MissingNodeError 0%Z (r_id r)).

(** Tracers that refuse vectors that are not empty. *)
Definition ex_strict_multipolygon (r : Relation) (ways : Ways)
    (nodes : @Nodes Z) (t : @traced Z string) : result (@traced Z string) :=
  match lon_vec t with
  | [] => ex_trace_multipolygon r ways nodes t
  | _ => Raise (runtime_error "vectors in use")
  end.

Definition ex_strict_multilinestring (r : Relation) (role : string)
    (ways : Ways) (nodes : @Nodes Z) (t : @traced Z osmid_t)
    : result (@traced Z osmid_t) :=
  match lon_vec t with
  | [] => ex_trace_multilinestring r role ways nodes t
  | _ => Raise (runtime_error "vectors in use")
  end.

(** A way without nodes. *)
Definition ex_hollow_ways : Ways :=
  [(20%Z, {| w_key_val := []; w_nodes := [] |})].

(** ** Invariants of the loops *)

Section NodeInvariants.
Context {float NumericMatrix BBox CRS : Type}.

Local Abbreviation RList := (@RcppList float NumericMatrix BBox CRS).
Local Abbreviation NodeT := (@Node float).
Local Abbreviation frame := (@node_frame float NumericMatrix BBox CRS).

(** What holds of the frame after the nodes [pre], in a loop over [nodes]
    that started with the list [ptList]. *)
Definition nodes_inv (ptList : RList) (nodes : list (osmid_t * NodeT))
    (unique_vals : UniqueVals) (pre : list (osmid_t * NodeT)) (f : frame)
    : Prop :=
  nf_count f = length pre /\
  nf_ptnames f = map (fun x => to_string (fst x)) pre /\
  mat_ok (nf_kv_mat f) /\
  cm_nrow (nf_kv_mat f) = length nodes /\
  cm_ncol (nf_kv_mat f) = length (k_point unique_vals) /\
  cm_names (nf_kv_mat f) = None /\
  length (elts (nf_ptList f)) = length (elts ptList) /\
  attrs (nf_ptList f) = attrs ptList /\
  (forall i x, nth_error pre i = Some x ->
     nth_error (elts (nf_ptList f)) i = Some (point_geometry (snd x)) /\
     keys_known (k_point unique_vals) (n_key_val (snd x)) /\
     row_is (k_point unique_vals) (n_key_val (snd x)) (nf_kv_mat f) i) /\
  (forall i j, length pre <= i -> i < length nodes ->
     j < length (k_point unique_vals) ->
     mat_get (nf_kv_mat f) i j = NA_STRING).

(** The part of the invariant that needs nothing of the tag maps. *)
Definition nodes_shape (nodes : list (osmid_t * NodeT))
    (unique_vals : UniqueVals) (pre : list (osmid_t * NodeT)) (f : frame)
    : Prop :=
  nf_count f = length pre /\
  mat_ok (nf_kv_mat f) /\
  cm_nrow (nf_kv_mat f) = length nodes /\
  cm_ncol (nf_kv_mat f) = length (k_point unique_vals) /\
  length (elts (nf_ptList f)) = length nodes.
End NodeInvariants.

Section WayInvariants.
Context {float NumericMatrix BBox CRS : Type}.
Variable trace_way_nmat :
  Ways -> @Nodes float -> osmid_t -> result NumericMatrix.

Local Abbreviation RList := (@RcppList float NumericMatrix BBox CRS).
Local Abbreviation NodeT := (@Node float).
Local Abbreviation frame := (@way_frame float NumericMatrix BBox CRS).

(** What holds of the frame after the ways [pre], in a loop over
    [way_ids] that started with the list [wayList]. *)
Definition ways_inv (wayList : RList) (way_ids : list osmid_t)
    (ways : Ways) (nodes : list (osmid_t * NodeT))
    (unique_vals : UniqueVals) (geom_type : string)
    (pre : list osmid_t) (f : frame) : Prop :=
  wf_count f = length pre /\
  wf_waynames f = map to_string pre /\
  mat_ok (wf_kv_mat f) /\
  cm_nrow (wf_kv_mat f) = length way_ids /\
  cm_ncol (wf_kv_mat f) = length (k_way unique_vals) /\
  length (elts (wf_wayList f)) = length (elts wayList) /\
  attrs (wf_wayList f) = attrs wayList /\
  (forall i wi,
      nth_error pre i = Some wi ->
      exists nmat w,
        trace_way_nmat ways nodes wi = Ok nmat /\
        nth_error (elts (wf_wayList f)) i
        = Some (way_geometry geom_type nmat) /\
        In (wi, w) ways /\
        keys_known (k_way unique_vals) (w_key_val w) /\
        row_is (k_way unique_vals) (w_key_val w) (wf_kv_mat f) i).
End WayInvariants.

Section CollectInvariants.
Context {float : Type} {X T : Type}.
Variable trace : X -> result (@traced float T).
Variable label : X -> string.
Variable owner : X -> Relation.
Variable unique_vals : UniqueVals.
Variable nrow : nat.

(** What has been collected for [items]: for each of them, at its
    position, its label, what its trace returned, and the attribute row
    of the relation it comes from. *)
Definition collects (items : list X) (c : @collected float T) : Prop :=
  count c = length items /\
  rel_id c = map label items /\
  length (lon_arr c) = length items /\
  length (lat_arr c) = length items /\
  length (rowname_arr c) = length items /\
  length (id_vec c) = length items /\
  mat_ok (kv_mat c) /\
  cm_nrow (kv_mat c) = nrow /\
  cm_ncol (kv_mat c) = length (k_rel unique_vals) /\
  forall i x,
    nth_error items i = Some x ->
    (exists t,
        trace x = Ok t /\
        nth_error (lon_arr c) i = Some (lon_vec t) /\
        nth_error (lat_arr c) i = Some (lat_vec t) /\
        nth_error (rowname_arr c) i = Some (rowname_vec t) /\
        nth_error (id_vec c) i = Some (ids t)) /\
    keys_known (k_rel unique_vals) (r_key_val (owner x)) /\
    row_is (k_rel unique_vals) (r_key_val (owner x)) (kv_mat c) i.

(** The part of [collects] that needs nothing of the tag maps: the
    labels, the traces and the number of rows. *)
Definition gathers (items : list X) (c : @collected float T) : Prop :=
  count c = length items /\
  rel_id c = map label items /\
  length (lon_arr c) = length items /\
  length (lat_arr c) = length items /\
  length (rowname_arr c) = length items /\
  length (id_vec c) = length items /\
  cm_nrow (kv_mat c) = nrow /\
  forall i x,
    nth_error items i = Some x ->
    exists t,
      trace x = Ok t /\
      nth_error (lon_arr c) i = Some (lon_vec t) /\
      nth_error (lat_arr c) i = Some (lat_vec t) /\
      nth_error (rowname_arr c) i = Some (rowname_vec t) /\
      nth_error (id_vec c) i = Some (ids t).
End CollectInvariants.

Section RelationInvariants.
Context {float : Type}.
Variable trace_multipolygon :
  Relation -> Ways -> @Nodes float -> @traced float string ->
  result (@traced float string).
Variable trace_multilinestring :
  Relation -> string -> Ways -> @Nodes float -> @traced float osmid_t ->
  result (@traced float osmid_t).
Variable ways : Ways.
Variable nodes : @Nodes float.
Variable unique_vals : UniqueVals.

Local Abbreviation frame := (@rel_frame float).

(** The vectors of a tracer when it is called: empty. *)
Definition empty_traced (T : Type) : @traced float T :=
  {| lon_vec := []; lat_vec := []; rowname_vec := []; ids := [] |}.

(** The trace of a polygon relation, and the trace of one role of another
    relation, as the loop calls them. *)
Definition trace_poly (r : Relation) : result (@traced float string) :=
  trace_multipolygon r ways nodes (empty_traced string).

Definition trace_line (x : Relation * string)
    : result (@traced float osmid_t) :=
  trace_multilinestring (fst x) (snd x) ways nodes (empty_traced osmid_t).

Definition buffers_empty (f : frame) : Prop :=
  f_lon_vec f = [] /\ f_lat_vec f = [] /\ f_rowname_vec f = [] /\
  f_ids_mp f = [] /\ f_ids_ls f = [].

(** What holds of the frame after the relations [pre], in the loop over
    [rels]. *)
Definition rel_inv (rels pre : Relations) (f : frame) : Prop :=
  buffers_empty f /\
  f_roles f = [] /\
  f_roles_ls f = map roles_set_of (line_rels pre) /\
  collects trace_poly rel_label (fun r => r) unique_vals
    (length (poly_rels rels)) (poly_rels pre) (f_mp f) /\
  collects trace_line item_label fst unique_vals
    (length (line_items rels)) (line_items pre) (f_ls f).

(** What holds of the frame after the roles [rpre] of relation [r], in
    the loop over its roles that started from frame [f0]. *)
Definition roles_inv (rels pre : Relations) (r : Relation) (f0 : frame)
    (rpre : list string) (f : frame) : Prop :=
  buffers_empty f /\
  f_roles f = f_roles f0 /\
  f_roles_ls f = f_roles_ls f0 /\
  f_mp f = f_mp f0 /\
  collects trace_line item_label fst unique_vals
    (length (line_items rels)) (line_items pre ++ map (pair r) rpre)
    (f_ls f).

(** The labels, the traces and the numbers of rows after the relations
    [pre], whatever the tag maps are. *)
Definition rel_light (rels pre : Relations) (f : frame) : Prop :=
  buffers_empty f /\
  f_roles f = [] /\
  f_roles_ls f = map roles_set_of (line_rels pre) /\
  gathers trace_poly rel_label (length (poly_rels rels)) (poly_rels pre)
    (f_mp f) /\
  gathers trace_line item_label (length (line_items rels)) (line_items pre)
    (f_ls f).

(** The same after the roles [rpre] of relation [r], in the loop over
    its roles that started from frame [f0]. *)
Definition roles_light (rels pre : Relations) (r : Relation) (f0 : frame)
    (rpre : list string) (s : frame) : Prop :=
  buffers_empty s /\
  f_roles s = roles_set_of r /\
  f_roles_ls s = f_roles_ls f0 /\
  f_mp s = f_mp f0 /\
  gathers trace_line item_label (length (line_items rels))
    (line_items pre ++ map (pair r) rpre) (f_ls s).

(** The two tables keep their storage and their columns. *)
Definition tables_ok (f : frame) : Prop :=
  mat_ok (kv_mat (f_mp f)) /\
  cm_ncol (kv_mat (f_mp f)) = length (k_rel unique_vals) /\
  mat_ok (kv_mat (f_ls f)) /\
  cm_ncol (kv_mat (f_ls f)) = length (k_rel unique_vals).
End RelationInvariants.

Section ReturnedValues.
Context {float NumericMatrix DataFrame BBox CRS : Type}.
Variable convert_poly_linestring_to_Rcpp :
  forall T : Type,
    list (list (list float)) -> list (list (list float)) ->
    list (list (list string)) -> list (list T) -> list string -> string ->
    @RcppList float NumericMatrix BBox CRS.
Variable restructure_kv_mat : CharacterMatrix -> bool -> DataFrame.
Variable as_data_frame_null : DataFrame.

Local Abbreviation frame := (@rel_frame float).
Local Abbreviation ret_t :=
  (@relations_ret float NumericMatrix DataFrame BBox CRS).

(** The table of one kind of relation when the names fit the matrix: made
    from the matrix of the rows when there is a label, and what the
    assignment of the null value stores when there is none. *)
Definition table_of {T : Type} (c : @collected float T)
    (unique_vals : UniqueVals) (ls : bool) : DataFrame :=
  if (0 <? length (rel_id c))%nat then
    restructure_kv_mat
      (set_matrix_dimnames (with_names (kv_mat c) (k_rel unique_vals))
         (rel_id c) (k_rel unique_vals)) ls
  else as_data_frame_null.

(** The list of four made from the frame that the loop leaves. *)
Definition ret_of (f : frame) (unique_vals : UniqueVals) (bbox : BBox)
    (crs : CRS) : ret_t :=
  {| polygonList :=
       rel_geometries convert_poly_linestring_to_Rcpp (f_mp f)
         "MULTIPOLYGON" bbox crs;
     kv_df_mp := FrameValue (table_of (f_mp f) unique_vals false);
     linestringList :=
       rel_geometries convert_poly_linestring_to_Rcpp (f_ls f)
         "MULTILINESTRING" bbox crs;
     kv_df_ls := FrameValue (table_of (f_ls f) unique_vals true) |}.

(** The parallel arrays of the frame have equal lengths at every level. *)
Definition frame_aligned (f : frame) : Prop :=
  (aligned3 (lon_arr (f_mp f)) (lat_arr (f_mp f)) /\
   aligned3 (lon_arr (f_mp f)) (rowname_arr (f_mp f))) /\
  (aligned3 (lon_arr (f_ls f)) (lat_arr (f_ls f)) /\
   aligned3 (lon_arr (f_ls f)) (rowname_arr (f_ls f))) /\
  aligned_ids (lon_arr (f_ls f)) (id_vec (f_ls f)) /\
  aligned_ids (lon_arr (f_mp f)) (id_vec (f_mp f)).
End ReturnedValues.

(** ** Geometry columns *)

Section ColumnVocabulary.
Context {float NumericMatrix BBox CRS : Type}.

(** A list carries the attributes of a geometry column of class [class]
    for the bounding box [bbox] and the reference system [crs]. *)
Definition sfc_column (class : string) (bbox : BBox) (crs : CRS)
    (l : @RcppList float NumericMatrix BBox CRS) : Prop :=
  get_attr "n_empty" (attrs l) = Some (Integer 0) /\
  get_attr "class" (attrs l) = Some (Strings [class; "sfc"]) /\
  get_attr "precision" (attrs l) = Some Real_zero /\
  get_attr "bbox" (attrs l) = Some (Bbox bbox) /\
  get_attr "crs" (attrs l) = Some (Crs crs).
End ColumnVocabulary.

(** ** Tactics for concrete tag maps *)

(** A concrete list of tag maps is sorted by key. *)
Ltac sorted_tags :=
  repeat first [ apply Forall_nil | apply Forall_cons ];
  unfold tags_ok, map_ok, set_ok; simpl;
  repeat first [ apply SSorted_nil | apply SSorted_cons
               | apply Forall_nil | apply Forall_cons | reflexivity ].

(** Every key of a concrete list of tag maps is registered. *)
Ltac known_keys :=
  repeat first [ apply Forall_nil | apply Forall_cons ];
  intros k v Hin; simpl in Hin;
  repeat match goal with
         | H : _ \/ _ |- _ => destruct H
         | H : (_, _) = (_, _) |- _ => inversion H; subst; clear H
         | H : False |- _ => destruct H
         end;
  simpl; tauto.

(** * Properties *)

(** ** Loops *)

Lemma for_each_app {X S : Type} (body : X -> S -> S * status)
    (xs ys : list X) (s : S) :
  for_each body (xs ++ ys) s =
  match for_each body xs s with
  | (s', Done) => for_each body ys s'
  | stopped => stopped
  end.
Proof.
  revert s; induction xs as [|x xs IH]; intros s; simpl.
  - reflexivity.
  - destruct (body x s) as [s' [| e |]]; auto.
Qed.

(** An invariant of the frame, indexed by the elements already visited. *)
Lemma for_each_invariant {X S : Type} (body : X -> S -> S * status)
    (Inv : list X -> S -> Prop) (xs : list X) :
  (forall pre x suf s s',
      xs = pre ++ x :: suf -> Inv pre s -> body x s = (s', Done) ->
      Inv (pre ++ [x]) s') ->
  forall s0 s, Inv [] s0 -> for_each body xs s0 = (s, Done) -> Inv xs s.
Proof.
  intros Hstep.
  assert (G : forall suf pre s0 s,
             xs = pre ++ suf -> Inv pre s0 ->
             for_each body suf s0 = (s, Done) -> Inv xs s).
  { induction suf as [|x suf IH]; intros pre s0 s Hxs Hinv Hrun; simpl in Hrun.
    - inversion Hrun; subst. now rewrite app_nil_r.
    - destruct (body x s0) as [s1 st] eqn:Hb.
      destruct st; try discriminate.
      apply (IH (pre ++ [x]) s1 s); auto.
      + now rewrite <- app_assoc.
      + eapply Hstep; eauto. }
  intros s0 s Hinv Hrun. apply (G xs [] s0 s); auto.
Qed.

(** A loop whose every iteration ends normally ends normally. *)
Lemma for_each_total {X S : Type} (body : X -> S -> S * status)
    (Inv : list X -> S -> Prop) (xs : list X) :
  (forall pre x suf s,
      xs = pre ++ x :: suf -> Inv pre s ->
      exists s', body x s = (s', Done) /\ Inv (pre ++ [x]) s') ->
  forall s0, Inv [] s0 ->
  exists s, for_each body xs s0 = (s, Done) /\ Inv xs s.
Proof.
  intros Hstep.
  assert (G : forall suf pre s0,
             xs = pre ++ suf -> Inv pre s0 ->
             exists s, for_each body suf s0 = (s, Done) /\ Inv xs s).
  { induction suf as [|x suf IH]; intros pre s0 Hxs Hinv; simpl.
    - exists s0. split; auto. now rewrite Hxs, app_nil_r.
    - destruct (Hstep pre x suf s0 Hxs Hinv) as (s1 & Hb & Hinv1).
      rewrite Hb. apply (IH (pre ++ [x]) s1); auto.
      now rewrite <- app_assoc. }
  intros s0 Hinv. apply (G xs [] s0); auto.
Qed.

(** ** Vectors *)

Lemma vec_set_some {A : Type} (v : list A) (i : nat) (x : A) :
  i < length v -> exists v', vec_set v i x = Some v'.
Proof.
  revert i; induction v as [|h t IH]; intros [|i] Hi; simpl in *; try lia.
  - eexists; reflexivity.
  - destruct (IH i) as (t' & ->); [lia|]. eexists; reflexivity.
Qed.

Lemma vec_set_none {A : Type} (v : list A) (i : nat) (x : A) :
  length v <= i -> vec_set v i x = None.
Proof.
  revert i; induction v as [|h t IH]; intros [|i] Hi; simpl in *;
    try reflexivity; try lia.
  rewrite IH; [reflexivity | lia].
Qed.

Lemma vec_set_length {A : Type} (v v' : list A) (i : nat) (x : A) :
  vec_set v i x = Some v' -> length v' = length v /\ i < length v.
Proof.
  revert i v'; induction v as [|h t IH]; intros [|i] v' H; simpl in *;
    try discriminate.
  - inversion H; subst; simpl; lia.
  - destruct (vec_set t i x) as [t'|] eqn:E; try discriminate.
    inversion H; subst; simpl. destruct (IH _ _ E). lia.
Qed.

Lemma vec_set_nth_eq {A : Type} (v v' : list A) (i : nat) (x d : A) :
  vec_set v i x = Some v' -> nth i v' d = x.
Proof.
  revert i v'; induction v as [|h t IH]; intros [|i] v' H; simpl in *;
    try discriminate.
  - inversion H; reflexivity.
  - destruct (vec_set t i x) as [t'|] eqn:E; try discriminate.
    inversion H; subst; simpl. eauto.
Qed.

Lemma vec_set_nth_ne {A : Type} (v v' : list A) (i j : nat) (x d : A) :
  vec_set v i x = Some v' -> j <> i -> nth j v' d = nth j v d.
Proof.
  revert i j v'; induction v as [|h t IH]; intros [|i] [|j] v' H Hne;
    simpl in *; try discriminate; try lia.
  - inversion H; reflexivity.
  - destruct (vec_set t i x); try discriminate. inversion H; reflexivity.
  - destruct (vec_set t i x) as [t'|] eqn:E; try discriminate.
    inversion H; subst; simpl. eapply IH; eauto.
Qed.

Lemma vec_set_nth_error_eq {A : Type} (v v' : list A) (i : nat) (x : A) :
  vec_set v i x = Some v' -> nth_error v' i = Some x.
Proof.
  revert i v'; induction v as [|h t IH]; intros [|i] v' H; simpl in *;
    try discriminate.
  - inversion H; reflexivity.
  - destruct (vec_set t i x) as [t'|] eqn:E; try discriminate.
    inversion H; subst; simpl. eauto.
Qed.

Lemma vec_set_nth_error_ne {A : Type} (v v' : list A) (i j : nat) (x : A) :
  vec_set v i x = Some v' -> j <> i -> nth_error v' j = nth_error v j.
Proof.
  revert i j v'; induction v as [|h t IH]; intros [|i] [|j] v' H Hne;
    simpl in *; try discriminate; try lia.
  - inversion H; reflexivity.
  - destruct (vec_set t i x); try discriminate. inversion H; reflexivity.
  - destruct (vec_set t i x) as [t'|] eqn:E; try discriminate.
    inversion H; subst; simpl. eapply IH; eauto.
Qed.

Lemma back_app {A : Type} (v : list A) (x : A) : back (v ++ [x]) = Some x.
Proof.
  induction v as [|h t IH]; simpl; auto.
  destruct (t ++ [x]) eqn:E; auto.
  destruct t; discriminate.
Qed.

Lemma nth_error_lt {A : Type} (l : list A) (i : nat) (x : A) :
  nth_error l i = Some x -> i < length l.
Proof. intros H. apply nth_error_Some. congruence. Qed.

Lemma nth_error_snoc {A : Type} (pre : list A) (x y : A) (i : nat) :
  nth_error (pre ++ [x]) i = Some y ->
  (i < length pre /\ nth_error pre i = Some y) \/
  (i = length pre /\ y = x).
Proof.
  intros H. destruct (Nat.lt_ge_cases i (length pre)) as [Hlt | Hge].
  - left. split; auto. now rewrite nth_error_app1 in H.
  - right. rewrite nth_error_app2 in H by assumption.
    destruct (i - length pre) as [|k] eqn:E; simpl in H.
    + inversion H; subst. split; [lia | reflexivity].
    + destruct k; discriminate.
Qed.

(** ** Ordered containers *)

Section OrderedFacts.
Context {K : Type} (ltb : K -> K -> bool).
Hypothesis ltb_irrefl : forall x, ltb x x = false.
Hypothesis ltb_trans :
  forall x y z, ltb x y = true -> ltb y z = true -> ltb x z = true.
Hypothesis ltb_total :
  forall x y, ltb x y = false -> ltb y x = false -> x = y.

Lemma equivb_eq (x y : K) : equivb ltb x y = true <-> x = y.
Proof.
  unfold equivb. split.
  - intros H. apply andb_true_iff in H as [H1 H2].
    apply negb_true_iff in H1, H2. now apply ltb_total.
  - intros ->. now rewrite ltb_irrefl.
Qed.

Lemma equivb_neq (x y : K) : equivb ltb x y = false <-> x <> y.
Proof.
  rewrite <- equivb_eq. destruct (equivb ltb x y); intuition congruence.
Qed.

Lemma set_mem_In (x : K) (s : list K) : set_mem ltb x s = true <-> In x s.
Proof.
  induction s as [|y s IH]; simpl.
  - intuition discriminate.
  - rewrite orb_true_iff, IH, equivb_eq. intuition.
Qed.

Lemma set_insert_In (x y : K) (s : list K) :
  In y (set_insert ltb x s) <-> y = x \/ In y s.
Proof.
  induction s as [|z s IH]; simpl.
  - intuition.
  - destruct (ltb x z) eqn:E1; simpl; [intuition|].
    destruct (ltb z x) eqn:E2; simpl.
    + rewrite IH. intuition.
    + assert (x = z) by now apply ltb_total. subst. intuition.
Qed.

Lemma set_insert_ok (x : K) (s : list K) :
  set_ok ltb s -> set_ok ltb (set_insert ltb x s).
Proof.
  unfold set_ok. induction s as [|z s IH]; intros Hs; simpl.
  - repeat constructor.
  - inversion Hs as [|? ? Hs' Hz]; subst.
    destruct (ltb x z) eqn:E1.
    + constructor; [assumption|].
      constructor; [exact E1|].
      rewrite Forall_forall in *. intros w Hw.
      eapply ltb_trans; [exact E1|]. now apply Hz.
    + destruct (ltb z x) eqn:E2; [|assumption].
      constructor; [now apply IH|].
      rewrite Forall_forall in *. intros w Hw.
      apply set_insert_In in Hw as [-> | Hw]; [exact E2|].
      now apply Hz.
Qed.

Lemma set_of_list_ok (xs : list K) : set_ok ltb (set_of_list ltb xs).
Proof.
  unfold set_of_list.
  assert (G : forall s, set_ok ltb s ->
                set_ok ltb (fold_left (fun s x => set_insert ltb x s) xs s)).
  { induction xs as [|x xs IH]; intros s Hs; simpl; auto.
    apply IH. now apply set_insert_ok. }
  apply G. constructor.
Qed.

Lemma set_of_list_In (x : K) (xs : list K) :
  In x (set_of_list ltb xs) <-> In x xs.
Proof.
  unfold set_of_list.
  assert (G : forall s,
             In x (fold_left (fun s x => set_insert ltb x s) xs s) <->
             In x xs \/ In x s).
  { induction xs as [|y xs IH]; intros s; simpl.
    - intuition.
    - rewrite IH, set_insert_In. intuition. }
  rewrite G. simpl. intuition.
Qed.

Lemma set_ok_NoDup (s : list K) : set_ok ltb s -> NoDup s.
Proof.
  unfold set_ok. induction 1 as [|x s Hs IH Hx]; constructor; auto.
  intros Hin. rewrite Forall_forall in Hx. specialize (Hx x Hin).
  unfold lt_of in Hx. now rewrite ltb_irrefl in Hx.
Qed.

(** An element greater than all the others is inserted at the end. *)
Lemma set_insert_last (x : K) (s : list K) :
  Forall (fun y => ltb y x = true) s -> set_insert ltb x s = s ++ [x].
Proof.
  induction 1 as [|y s Hy Hs IH]; simpl; auto.
  destruct (ltb x y) eqn:E.
  - pose proof (ltb_trans _ _ _ E Hy) as C. now rewrite ltb_irrefl in C.
  - now rewrite Hy, IH.
Qed.

Lemma set_index_bound (x : K) (s : list K) : set_index ltb x s <= length s.
Proof.
  induction s as [|y s IH]; simpl; [lia|].
  destruct (equivb ltb x y); lia.
Qed.

(** [find] finds what the set holds. *)
Lemma set_index_In (x : K) (s : list K) :
  In x s ->
  set_index ltb x s < length s /\ nth_error s (set_index ltb x s) = Some x.
Proof.
  induction s as [|y s IH]; simpl; [tauto|].
  intros Hin. destruct (equivb ltb x y) eqn:E.
  - apply equivb_eq in E. subst. simpl. split; [lia | reflexivity].
  - apply equivb_neq in E. destruct Hin as [-> | Hin]; [congruence|].
    destruct (IH Hin). simpl. split; [lia | assumption].
Qed.

(** [find] returns [end ()] for anything else. *)
Lemma set_index_not_In (x : K) (s : list K) :
  ~ In x s -> set_index ltb x s = length s.
Proof.
  induction s as [|y s IH]; simpl; auto.
  intros Hin. destruct (equivb ltb x y) eqn:E.
  - apply equivb_eq in E. subst. tauto.
  - rewrite IH; tauto.
Qed.

Lemma set_index_lt_In (x : K) (s : list K) :
  set_index ltb x s < length s -> In x s.
Proof.
  induction s as [|y s IH]; simpl; [lia|].
  destruct (equivb ltb x y) eqn:E.
  - apply equivb_eq in E. auto.
  - intros H. right. apply IH. lia.
Qed.

Lemma set_index_inj (x y : K) (s : list K) :
  In x s -> set_index ltb x s = set_index ltb y s -> x = y.
Proof.
  intros Hx Heq. destruct (set_index_In x s Hx) as [Hlt Hnth].
  assert (Hy : In y s) by (apply set_index_lt_In; congruence).
  destruct (set_index_In y s Hy) as [_ Hnth'].
  congruence.
Qed.

Lemma set_index_nth (x : K) (s : list K) (j : nat) :
  NoDup s -> nth_error s j = Some x -> set_index ltb x s = j.
Proof.
  intros Hnd Hj.
  assert (Hin : In x s) by (eapply nth_error_In; eauto).
  destruct (set_index_In x s Hin) as [Hlt Hnth].
  apply (proj1 (NoDup_nth_error s) Hnd); congruence.
Qed.

Lemma map_find_In {V : Type} (k : K) (v : V) (m : list (K * V)) :
  map_ok ltb m -> In (k, v) m -> map_find ltb k m = Some v.
Proof.
  unfold map_ok. intros Hok. apply set_ok_NoDup in Hok.
  induction m as [|[k' v'] m IH]; simpl in *; [tauto|].
  inversion Hok as [|? ? Hnotin Hnd]; subst.
  intros [Heq | Hin].
  - inversion Heq; subst.
    assert (E : equivb ltb k k = true) by now apply equivb_eq.
    now rewrite E.
  - destruct (equivb ltb k k') eqn:E.
    + apply equivb_eq in E. subst. exfalso. apply Hnotin.
      change k' with (fst (k', v)). now apply in_map.
    + auto.
Qed.

Lemma map_find_Some {V : Type} (k : K) (v : V) (m : list (K * V)) :
  map_find ltb k m = Some v -> In (k, v) m.
Proof.
  induction m as [|[k' v'] m IH]; simpl; [discriminate|].
  destruct (equivb ltb k k') eqn:E.
  - apply equivb_eq in E. intros H. inversion H; subst. auto.
  - auto.
Qed.

Lemma map_find_None {V : Type} (k : K) (m : list (K * V)) :
  map_find ltb k m = None -> ~ In k (map fst m).
Proof.
  induction m as [|[k' v'] m IH]; simpl; [tauto|].
  destruct (equivb ltb k k') eqn:E; [discriminate|].
  apply equivb_neq in E. intros H [Heq | Hin]; [congruence|].
  now apply IH.
Qed.

Lemma map_find_defined {V : Type} (k : K) (m : list (K * V)) :
  In k (map fst m) -> exists v, map_find ltb k m = Some v.
Proof.
  induction m as [|[k' v'] m IH]; simpl; [tauto|].
  intros [-> | Hin].
  - assert (E : equivb ltb k k = true) by now apply equivb_eq.
    rewrite E. eexists; reflexivity.
  - destruct (equivb ltb k k'); [eexists; reflexivity | auto].
Qed.

(** Two sets with the same elements are the same sequence. *)
Lemma set_ok_unique (s t : list K) :
  set_ok ltb s -> set_ok ltb t -> (forall x, In x s <-> In x t) -> s = t.
Proof.
  unfold set_ok. intros Hs; revert t.
  induction Hs as [|x s Hs IH Hx]; intros t Ht Hiff.
  - destruct t as [|y t]; auto. exfalso. apply (Hiff y). now left.
  - destruct Ht as [|y t Ht Hy].
    + exfalso. apply (Hiff x). now left.
    + rewrite Forall_forall in Hx, Hy. unfold lt_of in *.
      assert (x = y).
      { destruct (proj1 (Hiff x) (or_introl eq_refl)) as [E | Hin]; auto.
        destruct (proj2 (Hiff y) (or_introl eq_refl)) as [E | Hin']; auto.
        pose proof (ltb_trans _ _ _ (Hy _ Hin) (Hx _ Hin')) as C.
        now rewrite ltb_irrefl in C. }
      subst y. f_equal. apply IH; auto.
      intros z. split; intros Hz.
      * destruct (proj1 (Hiff z) (or_intror Hz)) as [E | ?]; auto.
        subst z. specialize (Hx _ Hz). now rewrite ltb_irrefl in Hx.
      * destruct (proj2 (Hiff z) (or_intror Hz)) as [E | ?]; auto.
        subst z. specialize (Hy _ Hz). now rewrite ltb_irrefl in Hy.
Qed.
End OrderedFacts.

(** *** The order of identifiers and the order of strings *)

Lemma Zltb_irrefl (x : Z) : (x <? x)%Z = false.
Proof. apply Z.ltb_irrefl. Qed.

Lemma Zltb_trans (x y z : Z) :
  (x <? y)%Z = true -> (y <? z)%Z = true -> (x <? z)%Z = true.
Proof. rewrite !Z.ltb_lt. lia. Qed.

Lemma Zltb_total (x y : Z) :
  (x <? y)%Z = false -> (y <? x)%Z = false -> x = y.
Proof. rewrite !Z.ltb_ge. lia. Qed.

Lemma string_compare_refl (s : string) : String.compare s s = Eq.
Proof.
  induction s as [|c s IH]; simpl; auto.
  unfold Ascii.compare. now rewrite N.compare_refl.
Qed.

Lemma string_compare_lt_trans (s t u : string) :
  String.compare s t = Lt -> String.compare t u = Lt ->
  String.compare s u = Lt.
Proof.
  revert t u; induction s as [|a s IH]; intros [|b t] [|c u]; simpl;
    try discriminate; auto.
  unfold Ascii.compare.
  destruct (N.compare_spec (N_of_ascii a) (N_of_ascii b)) as [E1|L1|G1];
    try discriminate;
    destruct (N.compare_spec (N_of_ascii b) (N_of_ascii c)) as [E2|L2|G2];
    try discriminate; intros H1 H2.
  - rewrite E1, E2, N.compare_refl. eauto.
  - rewrite E1. apply N.compare_lt_iff in L2. now rewrite L2.
  - rewrite <- E2. apply N.compare_lt_iff in L1. now rewrite L1.
  - assert (L : (N_of_ascii a < N_of_ascii c)%N) by lia.
    apply N.compare_lt_iff in L. now rewrite L.
Qed.

Lemma string_ltb_irrefl (s : string) : String.ltb s s = false.
Proof. unfold String.ltb. now rewrite string_compare_refl. Qed.

Lemma string_ltb_trans (s t u : string) :
  String.ltb s t = true -> String.ltb t u = true -> String.ltb s u = true.
Proof.
  unfold String.ltb.
  destruct (String.compare s t) eqn:E1; try discriminate.
  destruct (String.compare t u) eqn:E2; try discriminate.
  now rewrite (string_compare_lt_trans _ _ _ E1 E2).
Qed.

Lemma string_ltb_total (s t : string) :
  String.ltb s t = false -> String.ltb t s = false -> s = t.
Proof.
  unfold String.ltb. rewrite (String.compare_antisym t s).
  destruct (String.compare s t) eqn:E; simpl; try discriminate.
  intros _ _. now apply String.compare_eq_iff.
Qed.

(** ** Character matrices *)

Lemma new_matrix_ok (nrow ncol : nat) : mat_ok (new_matrix nrow ncol).
Proof. unfold mat_ok; simpl. apply repeat_length. Qed.

Lemma fill_ok (m : CharacterMatrix) (c : cell) :
  mat_ok m -> mat_ok (fill m c).
Proof. unfold mat_ok; simpl. now rewrite length_map. Qed.

Lemma fill_get (m : CharacterMatrix) (c : cell) (i j : nat) :
  mat_ok m -> i < cm_nrow m -> j < cm_ncol m -> mat_get (fill m c) i j = c.
Proof.
  unfold mat_ok, mat_get; simpl. intros Hok Hi Hj.
  assert (Hlt : i + cm_nrow m * j < length (cm_data m)) by nia.
  destruct (nth_error (cm_data m) (i + cm_nrow m * j)) as [x|] eqn:E.
  - apply (map_nth_error (fun _ => c)) in E.
    now apply nth_error_nth.
  - apply nth_error_None in E. lia.
Qed.

Lemma mat_set_defined (m : CharacterMatrix) (i j : nat) (c : cell) :
  mat_ok m -> i < cm_nrow m -> j < cm_ncol m ->
  exists m', mat_set m i j c = Ok m'.
Proof.
  unfold mat_ok, mat_set. intros Hok Hi Hj.
  destruct (vec_set_some (cm_data m) (i + cm_nrow m * j) c) as (d & ->);
    [nia|].
  eexists; reflexivity.
Qed.

(** A column from [cm_ncol] on is outside the storage, whatever the row:
    the write is an error of R. *)
Lemma mat_set_outside (m : CharacterMatrix) (i j : nat) (c : cell) :
  mat_ok m -> cm_ncol m <= j ->
  mat_set m i j c
  = Raise (set_index_error "SET_STRING_ELT" (i + cm_nrow m * j)
             (cm_nrow m * cm_ncol m)).
Proof.
  unfold mat_ok, mat_set. intros Hok Hj.
  rewrite vec_set_none; [now rewrite Hok | nia].
Qed.

Lemma mat_set_never_undefined (m : CharacterMatrix) (i j : nat) (c : cell) :
  mat_set m i j c <> Undef.
Proof.
  unfold mat_set. destruct (vec_set _ _ _); discriminate.
Qed.

Lemma mat_set_shape (m m' : CharacterMatrix) (i j : nat) (c : cell) :
  mat_set m i j c = Ok m' ->
  cm_nrow m' = cm_nrow m /\ cm_ncol m' = cm_ncol m /\
  cm_names m' = cm_names m /\ cm_dimnames m' = cm_dimnames m /\
  (mat_ok m -> mat_ok m') /\
  (mat_ok m -> i < cm_nrow m -> j < cm_ncol m).
Proof.
  unfold mat_set, mat_ok.
  destruct (vec_set (cm_data m) (i + cm_nrow m * j) c) as [d|] eqn:E;
    [|discriminate].
  intros H; inversion H; subst; simpl.
  apply vec_set_length in E as [E1 E2].
  repeat split; auto; try congruence.
  intros Hok Hi. rewrite Hok in E2. nia.
Qed.

Lemma mat_set_get_eq (m m' : CharacterMatrix) (i j : nat) (c : cell) :
  mat_set m i j c = Ok m' -> mat_get m' i j = c.
Proof.
  unfold mat_set, mat_get.
  destruct (vec_set (cm_data m) (i + cm_nrow m * j) c) as [d|] eqn:E;
    [|discriminate].
  intros H; inversion H; subst; simpl.
  eapply vec_set_nth_eq; eauto.
Qed.

Lemma mat_set_get_ne (m m' : CharacterMatrix) (i j i' j' : nat) (c : cell) :
  mat_set m i j c = Ok m' -> i < cm_nrow m -> i' < cm_nrow m ->
  (i', j') <> (i, j) -> mat_get m' i' j' = mat_get m i' j'.
Proof.
  unfold mat_set, mat_get.
  destruct (vec_set (cm_data m) (i + cm_nrow m * j) c) as [d|] eqn:E;
    [|discriminate].
  intros H Hi Hi' Hne; inversion H; subst; simpl.
  eapply vec_set_nth_ne; eauto.
  intros Heq. apply Hne.
  assert (j' = j) by nia. subst j'.
  assert (i' = i) by lia. now subst.
Qed.

Lemma mat_row_length (m : CharacterMatrix) (i : nat) :
  length (mat_row m i) = cm_ncol m.
Proof. unfold mat_row. now rewrite length_map, length_seq. Qed.

Lemma mat_row_nth_error (m : CharacterMatrix) (i j : nat) :
  j < cm_ncol m -> nth_error (mat_row m i) j = Some (mat_get m i j).
Proof.
  intros Hj. unfold mat_row.
  erewrite map_nth_error; [reflexivity|].
  rewrite nth_error_nth' with (d := 0); [|now rewrite length_seq].
  now rewrite seq_nth.
Qed.

Lemma mat_row_ext (m m' : CharacterMatrix) (i i' : nat) :
  cm_ncol m' = cm_ncol m ->
  (forall j, j < cm_ncol m -> mat_get m' i' j = mat_get m i j) ->
  mat_row m' i' = mat_row m i.
Proof.
  intros Hc H. unfold mat_row. rewrite Hc.
  apply map_ext_in. intros j Hj. apply in_seq in Hj. apply H. lia.
Qed.

(** *** The writes of one tag map *)

(** What [write_tags] leaves in the matrix when it ends normally. *)
Lemma write_tags_cells (keys : list string) (kv : tags) (count : nat) :
  forall m m',
    mat_ok m -> count < cm_nrow m -> length keys = cm_ncol m ->
    NoDup (map fst kv) ->
    write_tags keys kv count m = Ok m' ->
    mat_ok m' /\ cm_nrow m' = cm_nrow m /\ cm_ncol m' = cm_ncol m /\
    keys_known keys kv /\
    (forall j v, tag_at keys kv j v -> mat_get m' count j = Chr v) /\
    (forall j, (forall v, ~ tag_at keys kv j v) ->
               mat_get m' count j = mat_get m count j) /\
    (forall i j, i < cm_nrow m -> i <> count ->
                 mat_get m' i j = mat_get m i j).
Proof.
  induction kv as [|[k0 v0] kv IH]; intros m m' Hok Hc Hk Hnd Hw;
    simpl in Hw.
  - inversion Hw; subst. repeat split; auto.
    + intros k v [].
    + intros j v (k & [] & _).
  - destruct (mat_set m count (set_index String.ltb k0 keys) (Chr v0))
      as [m1|e1|] eqn:E1; try discriminate.
    destruct (mat_set_shape _ _ _ _ _ E1) as (R1 & C1 & _ & _ & Hok1 & Hin1).
    specialize (Hok1 Hok). pose proof (Hin1 Hok Hc) as Hj0.
    inversion Hnd as [|? ? Hnotin Hnd']; subst.
    destruct (IH m1 m' Hok1 ltac:(lia) ltac:(lia) Hnd' Hw)
      as (Hok' & R' & C' & Hkn & Hset & Hkeep & Hother).
    assert (Hk0 : In k0 keys).
    { apply (set_index_lt_In String.ltb string_ltb_irrefl string_ltb_total).
      lia. }
    repeat split; auto; try lia.
    + intros k v [Heq | Hin]; [inversion Heq; subst; auto | eauto].
    + intros j v (k & [Heq | Hin] & Hidx).
      * inversion Heq; subst k v.
        rewrite Hkeep.
        -- subst j. eapply mat_set_get_eq; eauto.
        -- intros v' (k' & Hin' & Hidx').
           assert (k0 = k').
           { eapply (set_index_inj String.ltb string_ltb_irrefl
                       string_ltb_total); eauto. congruence. }
           subst k'. apply Hnotin.
           change k0 with (fst (k0, v')). now apply in_map.
      * apply Hset. exists k. auto.
    + intros j Hnone. rewrite Hkeep.
      * eapply mat_set_get_ne; eauto.
        intros Heq. inversion Heq; subst j.
        apply (Hnone v0). exists k0. split; [now left | reflexivity].
      * intros v (k & Hin & Hidx). apply (Hnone v).
        exists k. split; [now right | assumption].
    + intros i j Hi Hne. rewrite Hother; [|lia|assumption].
      eapply mat_set_get_ne; eauto. intros Heq. inversion Heq. congruence.
Qed.

(** [write_tags] ends normally when every key is known. *)
Lemma write_tags_defined (keys : list string) (kv : tags) (count : nat) :
  forall m,
    mat_ok m -> count < cm_nrow m -> length keys = cm_ncol m ->
    keys_known keys kv ->
    exists m', write_tags keys kv count m = Ok m'.
Proof.
  induction kv as [|[k0 v0] kv IH]; intros m Hok Hc Hk Hkn; simpl.
  - eexists; reflexivity.
  - assert (Hk0 : In k0 keys) by (eapply Hkn; now left).
    destruct (set_index_In String.ltb string_ltb_irrefl string_ltb_total
                k0 keys Hk0) as [Hlt _].
    destruct (mat_set_defined m count (set_index String.ltb k0 keys) (Chr v0))
      as (m1 & E1); auto; [lia|].
    rewrite E1.
    destruct (mat_set_shape _ _ _ _ _ E1) as (R1 & C1 & _ & _ & Hok1 & _).
    apply IH; auto; try lia.
    intros k v Hin. eapply Hkn. right. eauto.
Qed.

(** With a key that [keys] does not hold, [write_tags] runs into a write
    outside the matrix; it never throws. *)
Lemma write_tags_unknown (keys : list string) (kv : tags) (count : nat) :
  forall m,
    mat_ok m -> count < cm_nrow m -> length keys = cm_ncol m ->
    ~ keys_known keys kv ->
    write_tags keys kv count m
    = Raise (set_index_error "SET_STRING_ELT"
               (count + cm_nrow m * cm_ncol m) (cm_nrow m * cm_ncol m)).
Proof.
  induction kv as [|[k0 v0] kv IH]; intros m Hok Hc Hk Hkn; simpl.
  - exfalso. apply Hkn. intros k v [].
  - destruct (in_dec string_dec k0 keys) as [Hin | Hnin].
    + destruct (set_index_In String.ltb string_ltb_irrefl string_ltb_total
                  k0 keys Hin) as [Hlt _].
      destruct (mat_set_defined m count (set_index String.ltb k0 keys)
                  (Chr v0)) as (m1 & E1); auto; [lia|].
      rewrite E1.
      destruct (mat_set_shape _ _ _ _ _ E1) as (R1 & C1 & _ & _ & Hok1 & _).
      rewrite <- R1, <- C1.
      apply IH; auto; try lia.
      intros Hkn'. apply Hkn. intros k v [Heq | Hin'].
      * inversion Heq; subst; auto.
      * eauto.
    + rewrite (set_index_not_In String.ltb string_ltb_irrefl string_ltb_total
                 k0 keys Hnin).
      rewrite mat_set_outside; auto; [|lia]. now rewrite Hk.
Qed.

Lemma write_tags_shape (keys : list string) (kv : tags) (count : nat) :
  forall m m',
    write_tags keys kv count m = Ok m' ->
    cm_nrow m' = cm_nrow m /\ cm_ncol m' = cm_ncol m /\
    cm_names m' = cm_names m /\ cm_dimnames m' = cm_dimnames m /\
    (mat_ok m -> mat_ok m').
Proof.
  induction kv as [|[k v] kv IH]; intros m m' Hw; simpl in Hw.
  - inversion Hw; subst. auto.
  - destruct (mat_set m count (set_index String.ltb k keys) (Chr v))
      as [m1|e1|] eqn:E1; try discriminate.
    destruct (mat_set_shape _ _ _ _ _ E1) as (R1 & C1 & N1 & D1 & Hok1 & _).
    destruct (IH _ _ Hw) as (R & C & N & D & Hok).
    repeat split; try congruence. auto.
Qed.

Lemma write_tags_never_undefined (keys : list string) (kv : tags)
    (count : nat) :
  forall m, write_tags keys kv count m <> Undef.
Proof.
  induction kv as [|[k v] kv IH]; intros m; simpl; [discriminate|].
  destruct (mat_set m count (set_index String.ltb k keys) (Chr v))
    as [m1|e1|] eqn:E1; auto; try discriminate.
  exfalso. eapply mat_set_never_undefined; eauto.
Qed.

Lemma keys_known_dec (keys : list string) (kv : tags) :
  {keys_known keys kv} + {~ keys_known keys kv}.
Proof.
  induction kv as [|[k v] kv IH].
  - left. intros k v [].
  - destruct (in_dec string_dec k keys) as [Hin | Hnin].
    + destruct IH as [Hk | Hnk].
      * left. intros k' v' [Heq | Hin']; [inversion Heq; subst; auto | eauto].
      * right. intros Hk. apply Hnk. intros k' v' Hin'. eapply Hk.
        right; eauto.
    + right. intros Hk. apply Hnin. eapply Hk. left; reflexivity.
Qed.

Lemma unknown_key_found (keys : list string) (kv : tags) :
  ~ keys_known keys kv -> exists k v, In (k, v) kv /\ ~ In k keys.
Proof.
  induction kv as [|[k v] kv IH]; intros Hn.
  - destruct Hn. intros k v [].
  - destruct (in_dec string_dec k keys) as [Hin | Hnin].
    + destruct IH as (k' & v' & Hkv & Hnin).
      * intros Hk. apply Hn. intros k' v' [Heq | Hin'];
          [inversion Heq; subst; auto | eauto].
      * exists k', v'. split; [now right | assumption].
    + exists k, v. split; [now left | assumption].
Qed.

Lemma tags_ok_NoDup (kv : tags) : tags_ok kv -> NoDup (map fst kv).
Proof.
  apply (set_ok_NoDup String.ltb string_ltb_irrefl).
Qed.

(** *** The attribute table builder *)

Lemma na_row_cells (rowi : nat) (cols : list nat) :
  forall m m',
    mat_ok m -> rowi < cm_nrow m ->
    na_row m rowi cols = Ok m' ->
    mat_ok m' /\ cm_nrow m' = cm_nrow m /\ cm_ncol m' = cm_ncol m /\
    cm_names m' = cm_names m /\ cm_dimnames m' = cm_dimnames m /\
    (forall j, In j cols -> mat_get m' rowi j = NA_STRING) /\
    (forall i j, i < cm_nrow m -> i <> rowi ->
                 mat_get m' i j = mat_get m i j).
Proof.
  induction cols as [|c cols IH]; intros m m' Hok Hr Hna; simpl in Hna.
  - inversion Hna; subst. repeat split; auto. intros j [].
  - destruct (mat_set m rowi c NA_STRING) as [m1|e1|] eqn:E1;
      try discriminate.
    destruct (mat_set_shape _ _ _ _ _ E1) as (R1 & C1 & N1 & D1 & Hok1 & _).
    assert (Hr1 : rowi < cm_nrow m1) by lia.
    destruct (IH m1 m' (Hok1 Hok) Hr1 Hna)
      as (Hok' & R' & C' & N' & D' & Hset & Hother).
    repeat split; auto; try congruence.
    + intros j [-> | Hin]; auto.
      destruct (in_dec Nat.eq_dec j cols) as [Hin | Hnin]; auto.
      clear - E1 Hna Hnin Hr Hr1 R1.
      assert (G : forall cols m1 m',
                 rowi < cm_nrow m1 -> ~ In j cols ->
                 na_row m1 rowi cols = Ok m' ->
                 mat_get m' rowi j = mat_get m1 rowi j).
      { clear. induction cols as [|c cols IH]; intros m1 m' Hr Hnin Hna;
          simpl in Hna.
        - now inversion Hna.
        - destruct (mat_set m1 rowi c NA_STRING) as [m2|e2|] eqn:E2;
            try discriminate.
          destruct (mat_set_shape _ _ _ _ _ E2) as (R2 & _).
          rewrite (IH m2 m'); auto; [|lia|simpl in Hnin; tauto].
          eapply mat_set_get_ne; eauto.
          intros Heq. inversion Heq. subst. simpl in Hnin. tauto. }
      rewrite (G cols m1 m' Hr1 Hnin Hna).
      eapply mat_set_get_eq; eauto.
    + intros i j Hi Hne. rewrite Hother by (try lia; assumption).
      eapply mat_set_get_ne; eauto. intros Heq. inversion Heq. congruence.
Qed.

Lemma na_row_defined (rowi : nat) (cols : list nat) :
  forall m,
    mat_ok m -> rowi < cm_nrow m -> Forall (fun j => j < cm_ncol m) cols ->
    exists m', na_row m rowi cols = Ok m'.
Proof.
  induction cols as [|c cols IH]; intros m Hok Hr Hcols; simpl.
  - eexists; reflexivity.
  - inversion Hcols as [|? ? Hc Hcols']; subst.
    destruct (mat_set_defined m rowi c NA_STRING Hok Hr Hc) as (m1 & E1).
    rewrite E1.
    destruct (mat_set_shape _ _ _ _ _ E1) as (R1 & C1 & _ & _ & Hok1 & _).
    apply IH; auto; [lia|]. now rewrite C1.
Qed.

Lemma write_tags_checked_known (keys : list string) (kv : tags)
    (rowi : nat) :
  forall m m',
    write_tags_checked keys kv rowi m = Ok m' ->
    write_tags keys kv rowi m = Ok m'.
Proof.
  induction kv as [|[k v] kv IH]; intros m m' Hw; simpl in *; auto.
  destruct (set_mem String.ltb k keys); [|discriminate].
  destruct (mat_set m rowi (set_index String.ltb k keys) (Chr v));
    try discriminate. auto.
Qed.

Lemma write_tags_checked_defined (keys : list string) (kv : tags)
    (rowi : nat) :
  forall m,
    mat_ok m -> rowi < cm_nrow m -> length keys = cm_ncol m ->
    keys_known keys kv ->
    exists m', write_tags_checked keys kv rowi m = Ok m'.
Proof.
  induction kv as [|[k0 v0] kv IH]; intros m Hok Hc Hk Hkn; simpl.
  - eexists; reflexivity.
  - assert (Hk0 : In k0 keys) by (eapply Hkn; now left).
    rewrite (proj2 (set_mem_In String.ltb string_ltb_irrefl
                      string_ltb_total k0 keys) Hk0).
    destruct (set_index_In String.ltb string_ltb_irrefl string_ltb_total
                k0 keys Hk0) as [Hlt _].
    destruct (mat_set_defined m rowi (set_index String.ltb k0 keys) (Chr v0))
      as (m1 & E1); auto; [lia|].
    rewrite E1.
    destruct (mat_set_shape _ _ _ _ _ E1) as (R1 & C1 & _ & _ & Hok1 & _).
    apply IH; auto; try lia.
    intros k v Hin. eapply Hkn. right. eauto.
Qed.

(** The row that the builder writes, and the rows that it leaves. *)
Lemma get_value_mat_row (keys : list string) (kv : tags) (rowi : nat)
    (m m' : CharacterMatrix) :
  mat_ok m -> rowi < cm_nrow m -> length keys = cm_ncol m ->
  tags_ok kv ->
  get_value_mat kv keys m rowi = Ok m' ->
  mat_ok m' /\ cm_nrow m' = cm_nrow m /\ cm_ncol m' = cm_ncol m /\
  keys_known keys kv /\ row_is keys kv m' rowi /\
  (forall i j, i < cm_nrow m -> i <> rowi -> mat_get m' i j = mat_get m i j).
Proof.
  intros Hok Hr Hc Htags Hg. unfold get_value_mat in Hg.
  destruct (na_row m rowi (seq 0 (cm_ncol m))) as [m1|e1|] eqn:E1;
    try discriminate.
  destruct (na_row_cells _ _ _ _ Hok Hr E1)
    as (Hok1 & R1 & C1 & _ & _ & Hna & Hother1).
  apply write_tags_checked_known in Hg.
  assert (Hr1 : rowi < cm_nrow m1) by lia.
  assert (Hc1 : length keys = cm_ncol m1) by lia.
  destruct (write_tags_cells _ _ _ _ _ Hok1 Hr1 Hc1
              (tags_ok_NoDup _ Htags) Hg)
    as (Hok' & R' & C' & Hkn & Hset & Hkeep & Hother).
  repeat split; auto; try lia.
  - intros j Hj Hnone. rewrite Hkeep by assumption.
    apply Hna. apply in_seq. lia.
  - intros i j Hi Hne. rewrite Hother by (try lia; assumption).
    now apply Hother1.
Qed.

Lemma get_value_mat_defined (keys : list string) (kv : tags) (rowi : nat)
    (m : CharacterMatrix) :
  mat_ok m -> rowi < cm_nrow m -> length keys = cm_ncol m ->
  keys_known keys kv ->
  exists m', get_value_mat kv keys m rowi = Ok m'.
Proof.
  intros Hok Hr Hc Hkn. unfold get_value_mat.
  destruct (na_row_defined rowi (seq 0 (cm_ncol m)) m Hok Hr) as (m1 & E1).
  { apply Forall_forall. intros j Hj. apply in_seq in Hj. lia. }
  rewrite E1.
  destruct (na_row_cells _ _ _ _ Hok Hr E1) as (Hok1 & R1 & C1 & _).
  apply write_tags_checked_defined; auto; lia.
Qed.

Lemma get_value_mat_shape (keys : list string) (kv : tags) (rowi : nat)
    (m m' : CharacterMatrix) :
  mat_ok m -> rowi < cm_nrow m ->
  get_value_mat kv keys m rowi = Ok m' ->
  mat_ok m' /\ cm_nrow m' = cm_nrow m /\ cm_ncol m' = cm_ncol m.
Proof.
  intros Hok Hr Hg. unfold get_value_mat in Hg.
  destruct (na_row m rowi (seq 0 (cm_ncol m))) as [m1|e1|] eqn:E1;
    try discriminate.
  destruct (na_row_cells _ _ _ _ Hok Hr E1) as (Hok1 & R1 & C1 & _).
  apply write_tags_checked_known in Hg.
  destruct (write_tags_shape _ _ _ _ _ Hg) as (R & C & _ & _ & Hok').
  repeat split; auto; congruence.
Qed.

Lemma get_value_mat_nrow (keys : list string) (kv : tags) (rowi : nat)
    (m m' : CharacterMatrix) :
  get_value_mat kv keys m rowi = Ok m' -> cm_nrow m' = cm_nrow m.
Proof.
  unfold get_value_mat.
  destruct (na_row m rowi (seq 0 (cm_ncol m))) as [m1|e1|] eqn:E1;
    try discriminate.
  intros Hw. apply write_tags_checked_known in Hw.
  destruct (write_tags_shape _ _ _ _ _ Hw) as (-> & _).
  clear Hw. revert E1. generalize (seq 0 (cm_ncol m)) as cols.
  intros cols. revert m m1.
  induction cols as [|c cols IH]; intros m0 m1 E1; simpl in E1.
  - now inversion E1.
  - destruct (mat_set m0 rowi c NA_STRING) as [m2|e2|] eqn:E2;
      try discriminate.
    destruct (mat_set_shape _ _ _ _ _ E2) as (R2 & _).
    rewrite (IH _ _ E1). exact R2.
Qed.

(** The builder keeps the shape and the storage of the matrix. *)
Lemma na_row_keeps (rowi : nat) (cols : list nat) :
  forall m m',
    na_row m rowi cols = Ok m' ->
    cm_nrow m' = cm_nrow m /\ cm_ncol m' = cm_ncol m /\
    (mat_ok m -> mat_ok m').
Proof.
  induction cols as [|c cols IH]; intros m m' E; simpl in E.
  - inversion E; subst. auto.
  - destruct (mat_set m rowi c NA_STRING) as [m1|e1|] eqn:E1;
      try discriminate.
    destruct (mat_set_shape _ _ _ _ _ E1) as (R1 & C1 & _ & _ & Hok1 & _).
    destruct (IH _ _ E) as (R & C & Hok).
    repeat split; try congruence. auto.
Qed.

Lemma get_value_mat_keeps (keys : list string) (kv : tags) (rowi : nat)
    (m m' : CharacterMatrix) :
  get_value_mat kv keys m rowi = Ok m' ->
  cm_nrow m' = cm_nrow m /\ cm_ncol m' = cm_ncol m /\
  (mat_ok m -> mat_ok m').
Proof.
  unfold get_value_mat.
  destruct (na_row m rowi (seq 0 (cm_ncol m))) as [m1|e1|] eqn:E1;
    try discriminate.
  intros Hw. apply write_tags_checked_known in Hw.
  destruct (write_tags_shape _ _ _ _ _ Hw) as (R & C & _ & _ & Hok).
  destruct (na_row_keeps _ _ _ _ E1) as (R1 & C1 & Hok1).
  repeat split; try congruence. auto.
Qed.

(** A row that the builder has written is the row of the
    specification. *)
Lemma row_is_attribute_row (keys : list string) (kv : tags)
    (m : CharacterMatrix) (i : nat) :
  cm_ncol m = length keys -> keys_known keys kv ->
  row_is keys kv m i -> attribute_row keys kv m i.
Proof.
  intros Hc Hkn [Hset Hna]. split; [|split].
  - now rewrite mat_row_length.
  - intros k v Hin.
    destruct (set_index_In String.ltb string_ltb_irrefl string_ltb_total
                k keys (Hkn k v Hin)) as [Hlt Hnth].
    split; [assumption|].
    rewrite mat_row_nth_error by lia.
    f_equal. apply Hset. exists k. auto.
  - intros j Hj Hnone.
    rewrite mat_row_nth_error by lia.
    f_equal. apply Hna; [lia|].
    intros v (k & Hin & Hidx). eapply Hnone; eauto.
Qed.

(** A row that [row_is] describes is the row of the specification. *)
Lemma row_is_attr_row (keys : list string) (kv : tags)
    (m : CharacterMatrix) (i : nat) :
  set_ok String.ltb keys -> cm_ncol m = length keys ->
  row_is keys kv m i -> mat_row m i = attr_row keys kv.
Proof.
  intros Hkeys Hc [Hset Hna].
  pose proof (set_ok_NoDup String.ltb string_ltb_irrefl keys Hkeys) as Hnd.
  apply nth_error_ext. intros j.
  unfold attr_row. rewrite nth_error_map.
  destruct (nth_error keys j) as [kj|] eqn:Ej; simpl.
  - assert (Hj : j < cm_ncol m) by (rewrite Hc; eapply nth_error_lt; eauto).
    rewrite mat_row_nth_error by assumption. f_equal.
    pose proof (set_index_nth String.ltb string_ltb_irrefl string_ltb_total
                  kj keys j Hnd Ej) as Hidx.
    destruct (map_find String.ltb kj kv) as [v|] eqn:Ef.
    + apply Hset. exists kj. split; [|assumption].
      eapply (map_find_Some String.ltb string_ltb_irrefl string_ltb_total).
      eassumption.
    + apply Hna; [assumption|].
      intros v (k & Hin & Hk).
      assert (k = kj).
      { assert (Hlt : set_index String.ltb k keys < length keys) by lia.
        apply (set_index_lt_In String.ltb string_ltb_irrefl
                 string_ltb_total) in Hlt.
        destruct (set_index_In String.ltb string_ltb_irrefl
                    string_ltb_total k keys Hlt) as [_ Hn].
        congruence. }
      subst k.
      apply (map_find_None String.ltb string_ltb_irrefl string_ltb_total)
        in Ef.
      apply Ef. change kj with (fst (kj, v)). now apply in_map.
  - apply nth_error_None. rewrite mat_row_length, Hc.
    now apply nth_error_None.
Qed.

(** ** Attributes *)

Section AttrFacts.
Context {float NumericMatrix BBox CRS : Type}.

Local Abbreviation RList := (@RcppList float NumericMatrix BBox CRS).
Local Abbreviation attr_list := (@attributes BBox CRS).

Lemma get_set_attr_eq (name : string) (v : attr_value) (a : attr_list) :
  get_attr name (set_attr name v a) = Some v.
Proof.
  induction a as [|[n w] a IH]; simpl.
  - now rewrite String.eqb_refl.
  - destruct (n =? name)%string eqn:E; simpl; now rewrite E.
Qed.

Lemma get_set_attr_ne (name name' : string) (v : attr_value)
    (a : attr_list) :
  name <> name' -> get_attr name (set_attr name' v a) = get_attr name a.
Proof.
  intros Hne. induction a as [|[n w] a IH]; simpl.
  - destruct (name' =? name)%string eqn:E; auto.
    apply String.eqb_eq in E. congruence.
  - destruct (n =? name')%string eqn:E; simpl.
    + apply String.eqb_eq in E. subst n.
      destruct (name' =? name)%string eqn:E'; auto.
      apply String.eqb_eq in E'. congruence.
    + destruct (n =? name)%string; auto.
Qed.

(** The attributes of a geometry column leave its names and its
    elements as they are, and give it its class. *)
Lemma sfc_attrs_names (class : list string) (bbox : BBox) (crs : CRS)
    (l : RList) :
  get_attr "names" (attrs (sfc_attrs class bbox crs l)) =
  get_attr "names" (attrs l).
Proof.
  unfold sfc_attrs, list_attr; simpl.
  repeat (rewrite get_set_attr_ne; [|discriminate]). reflexivity.
Qed.

Lemma sfc_attrs_class (class : list string) (bbox : BBox) (crs : CRS)
    (l : RList) :
  get_attr "class" (attrs (sfc_attrs class bbox crs l)) =
  Some (Strings class).
Proof.
  unfold sfc_attrs, list_attr; simpl.
  repeat (rewrite get_set_attr_ne; [|discriminate]).
  apply get_set_attr_eq.
Qed.

Lemma sfc_attrs_elts (class : list string) (bbox : BBox) (crs : CRS)
    (l : RList) :
  elts (sfc_attrs class bbox crs l) = elts l.
Proof. reflexivity. Qed.
End AttrFacts.

(** ** get_osm_nodes *)

Section NodeFacts.
Context {float NumericMatrix DataFrame BBox CRS : Type}.
Variable restructure_kv_mat : CharacterMatrix -> bool -> DataFrame.

Local Abbreviation RList := (@RcppList float NumericMatrix BBox CRS).
Local Abbreviation NodeT := (@Node float).
Local Abbreviation frame := (@node_frame float NumericMatrix BBox CRS).

Lemma nodes_inv_start (ptList : RList) (nodes : list (osmid_t * NodeT))
    (unique_vals : UniqueVals) :
  nodes_inv ptList nodes unique_vals []
    {| nf_ptList := ptList; nf_ptnames := [];
       nf_kv_mat :=
         fill (new_matrix (length nodes) (length (k_point unique_vals)))
           NA_STRING;
       nf_count := 0 |}.
Proof.
  unfold nodes_inv; simpl. repeat split; auto.
  - apply fill_ok, new_matrix_ok.
  - destruct i; discriminate.
  - destruct i; discriminate.
  - destruct i; discriminate.
  - destruct i; discriminate.
  - intros i j _ Hi Hj. apply fill_get; auto. apply new_matrix_ok.
Qed.

Lemma nodes_inv_step (ptList : RList) (nodes : list (osmid_t * NodeT))
    (unique_vals : UniqueVals) pre x suf (f f' : frame) :
  nodes = pre ++ x :: suf ->
  tags_ok (n_key_val (snd x)) ->
  nodes_inv ptList nodes unique_vals pre f ->
  node_body unique_vals x f = (f', Done) ->
  nodes_inv ptList nodes unique_vals (pre ++ [x]) f'.
Proof.
  intros Hnodes Htags (Hcnt & Hnames & Hok & Hr & Hc & Hnm & Hlen & Hattr
                       & Hdone & Hfresh) Hbody.
  unfold node_body in Hbody.
  assert (Hlt : length pre < length nodes).
  { rewrite Hnodes, length_app; simpl; lia. }
  unfold list_put in Hbody.
  destruct (vec_set (elts (nf_ptList f)) (nf_count f)
              (point_geometry (snd x))) as [e|] eqn:Eset;
    [|discriminate].
  destruct (write_tags (k_point unique_vals) (n_key_val (snd x))
              (nf_count f) (nf_kv_mat f)) as [m| |] eqn:Ew;
    try discriminate.
  inversion Hbody; subst f'; clear Hbody; simpl.
  assert (Hrow : nf_count f < cm_nrow (nf_kv_mat f)) by lia.
  assert (Hcol : length (k_point unique_vals) = cm_ncol (nf_kv_mat f))
    by lia.
  destruct (write_tags_cells _ _ _ _ _ Hok Hrow Hcol
              (tags_ok_NoDup _ Htags) Ew)
    as (Hok' & R' & C' & Hkn & Hset & Hkeep & Hother).
  assert (Hshape : cm_names m = None).
  { destruct (write_tags_shape _ _ _ _ _ Ew) as (_ & _ & Hn & _).
    congruence. }
  destruct (vec_set_length _ _ _ _ Eset) as [Hlen' _].
  unfold nodes_inv; simpl.
  repeat split; auto; try lia; try congruence.
  - rewrite length_app; simpl; lia.
  - rewrite map_app; simpl. now rewrite Hnames.
  - apply nth_error_snoc in H as [[Hi H] | [-> ->]].
    + erewrite vec_set_nth_error_ne; eauto; [|lia].
      now destruct (Hdone i x0 H).
    + rewrite <- Hcnt. eapply vec_set_nth_error_eq; eauto.
  - apply nth_error_snoc in H as [[Hi H] | [-> ->]].
    + now destruct (Hdone i x0 H) as (_ & Hb & _).
    + assumption.
  - apply nth_error_snoc in H as [[Hi H] | [-> ->]]; intros j v Htag.
    + rewrite Hother by lia.
      destruct (Hdone i x0 H) as (_ & _ & Hb & _). now apply Hb.
    + rewrite <- Hcnt. auto.
  - intros j Hj Hnone. apply nth_error_snoc in H as [[Hi H] | [-> ->]].
    + rewrite Hother by lia.
      destruct (Hdone i x0 H) as (_ & _ & _ & Hb). apply Hb; auto. lia.
    + rewrite <- Hcnt. rewrite Hkeep by assumption. apply Hfresh; lia.
  - intros i j Hi Hi' Hj. rewrite length_app in Hi; simpl in Hi.
    rewrite Hother by lia. apply Hfresh; lia.
Qed.
Lemma nodes_loop_inv (ptList : RList) (nodes : list (osmid_t * NodeT))
    (unique_vals : UniqueVals) (f : frame) :
  Forall (fun x => tags_ok (n_key_val (snd x))) nodes ->
  nodes_loop ptList nodes unique_vals = (f, Done) ->
  nodes_inv ptList nodes unique_vals nodes f.
Proof.
  intros Htags Hrun. unfold nodes_loop in Hrun.
  eapply (for_each_invariant (node_body unique_vals)
            (nodes_inv ptList nodes unique_vals)); eauto.
  - intros pre x suf s s' Hnodes Hinv Hbody.
    eapply nodes_inv_step; eauto.
    rewrite Forall_forall in Htags. apply Htags.
    rewrite Hnodes. apply in_or_app. right. now left.
  - apply nodes_inv_start.
Qed.

Lemma node_body_status (nodes : list (osmid_t * NodeT))
    (unique_vals : UniqueVals) pre x suf (f : frame) :
  nodes = pre ++ x :: suf ->
  nodes_shape nodes unique_vals pre f ->
  (keys_known (k_point unique_vals) (n_key_val (snd x)) ->
   exists f', node_body unique_vals x f = (f', Done) /\
              nodes_shape nodes unique_vals (pre ++ [x]) f') /\
  (~ keys_known (k_point unique_vals) (n_key_val (snd x)) ->
   exists e,
     snd (node_body unique_vals x f) = Throw e /\
     write_outside (length nodes * length (k_point unique_vals)) e).
Proof.
  intros Hnodes (Hcnt & Hok & Hr & Hc & Hlen).
  assert (Hlt : length pre < length nodes).
  { rewrite Hnodes, length_app; simpl; lia. }
  unfold node_body, list_put.
  destruct (vec_set_some (elts (nf_ptList f)) (nf_count f)
              (point_geometry (snd x))) as (e & Eset); [lia|].
  rewrite Eset.
  assert (Hrow : nf_count f < cm_nrow (nf_kv_mat f)) by lia.
  assert (Hcol : length (k_point unique_vals) = cm_ncol (nf_kv_mat f))
    by lia.
  split; intros Hkn.
  - destruct (write_tags_defined _ _ _ _ Hok Hrow Hcol Hkn) as (m & Ew).
    rewrite Ew. eexists; split; [reflexivity|].
    destruct (write_tags_shape _ _ _ _ _ Ew) as (R & C & _ & _ & Hok').
    destruct (vec_set_length _ _ _ _ Eset) as [Hlen' _].
    unfold nodes_shape; simpl. rewrite length_app; simpl.
    repeat split; auto; lia.
  - rewrite (write_tags_unknown _ _ _ _ Hok Hrow Hcol Hkn). simpl.
    eexists. split; [reflexivity|].
    rewrite Hr, <- Hcol. eexists. split; [|reflexivity]. lia.
Qed.

Lemma nodes_run (nodes : list (osmid_t * NodeT)) (unique_vals : UniqueVals) :
  forall suf pre (f : frame),
    nodes = pre ++ suf ->
    nodes_shape nodes unique_vals pre f ->
    (Forall (fun x => keys_known (k_point unique_vals) (n_key_val (snd x)))
       suf ->
     exists f', for_each (node_body unique_vals) suf f = (f', Done)) /\
    (~ Forall (fun x => keys_known (k_point unique_vals)
                          (n_key_val (snd x))) suf ->
     exists e,
       snd (for_each (node_body unique_vals) suf f) = Throw e /\
       write_outside (length nodes * length (k_point unique_vals)) e).
Proof.
  induction suf as [|x suf IH]; intros pre f Hnodes Hshape.
  - split.
    + intros _. eexists; reflexivity.
    + intros Hn. exfalso. apply Hn. constructor.
  - destruct (node_body_status nodes unique_vals pre x suf f Hnodes Hshape)
      as [Hknown Hunknown].
    destruct (keys_known_dec (k_point unique_vals) (n_key_val (snd x)))
      as [Hk | Hk].
    + destruct (Hknown Hk) as (f1 & Hb & Hshape1).
      assert (Hnodes1 : nodes = (pre ++ [x]) ++ suf)
        by now rewrite <- app_assoc.
      destruct (IH _ _ Hnodes1 Hshape1) as [IH1 IH2].
      simpl. rewrite Hb. split.
      * intros Hall. inversion Hall; subst. auto.
      * intros Hn. apply IH2. intros Hall. apply Hn. now constructor.
    + destruct (Hunknown Hk) as (e & He & Hout).
      simpl. destruct (node_body unique_vals x f) as [f1 st].
      simpl in He. subst st. split.
      * intros Hall. inversion Hall; subst. contradiction.
      * intros _. exists e. auto.
Qed.

Lemma nodes_shape_start (ptList : RList) (nodes : list (osmid_t * NodeT))
    (unique_vals : UniqueVals) :
  length (elts ptList) = length nodes ->
  nodes_shape nodes unique_vals []
    {| nf_ptList := ptList; nf_ptnames := [];
       nf_kv_mat :=
         fill (new_matrix (length nodes) (length (k_point unique_vals)))
           NA_STRING;
       nf_count := 0 |}.
Proof.
  intros Hlen. unfold nodes_shape; simpl. repeat split; auto.
  apply fill_ok, new_matrix_ok.
Qed.

(** [get_osm_nodes] when it returns. *)
Lemma get_osm_nodes_done (ptList : RList) (kv_df : DataFrame)
    (nodes : list (osmid_t * NodeT)) (unique_vals : UniqueVals)
    (bbox : BBox) (crs : CRS) (l : RList) (kv : DataFrame) :
  get_osm_nodes restructure_kv_mat ptList kv_df nodes unique_vals bbox crs
  = ((l, kv), Done) ->
  exists f,
    nodes_loop ptList nodes unique_vals = (f, Done) /\
    length (elts ptList) = length nodes /\
    l = sfc_attrs ["sfc_POINT"; "sfc"] bbox crs
          (list_attr (nf_ptList f) "names" (Strings (nf_ptnames f))) /\
    kv = restructure_kv_mat
           (set_matrix_dimnames (nf_kv_mat f) (nf_ptnames f)
              (k_point unique_vals)) false.
Proof.
  unfold get_osm_nodes.
  destruct (length (elts ptList) =? length nodes)%nat eqn:E; simpl;
    [|discriminate].
  apply Nat.eqb_eq in E.
  destruct (nodes_loop ptList nodes unique_vals) as [f st].
  destruct st; intros H; inversion H; subst.
  exists f. auto.
Qed.
(** The names after the loop, whatever the tag maps are. *)
Lemma get_osm_nodes_names (ptList : RList) (kv_df : DataFrame)
    (nodes : list (osmid_t * NodeT)) (unique_vals : UniqueVals)
    (bbox : BBox) (crs : CRS) (l : RList) (kv : DataFrame) :
  get_osm_nodes restructure_kv_mat ptList kv_df nodes unique_vals bbox crs
  = ((l, kv), Done) ->
  get_attr "names" (attrs l) = Some (Strings (map to_string (map fst nodes))).
Proof.
  intros Hrun.
  destruct (get_osm_nodes_done _ _ _ _ _ _ _ _ Hrun)
    as (f & Hloop & _ & -> & _).
  rewrite sfc_attrs_names. simpl. rewrite get_set_attr_eq.
  do 2 f_equal. unfold nodes_loop in Hloop.
  apply (for_each_invariant (node_body unique_vals)
           (fun pre (f : frame) =>
              nf_ptnames f = map to_string (map fst pre)))
    in Hloop; auto.
  intros pre x suf s s' _ Hs Hb. rewrite !map_app; simpl. rewrite <- Hs.
  unfold node_body in Hb.
  destruct (list_put _ _ _); try discriminate.
  destruct (write_tags _ _ _ _); try discriminate.
  now inversion Hb.
Qed.

(** The table that [get_osm_ways] hands to the builder of the rows has a
    row for each identifier and a column for each key of [k_way], every
    cell [NA_STRING]. *)
Lemma ways_table_starts_absent (nrow ncol i : nat) :
  i < nrow ->
  mat_row (fill (new_matrix nrow ncol) NA_STRING) i = repeat NA_STRING ncol.
Proof.
  intros Hi. apply nth_error_ext. intros j.
  destruct (Nat.lt_ge_cases j ncol) as [Hj | Hj].
  - rewrite mat_row_nth_error by assumption.
    rewrite fill_get; auto using new_matrix_ok.
    symmetry. rewrite nth_error_nth' with (d := NA_STRING);
      [|now rewrite repeat_length].
    f_equal. apply nth_repeat.
  - transitivity (@None cell); [|symmetry]; apply nth_error_None.
    + now rewrite mat_row_length.
    + now rewrite repeat_length.
Qed.

(** The attribute row of a node has one cell for each key of [k_point];
    the cell under the column of the key of a tag holds the value of the
    tag, and every other cell is [NA_STRING]. *)
Lemma node_rows_built (ptList : RList) (kv_df : DataFrame)
    (nodes : list (osmid_t * NodeT)) (unique_vals : UniqueVals)
    (bbox : BBox) (crs : CRS) (l : RList) (kv : DataFrame) :
  Forall (fun x => tags_ok (n_key_val (snd x))) nodes ->
  get_osm_nodes restructure_kv_mat ptList kv_df nodes unique_vals bbox crs
  = ((l, kv), Done) ->
  exists m,
    kv = restructure_kv_mat m false /\
    cm_nrow m = length nodes /\
    cm_ncol m = length (k_point unique_vals) /\
    forall i id n,
      nth_error nodes i = Some (id, n) ->
      length (mat_row m i) = length (k_point unique_vals) /\
      (forall k v,
          In (k, v) (n_key_val n) ->
          nth_error (k_point unique_vals)
            (set_index String.ltb k (k_point unique_vals)) = Some k /\
          nth_error (mat_row m i)
            (set_index String.ltb k (k_point unique_vals)) = Some (Chr v)) /\
      (forall j,
          j < length (k_point unique_vals) ->
          (forall k v, In (k, v) (n_key_val n) ->
                       set_index String.ltb k (k_point unique_vals) <> j) ->
          nth_error (mat_row m i) j = Some NA_STRING).
Proof.
  intros Htags Hrun.
  destruct (get_osm_nodes_done _ _ _ _ _ _ _ _ Hrun)
    as (f & Hloop & Hlen & -> & ->).
  destruct (nodes_loop_inv _ _ _ _ Htags Hloop)
    as (Hcnt & Hnames & Hok & Hr & Hc & Hnm & _ & _ & Hdone & _).
  eexists. split; [reflexivity|]. simpl.
  split; [assumption|]. split; [assumption|].
  intros i id n Hi.
  destruct (Hdone i (id, n) Hi) as (_ & Hkn & Hset & Hna). simpl in *.
  split; [|split].
  - rewrite mat_row_length. simpl. assumption.
  - intros k v Hin.
    destruct (set_index_In String.ltb string_ltb_irrefl string_ltb_total
                k (k_point unique_vals) (Hkn k v Hin)) as [Hlt Hnth].
    split; [assumption|].
    rewrite mat_row_nth_error by (simpl; lia).
    f_equal. unfold mat_get in *; simpl. apply Hset. exists k. auto.
  - intros j Hj Hnone.
    rewrite mat_row_nth_error by (simpl; lia).
    f_equal. unfold mat_get in *; simpl. apply Hna; [lia|].
    intros v (k & Hin & Hidx). eapply Hnone; eauto.
Qed.

(** How [get_osm_nodes] ends when the list has the size of the nodes. *)
Lemma get_osm_nodes_status (ptList : RList) (kv_df : DataFrame)
    (nodes : list (osmid_t * NodeT)) (unique_vals : UniqueVals)
    (bbox : BBox) (crs : CRS) :
  length (elts ptList) = length nodes ->
  (Forall (fun x => keys_known (k_point unique_vals) (n_key_val (snd x)))
     nodes ->
   snd (get_osm_nodes restructure_kv_mat ptList kv_df nodes unique_vals
          bbox crs) = Done) /\
  (~ Forall (fun x => keys_known (k_point unique_vals) (n_key_val (snd x)))
       nodes ->
   exists e,
     snd (get_osm_nodes restructure_kv_mat ptList kv_df nodes unique_vals
            bbox crs) = Throw e /\
     write_outside (length nodes * length (k_point unique_vals)) e).
Proof.
  intros Hlen.
  destruct (nodes_run nodes unique_vals nodes [] _ eq_refl
              (nodes_shape_start ptList nodes unique_vals Hlen))
    as [Hknown Hunknown].
  assert (Hsize : (length (elts ptList) =? length nodes)%nat = true)
    by now apply Nat.eqb_eq.
  split.
  - intros Hall. destruct (Hknown Hall) as (f & Hf).
    unfold get_osm_nodes, nodes_loop. rewrite Hsize; simpl.
    now rewrite Hf.
  - intros Hn. destruct (Hunknown Hn) as (e & He & Hout).
    unfold get_osm_nodes, nodes_loop. rewrite Hsize; simpl.
    destruct (for_each _ _ _) as [f st]. simpl in He. subst st.
    exists e. auto.
Qed.

(** C7. The row builder of [get_osm_nodes] fails exactly when a node
    carries a key that is not one of [k_point].  When every key is one of
    them the call returns and every write is to a column of the table.
    When some key is not, its column is the one past the last key and the
    write is outside the matrix; this is the error that the
    specification calls UnknownKeyError, and in the source it is the
    error that R raises for the write. *)
Theorem unknown_key_fails (ptList : RList) (kv_df : DataFrame)
    (nodes : list (osmid_t * NodeT)) (unique_vals : UniqueVals)
    (bbox : BBox) (crs : CRS) :
  length (elts ptList) = length nodes ->
  ((exists e,
       snd (get_osm_nodes restructure_kv_mat ptList kv_df nodes unique_vals
              bbox crs) = Throw e)
   <-> exists id n k v,
         In (id, n) nodes /\ In (k, v) (n_key_val n) /\
         ~ In k (k_point unique_vals)) /\
  (Forall (fun x => keys_known (k_point unique_vals) (n_key_val (snd x)))
     nodes ->
   snd (get_osm_nodes restructure_kv_mat ptList kv_df nodes unique_vals
          bbox crs) = Done /\
   forall id n k v,
     In (id, n) nodes -> In (k, v) (n_key_val n) ->
     set_index String.ltb k (k_point unique_vals)
     < length (k_point unique_vals)) /\
  (~ Forall (fun x => keys_known (k_point unique_vals) (n_key_val (snd x)))
       nodes ->
   exists e,
     snd (get_osm_nodes restructure_kv_mat ptList kv_df nodes unique_vals
            bbox crs) = Throw e /\
     write_outside (length nodes * length (k_point unique_vals)) e).
Proof.
  intros Hlen.
  destruct (get_osm_nodes_status ptList kv_df nodes unique_vals bbox crs
              Hlen) as [A B].
  assert (Hdec : {Forall (fun x : osmid_t * NodeT =>
                            keys_known (k_point unique_vals)
                              (n_key_val (snd x))) nodes}
                 + {~ Forall (fun x : osmid_t * NodeT =>
                                keys_known (k_point unique_vals)
                                  (n_key_val (snd x))) nodes}).
  { apply Forall_dec. intros x. apply keys_known_dec. }
  split; [|split]; auto.
  - split.
    + intros (e & He). destruct Hdec as [Hall | Hn].
      * rewrite (A Hall) in He. discriminate He.
      * apply neg_Forall_Exists_neg in Hn;
          [|intros x; apply keys_known_dec].
        apply Exists_exists in Hn as ([id n] & Hin & Hk).
        simpl in Hk. exists id, n.
        destruct (unknown_key_found _ _ Hk) as (k & v & Hkv & Hnin).
        exists k, v. auto.
    + intros (id & n & k & v & Hin & Hkv & Hnin).
      destruct Hdec as [Hall | Hn].
      * rewrite Forall_forall in Hall.
        destruct Hnin. apply (Hall (id, n) Hin k v Hkv).
      * destruct (B Hn) as (e & He & _). eauto.
  - intros Hall. split; [auto|].
    intros id n k v Hin Hk. rewrite Forall_forall in Hall.
    apply (set_index_In String.ltb string_ltb_irrefl string_ltb_total).
    apply (Hall (id, n) Hin k v Hk).
Qed.
End NodeFacts.

(** ** get_osm_ways *)

Section WayFacts.
Context {float NumericMatrix DataFrame BBox CRS : Type}.
Variable trace_way_nmat :
  Ways -> @Nodes float -> osmid_t -> result NumericMatrix.
Variable restructure_kv_mat : CharacterMatrix -> bool -> DataFrame.

Local Abbreviation RList := (@RcppList float NumericMatrix BBox CRS).
Local Abbreviation NodeT := (@Node float).
Local Abbreviation frame := (@way_frame float NumericMatrix BBox CRS).
Local Abbreviation ways_ok := (ways_inv trace_way_nmat).

Lemma ways_inv_step (wayList : RList) (way_ids : list osmid_t)
    (ways : Ways) (nodes : list (osmid_t * NodeT))
    (unique_vals : UniqueVals) (geom_type : string) pre wi suf
    (f f' : frame) :
  way_ids = pre ++ wi :: suf ->
  Forall (fun x => tags_ok (w_key_val (snd x))) ways ->
  ways_ok wayList way_ids ways nodes unique_vals geom_type pre f ->
  way_body trace_way_nmat ways nodes unique_vals geom_type wi f
  = (f', Done) ->
  ways_ok wayList way_ids ways nodes unique_vals geom_type (pre ++ [wi]) f'.
Proof.
  intros Hids Htags (Hcnt & Hnames & Hok & Hr & Hc & Hlen & Hattr & Hdone)
         Hbody.
  assert (Hlt : length pre < length way_ids).
  { rewrite Hids, length_app; simpl; lia. }
  unfold way_body, list_set in Hbody.
  destruct (trace_way_nmat ways nodes wi) as [nmat|e|] eqn:Et;
    try discriminate.
  destruct (vec_set (elts (wf_wayList f)) (wf_count f)
              (way_geometry geom_type nmat)) as [e|] eqn:Eset;
    [|discriminate].
  unfold get_value_mat_way in Hbody.
  destruct (map_find Z.ltb wi ways) as [w|] eqn:Ef; [|discriminate].
  destruct (get_value_mat (w_key_val w) (k_way unique_vals) (wf_kv_mat f)
              (wf_count f)) as [m|e'|] eqn:Eg; try discriminate.
  inversion Hbody; subst f'; clear Hbody.
  apply (map_find_Some Z.ltb Zltb_irrefl Zltb_total) in Ef.
  assert (Hw : tags_ok (w_key_val w)).
  { rewrite Forall_forall in Htags. apply (Htags (wi, w) Ef). }
  assert (Hrow : wf_count f < cm_nrow (wf_kv_mat f)) by lia.
  assert (Hcol : length (k_way unique_vals) = cm_ncol (wf_kv_mat f)) by lia.
  destruct (get_value_mat_row _ _ _ _ _ Hok Hrow Hcol Hw Eg)
    as (Hok' & R' & C' & Hkn & Hrowis & Hother).
  destruct (vec_set_length _ _ _ _ Eset) as [Hlen' _].
  unfold ways_inv; simpl.
  split; [rewrite length_app; simpl; lia|].
  split; [rewrite map_app; simpl; now rewrite Hnames|].
  split; [assumption|]. split; [lia|]. split; [lia|].
  split; [lia|]. split; [assumption|].
  intros i wj Hi. apply nth_error_snoc in Hi as [[Hi Hnth] | [-> ->]].
  - destruct (Hdone i wj Hnth) as (nmat' & w' & Ht & He & Hin & Hk & Hrw).
    exists nmat', w'. repeat split; auto.
    + erewrite vec_set_nth_error_ne; eauto. lia.
    + destruct Hrw as [Hs _]. intros j v Htag.
      rewrite Hother by lia. now apply Hs.
    + destruct Hrw as [_ Hn]. intros j Hj Hnone.
      rewrite Hother by lia. apply Hn; [lia | assumption].
  - exists nmat, w. rewrite <- Hcnt. repeat split; auto.
    + eapply vec_set_nth_error_eq; eauto.
    + now destruct Hrowis.
    + now destruct Hrowis.
Qed.

(** What a call of [get_osm_ways] that returns has done, whatever the
    tag maps are: the loop has ended normally and the names fit the
    matrix. *)
Lemma get_osm_ways_returns (wayList : RList) (kv_df : DataFrame)
    (way_ids : list osmid_t) (ways : Ways) (nodes : list (osmid_t * NodeT))
    (unique_vals : UniqueVals) (geom_type : string) (bbox : BBox)
    (crs : CRS) (l : RList) (kv : DataFrame) :
  get_osm_ways trace_way_nmat restructure_kv_mat wayList kv_df way_ids ways
    nodes unique_vals geom_type bbox crs = ((l, kv), Done) ->
  exists f,
    for_each (way_body trace_way_nmat ways nodes unique_vals geom_type)
      way_ids
      {| wf_wayList := wayList; wf_waynames := [];
         wf_kv_mat :=
           fill (new_matrix (length way_ids) (length (k_way unique_vals)))
             NA_STRING;
         wf_count := 0 |} = (f, Done) /\
    (geom_type = "POLYGON" \/ geom_type = "LINESTRING") /\
    length (elts wayList) = length way_ids /\
    length (k_way unique_vals) <= length (cm_data (wf_kv_mat f)) /\
    l = sfc_attrs [("sfc_" ++ geom_type)%string; "sfc"] bbox crs
          (list_attr (wf_wayList f) "names" (Strings (wf_waynames f))) /\
    kv = restructure_kv_mat
           (set_matrix_dimnames
              (with_names (wf_kv_mat f) (k_way unique_vals))
              (wf_waynames f) (k_way unique_vals)) false.
Proof.
  unfold get_osm_ways.
  destruct ((geom_type =? "POLYGON")%string
            || (geom_type =? "LINESTRING")%string) eqn:Eg; simpl;
    [|discriminate].
  destruct (length (elts wayList) =? length way_ids)%nat eqn:El; simpl;
    [|discriminate].
  apply Nat.eqb_eq in El.
  destruct (for_each _ way_ids _) as [f st] eqn:Hrun.
  destruct st; try (intros H; discriminate H).
  unfold set_matrix_names.
  destruct (length (k_way unique_vals)
            <=? length (cm_data (wf_kv_mat f)))%nat eqn:En; simpl;
    intros H; inversion H; subst; clear H.
  apply Nat.leb_le in En. exists f.
  split; [reflexivity|]. split; [|auto].
  apply orb_true_iff in Eg as [E | E]; apply String.eqb_eq in E; auto.
Qed.

(** [get_osm_ways] when it returns. *)
Lemma get_osm_ways_done (wayList : RList) (kv_df : DataFrame)
    (way_ids : list osmid_t) (ways : Ways) (nodes : list (osmid_t * NodeT))
    (unique_vals : UniqueVals) (geom_type : string) (bbox : BBox)
    (crs : CRS) (l : RList) (kv : DataFrame) :
  Forall (fun x => tags_ok (w_key_val (snd x))) ways ->
  get_osm_ways trace_way_nmat restructure_kv_mat wayList kv_df way_ids ways
    nodes unique_vals geom_type bbox crs = ((l, kv), Done) ->
  exists f,
    ways_ok wayList way_ids ways nodes unique_vals geom_type way_ids f /\
    (geom_type = "POLYGON" \/ geom_type = "LINESTRING") /\
    length (elts wayList) = length way_ids /\
    l = sfc_attrs [("sfc_" ++ geom_type)%string; "sfc"] bbox crs
          (list_attr (wf_wayList f) "names" (Strings (wf_waynames f))) /\
    length (k_way unique_vals) <= length (cm_data (wf_kv_mat f)) /\
    kv = restructure_kv_mat
           (set_matrix_dimnames
              (with_names (wf_kv_mat f) (k_way unique_vals))
              (wf_waynames f) (k_way unique_vals)) false.
Proof.
  intros Htags Hret.
  destruct (get_osm_ways_returns _ _ _ _ _ _ _ _ _ _ _ Hret)
    as (f & Hrun & Hg & El & Hfit & Hl & Hkv).
  exists f. split; [|auto].
  eapply (for_each_invariant
            (way_body trace_way_nmat ways nodes unique_vals geom_type)
            (ways_ok wayList way_ids ways nodes unique_vals geom_type));
    [| |exact Hrun].
  - intros pre x suf s s' Hids Hinv Hb. eapply ways_inv_step; eauto.
  - unfold ways_inv; simpl. repeat split; auto.
    + apply fill_ok, new_matrix_ok.
    + intros i wi Hi. destruct i; discriminate.
Qed.

(** What a call of [get_osm_ways] that returns has stored: the names are
    the identifiers in the order of [way_ids], and the geometry at each
    position is that of the way traced there. *)
Lemma get_osm_ways_emits (wayList : RList) (kv_df : DataFrame)
    (way_ids : list osmid_t) (ways : Ways) (nodes : list (osmid_t * NodeT))
    (unique_vals : UniqueVals) (geom_type : string) (bbox : BBox)
    (crs : CRS) (l : RList) (kv : DataFrame) :
  Forall (fun x => tags_ok (w_key_val (snd x))) ways ->
  get_osm_ways trace_way_nmat restructure_kv_mat wayList kv_df way_ids ways
    nodes unique_vals geom_type bbox crs = ((l, kv), Done) ->
  get_attr "names" (attrs l) = Some (Strings (map to_string way_ids)) /\
  get_attr "class" (attrs l)
  = Some (Strings [("sfc_" ++ geom_type)%string; "sfc"]) /\
  length (elts l) = length way_ids /\
  (forall i wi,
      nth_error way_ids i = Some wi ->
      exists nmat,
        trace_way_nmat ways nodes wi = Ok nmat /\
        nth_error (elts l) i = Some (way_geometry geom_type nmat)).
Proof.
  intros Htags Hrun.
  destruct (get_osm_ways_done _ _ _ _ _ _ _ _ _ _ _ Htags Hrun)
    as (f & Hinv & _ & Hlen & -> & _).
  destruct Hinv as (_ & Hnames & _ & _ & _ & Hlen' & _ & Hdone).
  rewrite sfc_attrs_names, sfc_attrs_class, sfc_attrs_elts. simpl.
  rewrite get_set_attr_eq, Hnames.
  repeat split; auto; try lia.
  intros i wi Hi. destruct (Hdone i wi Hi) as (nmat & w & Ht & He & _).
  exists nmat. auto.
Qed.
(** The names after the loop, whatever the tag maps are. *)
Lemma get_osm_ways_names (wayList : RList) (kv_df : DataFrame)
    (way_ids : list osmid_t) (ways : Ways) (nodes : list (osmid_t * NodeT))
    (unique_vals : UniqueVals) (geom_type : string) (bbox : BBox)
    (crs : CRS) (l : RList) (kv : DataFrame) :
  get_osm_ways trace_way_nmat restructure_kv_mat wayList kv_df way_ids ways
    nodes unique_vals geom_type bbox crs = ((l, kv), Done) ->
  get_attr "names" (attrs l) = Some (Strings (map to_string way_ids)).
Proof.
  intros Hret.
  destruct (get_osm_ways_returns _ _ _ _ _ _ _ _ _ _ _ Hret)
    as (f & Hrun & _ & _ & _ & -> & _).
  rewrite sfc_attrs_names. simpl. rewrite get_set_attr_eq.
  do 2 f_equal.
  apply (for_each_invariant
           (way_body trace_way_nmat ways nodes unique_vals geom_type)
           (fun pre (f : frame) => wf_waynames f = map to_string pre))
    in Hrun; auto.
  intros pre x suf s s' _ Hs Hb. rewrite map_app; simpl. rewrite <- Hs.
  unfold way_body in Hb.
  destruct (trace_way_nmat ways nodes x); try discriminate.
  destruct (list_set _ _ _); try discriminate.
  destruct (get_value_mat_way _ _ _ _); try discriminate.
  now inversion Hb.
Qed.

(** [get_osm_ways] returns when its arguments fit, there is a way to
    trace or no key at all, every way to trace is a way of the map that
    the tracer traces, and every key is known. *)
Lemma get_osm_ways_defined (wayList : RList) (kv_df : DataFrame)
    (way_ids : list osmid_t) (ways : Ways) (nodes : list (osmid_t * NodeT))
    (unique_vals : UniqueVals) (geom_type : string) (bbox : BBox)
    (crs : CRS) :
  geom_type = "POLYGON" \/ geom_type = "LINESTRING" ->
  length (elts wayList) = length way_ids ->
  way_ids <> [] \/ k_way unique_vals = [] ->
  (forall wi, In wi way_ids ->
              In wi (map fst ways) /\
              exists nmat, trace_way_nmat ways nodes wi = Ok nmat) ->
  Forall (fun x => keys_known (k_way unique_vals) (w_key_val (snd x)))
    ways ->
  exists l kv,
    get_osm_ways trace_way_nmat restructure_kv_mat wayList kv_df way_ids
      ways nodes unique_vals geom_type bbox crs = ((l, kv), Done).
Proof.
  intros Hg Hlen Hfit Hids Hkn. unfold get_osm_ways.
  assert (E1 : negb ((geom_type =? "POLYGON")%string
                     || (geom_type =? "LINESTRING")%string) = false).
  { destruct Hg as [-> | ->]; reflexivity. }
  rewrite E1. apply Nat.eqb_eq in Hlen. rewrite Hlen. simpl.
  apply Nat.eqb_eq in Hlen.
  destruct (for_each_total
              (way_body trace_way_nmat ways nodes unique_vals geom_type)
              (fun pre (f : frame) =>
                 wf_count f = length pre /\
                 mat_ok (wf_kv_mat f) /\
                 cm_nrow (wf_kv_mat f) = length way_ids /\
                 cm_ncol (wf_kv_mat f) = length (k_way unique_vals) /\
                 length (elts (wf_wayList f)) = length way_ids)
              way_ids) with
    (s0 := {| wf_wayList := wayList; wf_waynames := [];
              wf_kv_mat :=
                fill (new_matrix (length way_ids)
                        (length (k_way unique_vals))) NA_STRING;
              wf_count := 0 |})
    as (f & Hrun & _ & Hok & Hr & Hc & _).
  - intros pre wi suf f Hways (Hcnt & Hok & Hr & Hc & Hl).
    assert (Hlt : length pre < length way_ids).
    { rewrite Hways, length_app; simpl; lia. }
    assert (Hin : In wi way_ids).
    { rewrite Hways. apply in_or_app. right. now left. }
    destruct (Hids wi Hin) as (Hkey & nmat & Ht).
    destruct (map_find_defined Z.ltb Zltb_irrefl Zltb_total wi ways Hkey)
      as (w & Hw).
    unfold way_body, list_set, get_value_mat_way. rewrite Ht, Hw.
    destruct (vec_set_some (elts (wf_wayList f)) (wf_count f)
                (way_geometry geom_type nmat)) as (e & Eset); [lia|].
    rewrite Eset.
    assert (Hrow : wf_count f < cm_nrow (wf_kv_mat f)) by lia.
    assert (Hknown : keys_known (k_way unique_vals) (w_key_val w)).
    { rewrite Forall_forall in Hkn.
      apply (Hkn (wi, w)).
      now apply (map_find_Some Z.ltb Zltb_irrefl Zltb_total). }
    destruct (get_value_mat_defined (k_way unique_vals) (w_key_val w)
                (wf_count f) (wf_kv_mat f) Hok Hrow (eq_sym Hc) Hknown)
      as (m & Em).
    rewrite Em. eexists. split; [reflexivity|]. simpl.
    destruct (get_value_mat_shape _ _ _ _ _ Hok Hrow Em) as (Hok' & R & C).
    destruct (vec_set_length _ _ _ _ Eset) as [Hl' _].
    rewrite length_app; simpl. repeat split; auto; lia.
  - simpl. repeat split; auto. apply fill_ok, new_matrix_ok.
  - rewrite Hrun. unfold set_matrix_names.
    assert (En : (length (k_way unique_vals)
                  <=? length (cm_data (wf_kv_mat f)))%nat = true).
    { apply Nat.leb_le. unfold mat_ok in Hok. rewrite Hok, Hr, Hc.
      destruct Hfit as [Hne | ->]; [|simpl; lia].
      destruct way_ids; [congruence | simpl; lia]. }
    rewrite En. eexists. eexists. reflexivity.
Qed.

(** The rows of the ways, under the builder of the specification: row [i]
    is the attribute row of the way of the identifier at position [i]. *)
Lemma way_attribute_rows (wayList : RList) (kv_df : DataFrame)
    (way_ids : list osmid_t) (ways : Ways) (nodes : list (osmid_t * NodeT))
    (unique_vals : UniqueVals) (geom_type : string) (bbox : BBox)
    (crs : CRS) (l : RList) (kv : DataFrame) :
  Forall (fun x => tags_ok (w_key_val (snd x))) ways ->
  get_osm_ways trace_way_nmat restructure_kv_mat wayList kv_df way_ids ways
    nodes unique_vals geom_type bbox crs = ((l, kv), Done) ->
  exists m,
    kv = restructure_kv_mat m false /\
    cm_nrow m = length way_ids /\
    cm_ncol m = length (k_way unique_vals) /\
    forall i wi,
      nth_error way_ids i = Some wi ->
      exists w,
        In (wi, w) ways /\
        keys_known (k_way unique_vals) (w_key_val w) /\
        row_is (k_way unique_vals) (w_key_val w) m i.
Proof.
  intros Htags Hrun.
  destruct (get_osm_ways_done _ _ _ _ _ _ _ _ _ _ _ Htags Hrun)
    as (f & Hinv & _ & _ & _ & _ & ->).
  destruct Hinv as (_ & _ & _ & Hr & Hc & _ & _ & Hdone).
  eexists. split; [reflexivity|]. simpl.
  split; [assumption|]. split; [assumption|].
  intros i wi Hi.
  destruct (Hdone i wi Hi) as (nmat & w & _ & _ & Hin & Hk & Hrow).
  exists w. split; [assumption|]. split; [assumption|]. exact Hrow.
Qed.

(** C8. A call with an argument that does not fit is refused at once:
    [get_osm_ways] throws when [geom_type] is neither POLYGON nor
    LINESTRING and when the list to fill has not as many elements as there
    are identifiers, [get_osm_nodes] throws when the list to fill has not
    as many elements as there are nodes; the list and the table of the
    caller are then as they were, whatever the tracer of ways is. *)
Theorem argument_misuse_rejected (wayList ptList : RList)
    (kv_df : DataFrame) (way_ids : list osmid_t) (ways : Ways)
    (nodes : list (osmid_t * NodeT)) (unique_vals : UniqueVals)
    (geom_type : string) (bbox : BBox) (crs : CRS) :
  (geom_type <> "POLYGON" -> geom_type <> "LINESTRING" ->
   get_osm_ways trace_way_nmat restructure_kv_mat wayList kv_df way_ids
     ways nodes unique_vals geom_type bbox crs
   = ((wayList, kv_df),
      Throw (runtime_error "geom_type must be POLYGON or LINESTRING"))) /\
  (length (elts wayList) <> length way_ids ->
   exists what,
     get_osm_ways trace_way_nmat restructure_kv_mat wayList kv_df way_ids
       ways nodes unique_vals geom_type bbox crs
     = ((wayList, kv_df), Throw (runtime_error what))) /\
  (geom_type = "POLYGON" \/ geom_type = "LINESTRING" ->
   length (elts wayList) <> length way_ids ->
   get_osm_ways trace_way_nmat restructure_kv_mat wayList kv_df way_ids
     ways nodes unique_vals geom_type bbox crs
   = ((wayList, kv_df),
      Throw (runtime_error "ways and IDs must have same lengths"))) /\
  (length (elts ptList) <> length nodes ->
   get_osm_nodes restructure_kv_mat ptList kv_df nodes unique_vals bbox crs
   = ((ptList, kv_df),
      Throw (runtime_error "points must have same size as nodes"))).
Proof.
  assert (Hsize : length (elts wayList) <> length way_ids ->
                  (length (elts wayList) =? length way_ids)%nat = false)
    by (intros H; now apply Nat.eqb_neq).
  split; [|split; [|split]].
  - intros H1 H2. unfold get_osm_ways.
    apply String.eqb_neq in H1, H2. now rewrite H1, H2.
  - intros Hlen. unfold get_osm_ways. rewrite (Hsize Hlen).
    destruct (negb _); simpl; eexists; reflexivity.
  - intros Hg Hlen. unfold get_osm_ways. rewrite (Hsize Hlen).
    destruct Hg as [-> | ->]; reflexivity.
  - intros Hlen. unfold get_osm_nodes.
    apply Nat.eqb_neq in Hlen. now rewrite Hlen.
Qed.
End WayFacts.

(** ** The division of the ways *)

Lemma back_some {A : Type} (v : list A) :
  v <> [] -> exists b, back v = Some b.
Proof.
  induction v as [|h t IH]; [congruence|]. intros _.
  destruct t as [|h' t']; [eexists; reflexivity|].
  destruct IH as (b & Hb); [discriminate|].
  exists b. simpl in *. exact Hb.
Qed.

Lemma sorted_app_lt {A : Type} (R : A -> A -> Prop) (l1 l2 : list A)
    (x : A) :
  StronglySorted R (l1 ++ x :: l2) -> Forall (fun y => R y x) l1.
Proof.
  induction l1 as [|h t IH]; simpl; intros Hs; [constructor|].
  inversion Hs as [|? ? Hs' Hh]; subst.
  constructor; auto.
  rewrite Forall_forall in Hh. apply Hh. apply in_or_app. right. now left.
Qed.

Lemma sorted_filter_keys {A V : Type} (R : A -> A -> Prop)
    (p : A * V -> bool) (l : list (A * V)) :
  StronglySorted R (map fst l) -> StronglySorted R (map fst (filter p l)).
Proof.
  induction l as [|x l IH]; simpl; intros Hs; [constructor|].
  inversion Hs as [|? ? Hs' Hx]; subst.
  destruct (p x); simpl; auto.
  constructor; auto.
  rewrite Forall_forall in *. intros y Hy. apply Hx.
  apply in_map_iff in Hy as (z & <- & Hz).
  apply filter_In in Hz as [Hz _]. now apply in_map.
Qed.

Lemma set_ok_Zlt (s : list osmid_t) :
  set_ok Z.ltb s <-> StronglySorted Z.lt s.
Proof.
  unfold set_ok. split; induction 1 as [|x s Hs IH Hx]; constructor; auto;
    rewrite Forall_forall in *; intros y Hy; specialize (Hx y Hy);
    unfold lt_of in *; now apply Z.ltb_lt.
Qed.

(** The two sets are sets, whatever the order of the ways. *)
Lemma classify_ways_sets (ways : Ways) (poly non : list osmid_t) :
  classify_ways ways = ((poly, non), Done) ->
  set_ok Z.ltb poly /\ set_ok Z.ltb non.
Proof.
  unfold classify_ways. intros Hrun.
  apply (for_each_invariant classify_body
           (fun _ s => set_ok Z.ltb (fst s) /\ set_ok Z.ltb (snd s)))
    in Hrun; auto.
  - intros pre x suf s s' _ [Hp Hn] Hb. unfold classify_body in Hb.
    destruct (front (w_nodes (snd x))) as [a|]; [|discriminate].
    destruct (back (w_nodes (snd x))) as [b|]; [|discriminate].
    destruct (a =? b)%Z.
    + destruct (negb _); inversion Hb; subst; simpl; auto.
      split; auto.
      apply (set_insert_ok Z.ltb Zltb_trans Zltb_total); auto.
    + destruct (negb _); inversion Hb; subst; simpl; auto.
      split; auto.
      apply (set_insert_ok Z.ltb Zltb_trans Zltb_total); auto.
  - simpl. split; constructor.
Qed.

(** With the ways in the order of their [std::map], each set holds the
    identifiers of its ways in that order. *)
Lemma classify_ways_filter (ways : Ways) (poly non : list osmid_t) :
  map_ok Z.ltb ways ->
  classify_ways ways = ((poly, non), Done) ->
  poly = map fst (filter closed_way ways) /\
  non = map fst (filter (fun x => negb (closed_way x)) ways) /\
  Forall (fun x => w_nodes (snd x) <> []) ways.
Proof.
  unfold classify_ways. intros Hok Hrun.
  apply (for_each_invariant classify_body
           (fun pre s =>
              fst s = map fst (filter closed_way pre) /\
              snd s = map fst (filter (fun x => negb (closed_way x)) pre) /\
              Forall (fun x => w_nodes (snd x) <> []) pre))
    in Hrun; auto.
  - intros pre x suf [p n] s' Hways (Hp & Hn & Hne) Hb. simpl in Hp, Hn.
    assert (Hlt : Forall (fun y => lt_of Z.ltb y (fst x)) (map fst pre)).
    { unfold map_ok, set_ok in Hok. rewrite Hways, map_app in Hok.
      simpl in Hok. eapply sorted_app_lt; eauto. }
    assert (Hsub : forall q, Forall (fun y => (y <? fst x)%Z = true)
                               (map fst (filter q pre))).
    { intros q. rewrite Forall_forall in *. intros y Hy. apply Hlt.
      apply in_map_iff in Hy as (z & <- & Hz).
      apply filter_In in Hz as [Hz _]. now apply in_map. }
    assert (Hmem : forall q,
               set_mem Z.ltb (fst x) (map fst (filter q pre)) = false).
    { intros q. destruct (set_mem Z.ltb (fst x) _) eqn:E; auto.
      apply (set_mem_In Z.ltb Zltb_irrefl Zltb_total) in E.
      specialize (Hsub q). rewrite Forall_forall in Hsub.
      specialize (Hsub _ E). now rewrite Z.ltb_irrefl in Hsub. }
    unfold classify_body in Hb. rewrite !filter_app, !map_app. simpl.
    unfold closed_way at 2 4, same_endpoints.
    destruct (front (w_nodes (snd x))) as [a|] eqn:Ea; [|discriminate].
    destruct (back (w_nodes (snd x))) as [b|] eqn:Eb; [|discriminate].
    assert (Hx : w_nodes (snd x) <> []).
    { intros E. rewrite E in Ea. discriminate. }
    simpl in Hb. subst p n.
    destruct (a =? b)%Z; simpl in *; rewrite Hmem in Hb; simpl in Hb;
      inversion Hb; subst; clear Hb; simpl;
      rewrite (set_insert_last Z.ltb Zltb_irrefl Zltb_trans _ _ (Hsub _));
      rewrite ?app_nil_r; repeat split; auto;
      apply Forall_app; split; auto.
Qed.

(** The division ends normally when every way has a node. *)
Lemma classify_ways_defined (ways : Ways) :
  Forall (fun x => w_nodes (snd x) <> []) ways ->
  exists s, classify_ways ways = (s, Done).
Proof.
  unfold classify_ways. generalize (@nil osmid_t, @nil osmid_t).
  induction ways as [|x ways IH]; intros s Hne; simpl.
  - eexists; reflexivity.
  - inversion Hne as [|? ? Hx Hne']; subst.
    unfold classify_body.
    destruct (w_nodes (snd x)) as [|a v] eqn:E; [congruence|].
    destruct (back_some (a :: v)) as (b & Hb); [discriminate|].
    simpl front. rewrite Hb.
    destruct (a =? b)%Z; destruct (negb _); apply IH; auto.
Qed.

(** The two sets hold identifiers of ways only. *)
Lemma classify_ways_In (ways : Ways) (poly non : list osmid_t) :
  classify_ways ways = ((poly, non), Done) ->
  forall id, In id poly \/ In id non -> In id (map fst ways).
Proof.
  unfold classify_ways. intros Hrun.
  refine (for_each_invariant classify_body
            (fun pre s =>
               forall id, In id (fst s) \/ In id (snd s) ->
                          In id (map fst pre))
            ways _ ([], []) (poly, non) _ Hrun).
  - intros pre x suf s s' _ Hinv Hb id Hid.
    rewrite map_app. apply in_or_app. simpl.
    unfold classify_body in Hb.
    destruct (front (w_nodes (snd x))) as [a|]; [|discriminate].
    destruct (back (w_nodes (snd x))) as [b|]; [|discriminate].
    destruct (a =? b)%Z; destruct (negb _); inversion Hb; subst;
      clear Hb; simpl in Hid;
      rewrite ?(set_insert_In Z.ltb Zltb_total) in Hid; intuition.
  - simpl. intros id [[] | []].
Qed.

(** A way of one node has the same first and last node, and is not a
    closed way in the words of the specification. *)
Lemma single_node_way (n : osmid_t) :
  same_endpoints [n] = true /\ closed_spec [n] = false.
Proof.
  unfold closed_spec, same_endpoints; simpl. rewrite Z.eqb_refl. auto.
Qed.

(** On a way of more than one node the two tests agree. *)
Lemma closed_spec_same_endpoints (v : list osmid_t) :
  1 < length v -> closed_spec v = same_endpoints v.
Proof.
  intros H. unfold closed_spec.
  apply Nat.ltb_lt in H. rewrite H. apply andb_true_r.
Qed.

(** The test of the source is the test of the specification, or a way of
    a single node. *)
Lemma same_endpoints_spec (v : list osmid_t) :
  v <> [] ->
  same_endpoints v = closed_spec v || (length v =? 1)%nat.
Proof.
  intros Hv. unfold closed_spec.
  destruct v as [|a [|b t]]; [congruence| |].
  - unfold same_endpoints; simpl. now rewrite Z.eqb_refl.
  - change (1 <? length (a :: b :: t))%nat with true.
    change (length (a :: b :: t) =? 1)%nat with false.
    now rewrite andb_true_r, orb_false_r.
Qed.

(** ** get_osm_relations *)

Lemma count_rels_spec (rels : Relations) :
  count_rels rels = (length (poly_rels rels), length (line_items rels)).
Proof.
  unfold count_rels, poly_rels, line_items, line_rels.
  assert (G : forall a b,
             fold_left count_rel rels (a, b)
             = (a + length (filter r_ispoly rels),
                b + length (flat_map
                              (fun r => map (pair r) (roles_set_of r))
                              (filter (fun r => negb (r_ispoly r)) rels)))).
  { induction rels as [|r rels IH]; intros a b; simpl.
    - f_equal; lia.
    - unfold count_rel at 2. destruct (r_ispoly r); simpl; rewrite IH.
      + f_equal; simpl; lia.
      + f_equal; simpl; rewrite ?length_app, ?length_map; lia. }
  apply G.
Qed.

Lemma line_items_app (l1 l2 : Relations) :
  line_items (l1 ++ l2) = line_items l1 ++ line_items l2.
Proof.
  unfold line_items, line_rels. now rewrite filter_app, flat_map_app.
Qed.

Lemma poly_rels_app (l1 l2 : Relations) :
  poly_rels (l1 ++ l2) = poly_rels l1 ++ poly_rels l2.
Proof. unfold poly_rels. apply filter_app. Qed.

Lemma line_rels_app (l1 l2 : Relations) :
  line_rels (l1 ++ l2) = line_rels l1 ++ line_rels l2.
Proof. unfold line_rels. apply filter_app. Qed.

Lemma line_items_cons (r : Relation) (l : Relations) :
  line_items (r :: l)
  = (if r_ispoly r then [] else map (pair r) (roles_set_of r))
    ++ line_items l.
Proof.
  unfold line_items, line_rels; simpl. now destruct (r_ispoly r).
Qed.

Lemma poly_rels_cons (r : Relation) (l : Relations) :
  poly_rels (r :: l) = (if r_ispoly r then [r] else []) ++ poly_rels l.
Proof. unfold poly_rels; simpl. now destruct (r_ispoly r). Qed.

Lemma line_rels_cons (r : Relation) (l : Relations) :
  line_rels (r :: l) = (if r_ispoly r then [] else [r]) ++ line_rels l.
Proof. unfold line_rels; simpl. now destruct (r_ispoly r). Qed.

Lemma snoc_poly (pre : Relations) (r : Relation) :
  r_ispoly r = true ->
  poly_rels (pre ++ [r]) = poly_rels pre ++ [r] /\
  line_rels (pre ++ [r]) = line_rels pre /\
  line_items (pre ++ [r]) = line_items pre.
Proof.
  intros Hp. rewrite poly_rels_app, line_rels_app, line_items_app.
  rewrite poly_rels_cons, line_rels_cons, line_items_cons, Hp. simpl.
  now rewrite !app_nil_r.
Qed.

Lemma snoc_line (pre : Relations) (r : Relation) :
  r_ispoly r = false ->
  poly_rels (pre ++ [r]) = poly_rels pre /\
  line_rels (pre ++ [r]) = line_rels pre ++ [r] /\
  line_items (pre ++ [r]) = line_items pre ++ map (pair r) (roles_set_of r).
Proof.
  intros Hp. rewrite poly_rels_app, line_rels_app, line_items_app.
  rewrite poly_rels_cons, line_rels_cons, line_items_cons, Hp. simpl.
  now rewrite !app_nil_r.
Qed.

Lemma poly_rels_room (rels pre : Relations) (r : Relation)
    (suf : Relations) :
  rels = pre ++ r :: suf -> r_ispoly r = true ->
  length (poly_rels pre) < length (poly_rels rels).
Proof.
  intros -> Hp. rewrite poly_rels_app, length_app, poly_rels_cons, Hp.
  simpl. lia.
Qed.

Lemma line_items_room (rels pre : Relations) (r : Relation)
    (suf : Relations) (rpre : list string) (role : string)
    (rsuf : list string) :
  rels = pre ++ r :: suf -> r_ispoly r = false ->
  roles_set_of r = rpre ++ role :: rsuf ->
  length (line_items pre ++ map (pair r) rpre) < length (line_items rels).
Proof.
  intros -> Hp Hset.
  rewrite line_items_app, line_items_cons, Hp, Hset.
  rewrite !length_app, !length_map, length_app. simpl. lia.
Qed.

Section Collecting.
Context {float : Type} {X T : Type}.
Variable trace : X -> result (@traced float T).
Variable label : X -> string.
Variable owner : X -> Relation.
Variable unique_vals : UniqueVals.
Variable nrow : nat.
Local Abbreviation holds := (collects trace label owner unique_vals nrow).
Local Abbreviation lists := (gathers trace label nrow).

Lemma collects_start :
  holds [] (new_collected T nrow (length (k_rel unique_vals))).
Proof.
  unfold collects; simpl. repeat split; auto.
  - apply new_matrix_ok.
  - destruct i; discriminate.
  - destruct i; discriminate.
  - destruct i; discriminate.
  - destruct i; discriminate.
Qed.

Lemma nth_error_app_last {A : Type} (l : list A) (x : A) (n : nat) :
  length l = n -> nth_error (l ++ [x]) n = Some x.
Proof.
  intros <-. rewrite nth_error_app2 by lia. now rewrite Nat.sub_diag.
Qed.

(** One more item: its trace, its label and its row. *)
Lemma collects_push (items : list X) (c : @collected float T) (x : X)
    (t : traced T) (m : CharacterMatrix) :
  holds items c ->
  length items < nrow ->
  tags_ok (r_key_val (owner x)) ->
  trace x = Ok t ->
  get_value_mat_rel (owner x) unique_vals
    (kv_mat (push_traced (label x) t c))
    (count (push_traced (label x) t c)) = Ok m ->
  holds (items ++ [x]) (put_row m (push_traced (label x) t c)).
Proof.
  intros (Hcnt & Hid & Hlon & Hlat & Hrn & Hids & Hok & Hr & Hc & Hitems)
         Hlt Htags Ht Hg.
  unfold get_value_mat_rel in Hg; simpl in Hg.
  assert (Hrow : count c < cm_nrow (kv_mat c)) by lia.
  assert (Hcol : length (k_rel unique_vals) = cm_ncol (kv_mat c)) by lia.
  destruct (get_value_mat_row _ _ _ _ _ Hok Hrow Hcol Htags Hg)
    as (Hok' & R' & C' & Hkn & Hrowis & Hother).
  unfold collects; simpl. rewrite !length_app, map_app; simpl.
  split; [lia|]. split; [now rewrite Hid|].
  split; [lia|]. split; [lia|]. split; [lia|]. split; [lia|].
  split; [assumption|]. split; [lia|]. split; [lia|].
  intros i y Hi. apply nth_error_snoc in Hi as [[Hi Hnth] | [-> ->]].
  - destruct (Hitems i y Hnth)
      as ((t' & Ht' & H1 & H2 & H3 & H4) & Hk & [Hs Hn]).
    split; [|split; [assumption | split]].
    + exists t'. rewrite !nth_error_app1 by lia. auto.
    + intros j v Htag. rewrite Hother by lia. now apply Hs.
    + intros j Hj Hnone. rewrite Hother by lia. apply Hn; [lia|assumption].
  - split; [|split; [assumption|]].
    + exists t. rewrite !nth_error_app_last by assumption. auto.
    + rewrite <- Hcnt. assumption.
Qed.

Lemma gathers_start :
  lists [] (new_collected T nrow (length (k_rel unique_vals))).
Proof.
  unfold gathers; simpl. repeat split; auto.
  intros i x Hi. destruct i; discriminate.
Qed.

Lemma gathers_push (items : list X) (c : @collected float T) (x : X)
    (t : traced T) (m : CharacterMatrix) :
  lists items c ->
  trace x = Ok t ->
  get_value_mat_rel (owner x) unique_vals
    (kv_mat (push_traced (label x) t c))
    (count (push_traced (label x) t c)) = Ok m ->
  lists (items ++ [x]) (put_row m (push_traced (label x) t c)).
Proof.
  intros (Hcnt & Hid & Hlon & Hlat & Hrn & Hids & Hr & Hitems) Ht Hg.
  unfold get_value_mat_rel in Hg; simpl in Hg.
  apply get_value_mat_nrow in Hg.
  unfold gathers; simpl. rewrite !length_app, map_app; simpl.
  split; [lia|]. split; [now rewrite Hid|].
  split; [lia|]. split; [lia|]. split; [lia|]. split; [lia|].
  split; [congruence|].
  intros i y Hi. apply nth_error_snoc in Hi as [[Hi Hnth] | [-> ->]].
  - destruct (Hitems i y Hnth) as (t' & Ht' & H1 & H2 & H3 & H4).
    exists t'. rewrite !nth_error_app1 by lia. auto.
  - exists t. rewrite !nth_error_app_last by assumption. auto.
Qed.
End Collecting.

Section RelFacts.
Context {float : Type}.
Variable trace_multipolygon :
  Relation -> Ways -> @Nodes float -> @traced float string ->
  result (@traced float string).
Variable trace_multilinestring :
  Relation -> string -> Ways -> @Nodes float -> @traced float osmid_t ->
  result (@traced float osmid_t).
Variable ways : Ways.
Variable nodes : @Nodes float.
Variable unique_vals : UniqueVals.

Local Abbreviation frame := (@rel_frame float).
Local Abbreviation poly_trace := (trace_poly trace_multipolygon ways nodes).
Local Abbreviation line_trace :=
  (trace_line trace_multilinestring ways nodes).
Local Abbreviation inv_rel :=
  (rel_inv trace_multipolygon trace_multilinestring ways nodes unique_vals).
Local Abbreviation inv_roles :=
  (roles_inv trace_multilinestring ways nodes unique_vals).
Local Abbreviation light_rel :=
  (rel_light trace_multipolygon trace_multilinestring ways nodes).
Local Abbreviation light_roles :=
  (roles_light trace_multilinestring ways nodes).
Local Abbreviation kept_tables := (tables_ok unique_vals).

Lemma rel_inv_start (rels : Relations) :
  inv_rel rels [] (rel_frame0 rels unique_vals).
Proof.
  unfold rel_inv, rel_frame0, buffers_empty; simpl.
  rewrite count_rels_spec; simpl.
  split; [repeat split; reflexivity|].
  split; [reflexivity|]. split; [reflexivity|].
  split; apply collects_start.
Qed.

Lemma poly_body_inv (rels pre : Relations) (r : Relation)
    (suf : Relations) (f f' : frame) :
  rels = pre ++ r :: suf ->
  r_ispoly r = true ->
  tags_ok (r_key_val r) ->
  inv_rel rels pre f ->
  poly_body trace_multipolygon ways nodes unique_vals r f = (f', Done) ->
  inv_rel rels (pre ++ [r]) f'.
Proof.
  intros Hrels Hpoly Htags ((B1 & B2 & B3 & B4 & B5) & Hroles & Hrls
                            & Hmp & Hls) Hbody.
  unfold poly_body in Hbody. rewrite B1, B2, B3, B4 in Hbody.
  fold (@empty_traced float string) in Hbody. fold (poly_trace r) in Hbody.
  destruct (poly_trace r) as [t|e|] eqn:Et; try discriminate.
  destruct (get_value_mat_rel r unique_vals _ _) as [m|e|] eqn:Eg;
    try discriminate.
  inversion Hbody; subst f'; clear Hbody.
  unfold rel_inv; simpl.
  destruct (snoc_poly pre r Hpoly) as (-> & -> & ->).
  split; [unfold buffers_empty; simpl; auto|].
  split; [assumption|]. split; [assumption|]. split; [|assumption].
  apply (collects_push poly_trace rel_label (fun r => r)); auto.
  eapply poly_rels_room; eauto.
Qed.

Lemma role_body_inv (rels pre : Relations) (r : Relation)
    (suf : Relations) (f0 : frame) (rpre : list string) (role : string)
    (rsuf : list string) (f f' : frame) :
  rels = pre ++ r :: suf ->
  r_ispoly r = false ->
  roles_set_of r = rpre ++ role :: rsuf ->
  tags_ok (r_key_val r) ->
  inv_roles rels pre r f0 rpre f ->
  role_body trace_multilinestring ways nodes unique_vals r role f
  = (f', Done) ->
  inv_roles rels pre r f0 (rpre ++ [role]) f'.
Proof.
  intros Hrels Hpoly Hset Htags ((B1 & B2 & B3 & B4 & B5) & Hroles & Hrls
                                 & Hmp & Hls) Hbody.
  unfold role_body in Hbody. rewrite B1, B2, B3, B5 in Hbody.
  fold (@empty_traced float osmid_t) in Hbody.
  change (trace_multilinestring r role ways nodes (@empty_traced float osmid_t))
    with (line_trace (r, role)) in Hbody.
  change (role_label (r_id r) role) with (item_label (r, role)) in Hbody.
  destruct (line_trace (r, role)) as [t|e|] eqn:Et; try discriminate.
  destruct (get_value_mat_rel r unique_vals _ _) as [m|e|] eqn:Eg;
    try discriminate.
  inversion Hbody; subst f'; clear Hbody.
  unfold roles_inv; simpl.
  split; [unfold buffers_empty; simpl; auto|].
  split; [assumption|]. split; [assumption|]. split; [assumption|].
  rewrite map_app, app_assoc. simpl.
  apply (collects_push line_trace item_label fst); auto.
  eapply line_items_room; eauto.
Qed.

Lemma line_body_inv (rels pre : Relations) (r : Relation)
    (suf : Relations) (f f' : frame) :
  rels = pre ++ r :: suf ->
  r_ispoly r = false ->
  tags_ok (r_key_val r) ->
  inv_rel rels pre f ->
  line_body trace_multilinestring ways nodes unique_vals r f = (f', Done) ->
  inv_rel rels (pre ++ [r]) f'.
Proof.
  intros Hrels Hpoly Htags (Hbuf & Hroles & Hrls & Hmp & Hls) Hbody.
  unfold line_body in Hbody. rewrite Hroles in Hbody. simpl in Hbody.
  set (f1 := set_roles (roles_set_of r) f) in *.
  destruct (for_each _ (roles_set_of r) f1) as [f2 st] eqn:Hrun.
  destruct st; try discriminate.
  inversion Hbody; subst f'; clear Hbody.
  apply (for_each_invariant
           (role_body trace_multilinestring ways nodes unique_vals r)
           (inv_roles rels pre r f1)) in Hrun.
  - destruct Hrun as (Hb2 & Hr2 & Hrls2 & Hmp2 & Hls2).
    destruct Hb2 as (B1 & B2 & B3 & B4 & B5).
    unfold rel_inv, store_roles; simpl.
    destruct (snoc_line pre r Hpoly) as (-> & -> & ->).
    split; [unfold buffers_empty; simpl; auto|].
    split; [reflexivity|].
    split; [rewrite map_app, Hrls2, Hr2; simpl; now rewrite Hrls|].
    split; [now rewrite Hmp2 | assumption].
  - intros rpre role rsuf s s' Hset Hinv Hb.
    eapply role_body_inv; eauto.
  - unfold roles_inv, f1; simpl. rewrite app_nil_r.
    split; [exact Hbuf|]. auto.
Qed.

(** The frame after the loop over the relations. *)
Lemma trace_relations_inv (rels : Relations) (f : frame) :
  Forall (fun r => tags_ok (r_key_val r)) rels ->
  trace_relations trace_multipolygon trace_multilinestring rels nodes ways
    unique_vals = (f, Done) ->
  inv_rel rels rels f.
Proof.
  intros Htags Hrun. unfold trace_relations in Hrun.
  apply (for_each_invariant
           (rel_body trace_multipolygon trace_multilinestring ways nodes
              unique_vals)
           (inv_rel rels)) in Hrun; auto.
  - intros pre r suf s s' Hrels Hinv Hb.
    assert (Hr : tags_ok (r_key_val r)).
    { rewrite Forall_forall in Htags. apply Htags. rewrite Hrels.
      apply in_or_app. right. now left. }
    unfold rel_body in Hb. destruct (r_ispoly r) eqn:Hp.
    + eapply poly_body_inv; eauto.
    + eapply line_body_inv; eauto.
  - apply rel_inv_start.
Qed.

Lemma role_body_light (rels pre : Relations) (r : Relation) (f0 : frame)
    (rpre : list string) (role : string) (s s' : frame) :
  light_roles rels pre r f0 rpre s ->
  role_body trace_multilinestring ways nodes unique_vals r role s
  = (s', Done) ->
  light_roles rels pre r f0 (rpre ++ [role]) s'.
Proof.
  intros ((C1 & C2 & C3 & C4 & C5) & Hr2 & Hrls2 & Hmp2 & Hls2) Hb.
  unfold role_body in Hb. rewrite C1, C2, C3, C5 in Hb.
  fold (@empty_traced float osmid_t) in Hb.
  change (trace_multilinestring r role ways nodes (@empty_traced float osmid_t))
    with (line_trace (r, role)) in Hb.
  change (role_label (r_id r) role) with (item_label (r, role)) in Hb.
  destruct (line_trace (r, role)) as [t|e|] eqn:Et; try discriminate.
  destruct (get_value_mat_rel r unique_vals _ _) as [m|e|] eqn:Eg;
    try discriminate.
  inversion Hb; subst s'; clear Hb. unfold roles_light; simpl.
  split; [unfold buffers_empty; simpl; auto|].
  split; [assumption|]. split; [assumption|]. split; [assumption|].
  rewrite map_app, app_assoc. simpl.
  apply (gathers_push line_trace item_label fst unique_vals); auto.
Qed.

Lemma roles_light_start (rels pre : Relations) (r : Relation) (f : frame) :
  light_rel rels pre f ->
  light_roles rels pre r (set_roles (roles_set_of r) f) []
    (set_roles (roles_set_of r) f).
Proof.
  intros (Hbuf & Hroles & Hrls & Hmp & Hls).
  unfold roles_light; simpl. rewrite app_nil_r.
  split; [exact Hbuf|]. auto.
Qed.

Lemma roles_light_end (rels pre : Relations) (r : Relation) (f f2 : frame) :
  r_ispoly r = false ->
  light_rel rels pre f ->
  light_roles rels pre r (set_roles (roles_set_of r) f) (roles_set_of r)
    f2 ->
  light_rel rels (pre ++ [r]) (store_roles f2).
Proof.
  intros Hp (Hbuf & Hroles & Hrls & Hmp & Hls)
         ((C1 & C2 & C3 & C4 & C5) & Hr2 & Hrls2 & Hmp2 & Hls2).
  simpl in Hrls2, Hmp2.
  unfold rel_light, store_roles; simpl.
  destruct (snoc_line pre r Hp) as (-> & -> & ->).
  split; [unfold buffers_empty; simpl; auto|].
  split; [reflexivity|].
  split; [rewrite map_app, Hrls2, Hr2; simpl; now rewrite Hrls|].
  split; [now rewrite Hmp2 | assumption].
Qed.

Lemma poly_body_light (rels pre : Relations) (r : Relation) (f f' : frame) :
  r_ispoly r = true ->
  light_rel rels pre f ->
  poly_body trace_multipolygon ways nodes unique_vals r f = (f', Done) ->
  light_rel rels (pre ++ [r]) f'.
Proof.
  intros Hp ((B1 & B2 & B3 & B4 & B5) & Hroles & Hrls & Hmp & Hls) Hb.
  unfold poly_body in Hb. rewrite B1, B2, B3, B4 in Hb.
  fold (@empty_traced float string) in Hb. fold (poly_trace r) in Hb.
  destruct (poly_trace r) as [t|e|] eqn:Et; try discriminate.
  destruct (get_value_mat_rel r unique_vals _ _) as [m|e|] eqn:Eg;
    try discriminate.
  inversion Hb; subst f'; clear Hb.
  unfold rel_light; simpl.
  destruct (snoc_poly pre r Hp) as (-> & -> & ->).
  split; [unfold buffers_empty; simpl; auto|].
  split; [assumption|]. split; [assumption|]. split; [|assumption].
  apply (gathers_push poly_trace rel_label (fun r => r) unique_vals); auto.
Qed.

Lemma rel_body_light (rels pre : Relations) (r : Relation) (f f' : frame) :
  light_rel rels pre f ->
  rel_body trace_multipolygon trace_multilinestring ways nodes unique_vals
    r f = (f', Done) ->
  light_rel rels (pre ++ [r]) f'.
Proof.
  intros Hinv Hb.
  unfold rel_body in Hb. destruct (r_ispoly r) eqn:Hp.
  - eapply poly_body_light; eauto.
  - pose proof Hinv as (_ & Hroles & _).
    unfold line_body in Hb. rewrite Hroles in Hb. simpl in Hb.
    destruct (for_each _ (roles_set_of r) _) as [f2 st] eqn:Hrun.
    destruct st; try discriminate.
    inversion Hb; subst f'; clear Hb.
    apply (for_each_invariant
             (role_body trace_multilinestring ways nodes unique_vals r)
             (light_roles rels pre r (set_roles (roles_set_of r) f)))
      in Hrun.
    + eapply roles_light_end; eauto.
    + intros rpre role rsuf s s' _ Hs Hb. eapply role_body_light; eauto.
    + now apply roles_light_start.
Qed.

Lemma trace_relations_light (rels : Relations) (f : frame) :
  trace_relations trace_multipolygon trace_multilinestring rels nodes ways
    unique_vals = (f, Done) ->
  light_rel rels rels f.
Proof.
  intros Hrun. unfold trace_relations in Hrun.
  apply (for_each_invariant
           (rel_body trace_multipolygon trace_multilinestring ways nodes
              unique_vals) (light_rel rels)) in Hrun; auto.
  - intros pre r suf s s' _ Hinv Hb. eapply rel_body_light; eauto.
  - unfold rel_light, rel_frame0, buffers_empty; simpl.
    rewrite count_rels_spec; simpl.
    split; [repeat split; reflexivity|].
    split; [reflexivity|]. split; [reflexivity|].
    split; apply gathers_start.
Qed.

(** A relation without members adds nothing and is no error. *)
Lemma rel_body_no_members (r : Relation) (f : frame) :
  r_ispoly r = false -> r_ways r = [] -> f_roles f = [] ->
  exists f',
    rel_body trace_multipolygon trace_multilinestring ways nodes unique_vals
      r f = (f', Done) /\
    f_ls f' = f_ls f /\ f_mp f' = f_mp f /\
    f_roles_ls f' = f_roles_ls f ++ [[]].
Proof.
  intros Hp Hw Hr. unfold rel_body, line_body, roles_set_of.
  rewrite Hp, Hw, Hr. simpl. eexists. split; [reflexivity|]. auto.
Qed.

Lemma poly_body_defined (rels pre : Relations) (r : Relation)
    (suf : Relations) (f : frame) :
  rels = pre ++ r :: suf ->
  r_ispoly r = true ->
  light_rel rels pre f -> kept_tables f ->
  (exists t, poly_trace r = Ok t) ->
  keys_known (k_rel unique_vals) (r_key_val r) ->
  exists f',
    poly_body trace_multipolygon ways nodes unique_vals r f = (f', Done) /\
    kept_tables f'.
Proof.
  intros Hrels Hp ((B1 & B2 & B3 & B4 & B5) & _ & _ & Hmp & _)
         (M1 & M2 & M3 & M4) (t & Ht) Hkn.
  destruct Hmp as (Hcnt & _ & _ & _ & _ & _ & Hr & _).
  unfold poly_body. rewrite B1, B2, B3, B4.
  fold (@empty_traced float string). fold (poly_trace r). rewrite Ht.
  unfold get_value_mat_rel. simpl.
  assert (Hrow : count (f_mp f) < cm_nrow (kv_mat (f_mp f))).
  { rewrite Hcnt, Hr. eapply poly_rels_room; eauto. }
  destruct (get_value_mat_defined (k_rel unique_vals) (r_key_val r)
              (count (f_mp f)) (kv_mat (f_mp f)) M1 Hrow (eq_sym M2) Hkn)
    as (m & Em).
  rewrite Em. eexists. split; [reflexivity|].
  destruct (get_value_mat_shape _ _ _ _ _ M1 Hrow Em) as (Hok' & _ & C).
  unfold tables_ok; simpl. repeat split; auto. congruence.
Qed.

Lemma role_body_defined (rels pre : Relations) (r : Relation)
    (suf : Relations) (f0 : frame) (rpre : list string) (role : string)
    (rsuf : list string) (s : frame) :
  rels = pre ++ r :: suf ->
  r_ispoly r = false ->
  roles_set_of r = rpre ++ role :: rsuf ->
  light_roles rels pre r f0 rpre s -> kept_tables s ->
  (exists t, line_trace (r, role) = Ok t) ->
  keys_known (k_rel unique_vals) (r_key_val r) ->
  exists s',
    role_body trace_multilinestring ways nodes unique_vals r role s
    = (s', Done) /\
    kept_tables s'.
Proof.
  intros Hrels Hp Hset ((B1 & B2 & B3 & B4 & B5) & _ & _ & _ & Hls)
         (M1 & M2 & M3 & M4) (t & Ht) Hkn.
  destruct Hls as (Hcnt & _ & _ & _ & _ & _ & Hr & _).
  unfold role_body. rewrite B1, B2, B3, B5.
  fold (@empty_traced float osmid_t).
  change (trace_multilinestring r role ways nodes (@empty_traced float osmid_t))
    with (line_trace (r, role)).
  rewrite Ht. unfold get_value_mat_rel. simpl.
  assert (Hrow : count (f_ls s) < cm_nrow (kv_mat (f_ls s))).
  { rewrite Hcnt, Hr. eapply line_items_room; eauto. }
  destruct (get_value_mat_defined (k_rel unique_vals) (r_key_val r)
              (count (f_ls s)) (kv_mat (f_ls s)) M3 Hrow (eq_sym M4) Hkn)
    as (m & Em).
  rewrite Em. eexists. split; [reflexivity|].
  destruct (get_value_mat_shape _ _ _ _ _ M3 Hrow Em) as (Hok' & _ & C).
  unfold tables_ok; simpl. repeat split; auto. congruence.
Qed.

(** The loop over the relations ends normally when the tracers return
    for every relation and every role, and every key is known. *)
Lemma trace_relations_defined (rels : Relations) :
  (forall r, In r rels -> r_ispoly r = true ->
             exists t, poly_trace r = Ok t) ->
  (forall r role, In r rels -> r_ispoly r = false ->
                  In role (roles_set_of r) ->
                  exists t, line_trace (r, role) = Ok t) ->
  Forall (fun r => keys_known (k_rel unique_vals) (r_key_val r)) rels ->
  exists f,
    trace_relations trace_multipolygon trace_multilinestring rels nodes
      ways unique_vals = (f, Done).
Proof.
  intros Htp Htl Hkn. unfold trace_relations.
  destruct (for_each_total
              (rel_body trace_multipolygon trace_multilinestring ways nodes
                 unique_vals)
              (fun pre f => light_rel rels pre f /\ kept_tables f) rels)
    with (s0 := @rel_frame0 float rels unique_vals) as (f & Hrun & _).
  - intros pre r suf f Hrels [Hl Ht].
    assert (Hin : In r rels).
    { rewrite Hrels. apply in_or_app. right. now left. }
    assert (Hk : keys_known (k_rel unique_vals) (r_key_val r)).
    { rewrite Forall_forall in Hkn. now apply Hkn. }
    unfold rel_body. destruct (r_ispoly r) eqn:Hp.
    + destruct (poly_body_defined rels pre r suf f Hrels Hp Hl Ht
                  (Htp r Hin Hp) Hk) as (f' & Hb & Ht').
      exists f'. split; [assumption|]. split; [|assumption].
      eapply poly_body_light; eauto.
    + pose proof Hl as (_ & Hroles & _).
      unfold line_body. rewrite Hroles. simpl.
      destruct (for_each_total
                  (role_body trace_multilinestring ways nodes unique_vals r)
                  (fun rpre s =>
                     light_roles rels pre r
                       (set_roles (roles_set_of r) f) rpre s /\
                     kept_tables s)
                  (roles_set_of r))
        with (s0 := set_roles (roles_set_of r) f) as (f2 & Hrun & Hl2 & Ht2).
      * intros rpre role rsuf s Hset [Hs Hts].
        assert (Hrole : In role (roles_set_of r)).
        { rewrite Hset. apply in_or_app. right. now left. }
        destruct (role_body_defined rels pre r suf _ rpre role rsuf s
                    Hrels Hp Hset Hs Hts (Htl r role Hin Hp Hrole) Hk)
          as (s' & Hb & Hts').
        exists s'. split; [assumption|]. split; [|assumption].
        eapply role_body_light; eauto.
      * split; [now apply roles_light_start | exact Ht].
      * rewrite Hrun. eexists. split; [reflexivity|]. split.
        -- eapply roles_light_end; eauto.
        -- exact Ht2.
  - split.
    + unfold rel_light, rel_frame0, buffers_empty; simpl.
      rewrite count_rels_spec; simpl.
      split; [repeat split; reflexivity|].
      split; [reflexivity|]. split; [reflexivity|].
      split; apply gathers_start.
    + unfold tables_ok, rel_frame0; simpl.
      repeat split; auto using new_matrix_ok.
  - exists f. exact Hrun.
Qed.
(** The two tables keep their storage and their columns along the loop,
    whatever the tag maps are. *)
Lemma rel_body_tables (r : Relation) (f f' : frame) :
  kept_tables f ->
  rel_body trace_multipolygon trace_multilinestring ways nodes unique_vals
    r f = (f', Done) ->
  kept_tables f'.
Proof.
  assert (Hrole : forall roles (s s' : frame),
             kept_tables s ->
             for_each (role_body trace_multilinestring ways nodes
                         unique_vals r) roles s = (s', Done) ->
             kept_tables s').
  { induction roles as [|role roles IH]; intros s s' Hs Hrun; simpl in Hrun.
    - now inversion Hrun; subst.
    - destruct (role_body trace_multilinestring ways nodes unique_vals r
                  role s) as [s1 st] eqn:Hb.
      destruct st; try discriminate.
      apply (IH s1 s'); auto.
      unfold role_body in Hb.
      destruct (trace_multilinestring r role ways nodes _) as [t| |];
        try discriminate.
      destruct (get_value_mat_rel r unique_vals _ _) as [m| |] eqn:Eg;
        try discriminate.
      inversion Hb; subst s1; clear Hb.
      destruct Hs as (A & B & C & D).
      destruct (get_value_mat_keeps _ _ _ _ _ Eg) as (_ & C' & Hok').
      simpl in *. unfold tables_ok; simpl.
      repeat split; auto; congruence. }
  intros Hf Hb. unfold rel_body in Hb. destruct (r_ispoly r).
  - unfold poly_body in Hb.
    destruct (trace_multipolygon r ways nodes _) as [t| |];
      try discriminate.
    destruct (get_value_mat_rel r unique_vals _ _) as [m| |] eqn:Eg;
      try discriminate.
    inversion Hb; subst f'; clear Hb.
    destruct Hf as (A & B & C & D).
    destruct (get_value_mat_keeps _ _ _ _ _ Eg) as (_ & C' & Hok').
    simpl in *. unfold tables_ok; simpl.
    repeat split; auto; congruence.
  - unfold line_body in Hb.
    destruct (for_each _ _ _) as [f2 st] eqn:Hrun.
    destruct st; try discriminate.
    inversion Hb; subst f'; clear Hb.
    apply Hrole in Hrun; [exact Hrun | exact Hf].
Qed.

Lemma trace_relations_tables (rels : Relations) (f : frame) :
  trace_relations trace_multipolygon trace_multilinestring rels nodes ways
    unique_vals = (f, Done) ->
  kept_tables f.
Proof.
  intros Hrun. unfold trace_relations in Hrun.
  apply (for_each_invariant
           (rel_body trace_multipolygon trace_multilinestring ways nodes
              unique_vals) (fun _ => kept_tables)) in Hrun; auto.
  - intros pre r suf s s' _ Hinv Hb. eapply rel_body_tables; eauto.
  - unfold tables_ok, rel_frame0; simpl.
    repeat split; auto using new_matrix_ok.
Qed.
End RelFacts.

(** ** The role set of a relation *)

Lemma roles_set_of_list (r : Relation) :
  roles_set_of r = set_of_list String.ltb (map snd (r_ways r)).
Proof.
  unfold roles_set_of, set_of_list. generalize (@nil string).
  induction (r_ways r) as [|w ws IH]; intros s; simpl; auto.
Qed.

Lemma roles_set_ok (r : Relation) : set_ok String.ltb (roles_set_of r).
Proof.
  rewrite roles_set_of_list.
  apply (set_of_list_ok String.ltb string_ltb_trans string_ltb_total).
Qed.

Lemma roles_set_In (r : Relation) (role : string) :
  In role (roles_set_of r) <-> exists w, In (w, role) (r_ways r).
Proof.
  rewrite roles_set_of_list.
  rewrite (set_of_list_In String.ltb string_ltb_total).
  rewrite in_map_iff. split.
  - intros ([w ro] & <- & Hin). now exists w.
  - intros (w & Hin). now exists (w, role).
Qed.

Lemma roles_set_NoDup (r : Relation) : NoDup (roles_set_of r).
Proof.
  apply (set_ok_NoDup String.ltb string_ltb_irrefl), roles_set_ok.
Qed.

Lemma role_label_cases (id : osmid_t) (role : string) :
  (role = "" -> role_label id role = (to_string id ++ "-(no role)")%string)
  /\
  (role <> "" -> role_label id role = (to_string id ++ "-" ++ role)%string).
Proof.
  unfold role_label. split.
  - intros ->. reflexivity.
  - intros Hne. apply String.eqb_neq in Hne. now rewrite Hne.
Qed.

(** ** The checks *)

Lemma checked_seq (s1 s2 : status) (P1 P2 : Prop) :
  checked s1 P1 -> checked s2 P2 ->
  checked
    match s1 with
    | Done => s2
    | Throw e => Throw e
    | Undefined => Undefined
    end (P1 /\ P2).
Proof.
  intros [[-> H1] | (c & a & b & Hne & -> & Hn1)].
  - intros [[-> H2] | (c & a & b & Hne & -> & Hn2)].
    + left. auto.
    + right. exists c, a, b. repeat split; auto. tauto.
  - intros _. right. exists c, a, b. repeat split; auto. tauto.
Qed.

Lemma checked_iff (st : status) (P Q : Prop) :
  (P <-> Q) -> checked st P -> checked st Q.
Proof.
  intros Hiff [[-> H] | (c & a & b & Hne & -> & Hn)].
  - left. tauto.
  - right. exists c, a, b. repeat split; auto. tauto.
Qed.

Lemma checked_sizes {A B : Type} (inner : A -> B -> status)
    (P : A -> B -> Prop) :
  (forall x y, checked (inner x y) (P x y)) ->
  forall xs ys,
    length xs = length ys ->
    checked (check_sizes inner xs ys) (Forall2 P xs ys).
Proof.
  intros Hin. induction xs as [|x xs IH]; intros [|y ys] Hlen;
    simpl in *; try discriminate.
  - left. split; [reflexivity | constructor].
  - destruct (Hin x y) as [[-> Hp] | (c & a & b & Hne & -> & Hn)].
    + destruct (IH ys ltac:(lia)) as [[-> Hf] | (c & a & b & Hne & -> & Hn)].
      * left. split; [reflexivity | now constructor].
      * right. exists c, a, b. repeat split; auto.
        intros Hf. inversion Hf; subst. tauto.
    + right. exists c, a, b. repeat split; auto.
      intros Hf. inversion Hf; subst. tauto.
Qed.

Lemma checked_level {A B : Type} (collection : string)
    (inner : A -> B -> status) (P : A -> B -> Prop) :
  (forall x y, checked (inner x y) (P x y)) ->
  forall xs ys,
    checked (check_level collection inner xs ys) (Forall2 P xs ys).
Proof.
  intros Hin xs ys. unfold check_level.
  destruct (length xs =? length ys)%nat eqn:E.
  - apply Nat.eqb_eq in E. now apply checked_sizes.
  - apply Nat.eqb_neq in E. right.
    exists collection, (length xs), (length ys). repeat split; auto.
    intros Hf. apply E. eapply Forall2_length; eauto.
Qed.

Lemma Forall2_True_length {A B : Type} (xs : list A) (ys : list B) :
  Forall2 (fun _ _ => True) xs ys <-> length xs = length ys.
Proof.
  split.
  - apply Forall2_length.
  - revert ys; induction xs as [|x xs IH]; intros [|y ys] H;
      simpl in *; try discriminate; constructor; auto.
Qed.

Lemma checked_leaf {A B : Type} (collection : string) (xs : list A)
    (ys : list B) :
  checked (check_leaf collection xs ys) (length xs = length ys).
Proof.
  unfold check_leaf.
  eapply checked_iff; [apply Forall2_True_length|].
  apply checked_level. intros x y. left. auto.
Qed.

Lemma checked_arr3 {A B : Type} (collection : string)
    (xs : list (list (list A))) (ys : list (list (list B))) :
  checked (check_arr3 collection xs ys) (aligned3 xs ys).
Proof.
  unfold check_arr3, aligned3.
  apply checked_level. intros x y.
  apply checked_level. intros a b. apply checked_leaf.
Qed.

Lemma checked_geom_arrs {F : Type} (lon_arr lat_arr : list (list (list F)))
    (rowname_arr : list (list (list string))) :
  checked (check_geom_arrs lon_arr lat_arr rowname_arr)
    (aligned3 lon_arr lat_arr /\ aligned3 lon_arr rowname_arr).
Proof.
  unfold check_geom_arrs. apply checked_seq; apply checked_arr3.
Qed.

Lemma checked_id_arr {F T : Type} (lon_arr : list (list (list F)))
    (arr : list (list T)) :
  checked (check_id_arr lon_arr arr) (aligned_ids lon_arr arr).
Proof.
  unfold check_id_arr, aligned_ids.
  apply checked_level. intros x y. apply checked_leaf.
Qed.

(** ** What get_osm_relations returns *)

Section RelationClaims.
Context {float NumericMatrix DataFrame BBox CRS : Type}.
Variable trace_multipolygon :
  Relation -> Ways -> @Nodes float -> @traced float string ->
  result (@traced float string).
Variable trace_multilinestring :
  Relation -> string -> Ways -> @Nodes float -> @traced float osmid_t ->
  result (@traced float osmid_t).
Variable convert_poly_linestring_to_Rcpp :
  forall T : Type,
    list (list (list float)) -> list (list (list float)) ->
    list (list (list string)) -> list (list T) -> list string -> string ->
    @RcppList float NumericMatrix BBox CRS.
Variable restructure_kv_mat : CharacterMatrix -> bool -> DataFrame.
Variable as_data_frame_null : DataFrame.

Local Abbreviation frame := (@rel_frame float).
Local Abbreviation ret_t :=
  (@relations_ret float NumericMatrix DataFrame BBox CRS).
Local Abbreviation run_relations :=
  (get_osm_relations trace_multipolygon trace_multilinestring
     convert_poly_linestring_to_Rcpp restructure_kv_mat
     as_data_frame_null).
Local Abbreviation run_loop :=
  (trace_relations trace_multipolygon trace_multilinestring).
Local Abbreviation returned :=
  (ret_of convert_poly_linestring_to_Rcpp restructure_kv_mat
     as_data_frame_null).

Lemma check_frame_checked (f : frame) :
  checked (check_frame f) (frame_aligned f).
Proof.
  unfold check_frame, frame_aligned.
  apply checked_seq; [apply checked_geom_arrs|].
  apply checked_seq; [apply checked_geom_arrs|].
  apply checked_seq; apply checked_id_arr.
Qed.

(** The table of a kind of relation: what [rel_table] returns, and that
    it returns when the matrix has a row for each label and a column for
    each key. *)
Lemma rel_table_inv {T : Type} (c : @collected float T)
    (unique_vals : UniqueVals) (ls : bool) (d : DataFrame) :
  rel_table restructure_kv_mat as_data_frame_null c unique_vals ls = Ok d ->
  d = table_of restructure_kv_mat as_data_frame_null c unique_vals ls.
Proof.
  unfold rel_table, table_of, set_matrix_names.
  destruct (0 <? length (rel_id c))%nat; [|now intros H; inversion H].
  destruct (length (k_rel unique_vals) <=? length (cm_data (kv_mat c)))%nat;
    [|discriminate].
  now intros H; inversion H.
Qed.

Lemma rel_table_fits {T : Type} (c : @collected float T)
    (unique_vals : UniqueVals) (ls : bool) :
  mat_ok (kv_mat c) ->
  cm_ncol (kv_mat c) = length (k_rel unique_vals) ->
  cm_nrow (kv_mat c) = length (rel_id c) ->
  rel_table restructure_kv_mat as_data_frame_null c unique_vals ls
  = Ok (table_of restructure_kv_mat as_data_frame_null c unique_vals ls).
Proof.
  intros Hok Hc Hr. unfold rel_table, table_of, set_matrix_names.
  destruct (0 <? length (rel_id c))%nat eqn:E; [|reflexivity].
  apply Nat.ltb_lt in E.
  assert (En : (length (k_rel unique_vals)
                <=? length (cm_data (kv_mat c)))%nat = true).
  { apply Nat.leb_le. unfold mat_ok in Hok. rewrite Hok, Hc, Hr. nia. }
  now rewrite En.
Qed.

Lemma get_osm_relations_ok (rels : Relations) (nodes : @Nodes float)
    (ways : Ways) (unique_vals : UniqueVals) (bbox : BBox) (crs : CRS)
    (ret : ret_t) :
  run_relations rels nodes ways unique_vals bbox crs = Ok ret ->
  exists f,
    run_loop rels nodes ways unique_vals = (f, Done) /\
    check_frame f = Done /\
    ret = returned f unique_vals bbox crs.
Proof.
  unfold get_osm_relations.
  destruct (trace_relations _ _ rels nodes ways unique_vals) as [f st].
  destruct st; try discriminate.
  destruct (check_frame f) eqn:Ec; try discriminate.
  destruct (rel_table _ _ (f_ls f) _ _) as [dl| |] eqn:El; try discriminate.
  destruct (rel_table _ _ (f_mp f) _ _) as [dm| |] eqn:Em; try discriminate.
  intros H; inversion H; subst. exists f.
  split; [reflexivity|]. split; [exact Ec|].
  apply rel_table_inv in El. apply rel_table_inv in Em.
  unfold ret_of. now rewrite El, Em.
Qed.

(** A call whose loop and checks end normally returns: the names fit
    the two matrices. *)
Lemma get_osm_relations_returns (rels : Relations) (nodes : @Nodes float)
    (ways : Ways) (unique_vals : UniqueVals) (bbox : BBox) (crs : CRS)
    (f : frame) :
  run_loop rels nodes ways unique_vals = (f, Done) ->
  check_frame f = Done ->
  run_relations rels nodes ways unique_vals bbox crs
  = Ok (returned f unique_vals bbox crs).
Proof.
  intros Hrun Hc. unfold get_osm_relations. rewrite Hrun, Hc.
  destruct (trace_relations_tables _ _ _ _ _ _ _ Hrun) as (A & B & C & D).
  destruct (trace_relations_light _ _ _ _ _ _ _ Hrun)
    as (_ & _ & _ & (_ & Hid & _ & _ & _ & _ & Hr & _)
        & (_ & Hidl & _ & _ & _ & _ & Hrl & _)).
  rewrite (rel_table_fits (f_ls f) unique_vals true), (rel_table_fits
    (f_mp f) unique_vals false); auto.
  - rewrite Hid, length_map. auto.
  - rewrite Hidl, length_map. auto.
Qed.

(** C1. The arrays that the loop has filled are checked before anything
    is converted: when the longitudes, the latitudes, the row names and
    the identifiers have equal lengths at every level the call returns
    what is converted from them, and otherwise it throws a
    [StructuralMismatchError] and returns nothing; so whatever the call
    returns is made of aligned arrays. *)
Theorem misaligned_arrays_abort (rels : Relations) (nodes : @Nodes float)
    (ways : Ways) (unique_vals : UniqueVals) (bbox : BBox) (crs : CRS) :
  (forall f,
      run_loop rels nodes ways unique_vals = (f, Done) ->
      (frame_aligned f /\
       run_relations rels nodes ways unique_vals bbox crs
       = Ok (returned f unique_vals bbox crs)) \/
      (~ frame_aligned f /\
       exists collection len1 len2,
         len1 <> len2 /\
         run_relations rels nodes ways unique_vals bbox crs
         = Raise (StructuralMismatchError collection len1 len2))) /\
  (forall ret,
      run_relations rels nodes ways unique_vals bbox crs = Ok ret ->
      exists f,
        run_loop rels nodes ways unique_vals = (f, Done) /\
        frame_aligned f /\
        ret = returned f unique_vals bbox crs).
Proof.
  split.
  - intros f Hrun.
    destruct (check_frame_checked f)
      as [[Hc Hal] | (c & a & b & Hne & Hc & Hn)].
    + left. split; [assumption|].
      now apply get_osm_relations_returns.
    + right. split; [assumption|]. exists c, a, b.
      split; [assumption|].
      unfold get_osm_relations. now rewrite Hrun, Hc.
  - intros ret Hret.
    destruct (get_osm_relations_ok _ _ _ _ _ _ _ Hret) as (f & Hrun & Hc & ->).
    exists f. split; [assumption|]. split; [|reflexivity].
    destruct (check_frame_checked f)
      as [[_ Hal] | (c & a & b & _ & Heq & _)]; [assumption|].
    rewrite Hc in Heq. discriminate.
Qed.
(** C2. For the relations that are no polygons, [get_osm_relations]
    stores one traced geometry, one label and one attribute row for each
    role of the role set of each relation: the role set holds each role of
    the way members once, in ascending order; the label is the identifier
    followed by "-(no role)" for the empty role and by "-" and the role
    otherwise; a relation without members adds nothing and is no error. *)
Theorem one_line_string_per_role (rels : Relations) (nodes : @Nodes float)
    (ways : Ways) (unique_vals : UniqueVals) (bbox : BBox) (crs : CRS)
    (ret : ret_t) :
  run_relations rels nodes ways unique_vals bbox crs = Ok ret ->
  (exists f,
      ret = returned f unique_vals bbox crs /\
      line_items rels
      = flat_map (fun r => map (pair r) (roles_set_of r)) (line_rels rels) /\
      rel_id (f_ls f) = map item_label (line_items rels) /\
      length (lon_arr (f_ls f)) = length (line_items rels) /\
      length (lat_arr (f_ls f)) = length (line_items rels) /\
      length (rowname_arr (f_ls f)) = length (line_items rels) /\
      length (id_vec (f_ls f)) = length (line_items rels) /\
      cm_nrow (kv_mat (f_ls f)) = length (line_items rels) /\
      count (f_ls f) = length (line_items rels) /\
      f_roles_ls f = map roles_set_of (line_rels rels) /\
      forall i x,
        nth_error (line_items rels) i = Some x ->
        exists t,
          trace_line trace_multilinestring ways nodes x = Ok t /\
          nth_error (lon_arr (f_ls f)) i = Some (lon_vec t) /\
          nth_error (lat_arr (f_ls f)) i = Some (lat_vec t) /\
          nth_error (rowname_arr (f_ls f)) i = Some (rowname_vec t) /\
          nth_error (id_vec (f_ls f)) i = Some (ids t)) /\
  (forall r,
      set_ok String.ltb (roles_set_of r) /\
      NoDup (roles_set_of r) /\
      (forall role,
          In role (roles_set_of r) <-> exists w, In (w, role) (r_ways r)) /\
      (r_ways r = [] -> roles_set_of r = [])) /\
  (forall id role,
      (role = "" ->
       role_label id role = (to_string id ++ "-(no role)")%string) /\
      (role <> "" ->
       role_label id role = (to_string id ++ "-" ++ role)%string)) /\
  (forall r (f : frame),
      r_ispoly r = false -> r_ways r = [] -> f_roles f = [] ->
      exists f',
        rel_body trace_multipolygon trace_multilinestring ways nodes
          unique_vals r f = (f', Done) /\
        f_ls f' = f_ls f /\ f_mp f' = f_mp f /\
        f_roles_ls f' = f_roles_ls f ++ [[]]).
Proof.
  intros Hret.
  destruct (get_osm_relations_ok _ _ _ _ _ _ _ Hret) as (f & Hrun & _ & ->).
  pose proof (trace_relations_light _ _ _ _ _ _ _ Hrun)
    as (_ & _ & Hrls & _ & Hls).
  destruct Hls as (Hcnt & Hid & Hlon & Hlat & Hrn & Hids & Hr & Hitems).
  split; [|split; [|split]].
  - exists f. split; [reflexivity|]. split; [reflexivity|].
    do 8 (split; [assumption|]). assumption.
  - intros r. split; [apply roles_set_ok|]. split; [apply roles_set_NoDup|].
    split; [apply roles_set_In|].
    intros Hw. unfold roles_set_of. now rewrite Hw.
  - intros id role. apply role_label_cases.
  - intros r f0. apply rel_body_no_members.
Qed.

(** C3. The attribute row stored for a role of a relation is the
    attribute row of the relation: the rows of all the roles of one
    relation are the same row, the one that the builder builds for the
    relation itself. *)
Theorem role_rows_copy_relation_row (rels : Relations)
    (nodes : @Nodes float) (ways : Ways) (unique_vals : UniqueVals)
    (bbox : BBox) (crs : CRS) (ret : ret_t) :
  Forall (fun r => tags_ok (r_key_val r)) rels ->
  set_ok String.ltb (k_rel unique_vals) ->
  run_relations rels nodes ways unique_vals bbox crs = Ok ret ->
  exists f,
    ret = returned f unique_vals bbox crs /\
    rel_id (f_ls f) = map item_label (line_items rels) /\
    (forall i r role,
        nth_error (line_items rels) i = Some (r, role) ->
        mat_row (kv_mat (f_ls f)) i
        = attr_row (k_rel unique_vals) (r_key_val r)) /\
    (forall i j r role role',
        nth_error (line_items rels) i = Some (r, role) ->
        nth_error (line_items rels) j = Some (r, role') ->
        mat_row (kv_mat (f_ls f)) i = mat_row (kv_mat (f_ls f)) j) /\
    (forall r m0 j m1,
        In r rels ->
        mat_ok m0 -> j < cm_nrow m0 ->
        cm_ncol m0 = length (k_rel unique_vals) ->
        get_value_mat_rel r unique_vals m0 j = Ok m1 ->
        mat_row m1 j = attr_row (k_rel unique_vals) (r_key_val r)).
Proof.
  intros Htags Hkeys Hret.
  destruct (get_osm_relations_ok _ _ _ _ _ _ _ Hret) as (f & Hrun & _ & ->).
  pose proof (trace_relations_inv _ _ _ _ _ _ _ Htags Hrun)
    as (_ & _ & _ & _ & Hls).
  destruct Hls as (_ & Hid & _ & _ & _ & _ & Hok & Hr & Hc & Hitems).
  assert (Hrows : forall i r role,
             nth_error (line_items rels) i = Some (r, role) ->
             mat_row (kv_mat (f_ls f)) i
             = attr_row (k_rel unique_vals) (r_key_val r)).
  { intros i r role Hi. destruct (Hitems i (r, role) Hi) as (_ & _ & Hrow).
    now apply row_is_attr_row. }
  exists f. split; [reflexivity|]. split; [assumption|].
  split; [assumption|]. split.
  - intros i j r role role' Hi Hj.
    now rewrite (Hrows i r role Hi), (Hrows j r role' Hj).
  - intros r m0 j m1 Hin Hok0 Hj Hc0 Hg.
    rewrite Forall_forall in Htags.
    unfold get_value_mat_rel in Hg.
    destruct (get_value_mat_row _ _ _ _ _ Hok0 Hj (eq_sym Hc0)
                (Htags r Hin) Hg) as (_ & _ & C' & _ & Hrow & _).
    apply row_is_attr_row; auto. lia.
Qed.

(** C9, as the source has it.  The two tables are variables of type
    [Rcpp::DataFrame], which never hold the null value.  Without a polygon
    relation the table of the multipolygons is what the assignment of
    [R_NilValue] stores, a data frame without columns and rows; with at
    least one, and so at least one geometry, it is made from the matrix
    of the rows.  The same holds of the table of the multilinestrings and
    the line strings of the other relations. *)
Theorem relation_tables_empty_not_null (rels : Relations)
    (nodes : @Nodes float) (ways : Ways) (unique_vals : UniqueVals)
    (bbox : BBox) (crs : CRS) (ret : ret_t) :
  run_relations rels nodes ways unique_vals bbox crs = Ok ret ->
  exists f,
    ret = returned f unique_vals bbox crs /\
    length (lon_arr (f_mp f)) = length (poly_rels rels) /\
    length (lon_arr (f_ls f)) = length (line_items rels) /\
    kv_df_mp ret <> NullValue /\
    kv_df_ls ret <> NullValue /\
    (poly_rels rels = [] ->
     kv_df_mp ret = FrameValue as_data_frame_null) /\
    (line_items rels = [] ->
     kv_df_ls ret = FrameValue as_data_frame_null) /\
    (poly_rels rels <> [] ->
     exists m,
       kv_df_mp ret = FrameValue (restructure_kv_mat m false) /\
       cm_data m = cm_data (kv_mat (f_mp f)) /\
       cm_nrow m = length (poly_rels rels)) /\
    (line_items rels <> [] ->
     exists m,
       kv_df_ls ret = FrameValue (restructure_kv_mat m true) /\
       cm_data m = cm_data (kv_mat (f_ls f)) /\
       cm_nrow m = length (line_items rels)).
Proof.
  intros Hret.
  destruct (get_osm_relations_ok _ _ _ _ _ _ _ Hret) as (f & Hrun & _ & ->).
  destruct (trace_relations_light _ _ _ _ _ _ _ Hrun)
    as (_ & _ & _ & (_ & Hid & Hlen & _ & _ & _ & Hr & _)
        & (_ & Hidl & Hlenl & _ & _ & _ & Hrl & _)).
  exists f. split; [reflexivity|]. split; [assumption|].
  split; [assumption|]. simpl.
  split; [discriminate|]. split; [discriminate|].
  unfold table_of. rewrite Hid, Hidl, !length_map.
  split; [intros ->; reflexivity|].
  split; [intros ->; reflexivity|].
  split; intros Hne.
  - destruct (poly_rels rels) as [|r l]; [congruence|]. simpl.
    eexists. split; [reflexivity|]. simpl. auto.
  - destruct (line_items rels) as [|x l]; [congruence|]. simpl.
    eexists. split; [reflexivity|]. simpl. auto.
Qed.
End RelationClaims.

(** ** Polygon relations under the tracer of the specification *)

Section RingClaims.
Context {float NumericMatrix DataFrame BBox CRS : Type}.
Variable trace_way :
  Ways -> @Nodes float -> osmid_t ->
  result (list float * list float * list string).
Variable trace_multilinestring :
  Relation -> string -> Ways -> @Nodes float -> @traced float osmid_t ->
  result (@traced float osmid_t).
Variable convert_poly_linestring_to_Rcpp :
  forall T : Type,
    list (list (list float)) -> list (list (list float)) ->
    list (list (list string)) -> list (list T) -> list string -> string ->
    @RcppList float NumericMatrix BBox CRS.
Variable restructure_kv_mat : CharacterMatrix -> bool -> DataFrame.
Variable as_data_frame_null : DataFrame.

Local Abbreviation ret_t :=
  (@relations_ret float NumericMatrix DataFrame BBox CRS).

(** The rings that [trace_rings] appends: one for each member, in the
    order of the members, labelled by the identifier of the member. *)
Lemma trace_rings_members (ways : Ways) (nodes : @Nodes float)
    (members : list (osmid_t * string)) :
  forall t0 t : @traced float string,
    trace_rings trace_way ways nodes members t0 = Ok t ->
    exists rings lats labels,
      lon_vec t = lon_vec t0 ++ rings /\
      lat_vec t = lat_vec t0 ++ lats /\
      rowname_vec t = rowname_vec t0 ++ labels /\
      ids t = ids t0 ++ map (fun w => to_string (fst w)) members /\
      length rings = length members /\
      length lats = length members /\
      length labels = length members /\
      forall k w,
        nth_error members k = Some w ->
        exists lo la lb,
          trace_way ways nodes (fst w) = Ok (lo, la, lb) /\
          ring_closed lb = true /\
          nth_error rings k = Some lo /\
          nth_error lats k = Some la /\
          nth_error labels k = Some lb.
Proof.
  induction members as [|[w role] members IH]; intros t0 t Ht; simpl in Ht.
  - inversion Ht; subst. exists [], [], []. rewrite !app_nil_r.
    repeat split; auto. intros k w Hk. destruct k; discriminate.
  - destruct (trace_way ways nodes w) as [[[lo la] lb]|e|] eqn:Ew;
      try discriminate.
    destruct (ring_closed lb) eqn:Ec; [|discriminate].
    destruct (IH _ _ Ht)
      as (rings & lats & labels & H1 & H2 & H3 & H4 & L1 & L2 & L3 & Hk).
    simpl in H1, H2, H3, H4.
    exists (lo :: rings), (la :: lats), (lb :: labels).
    rewrite H1, H2, H3, H4, <- !app_assoc. simpl.
    repeat split; auto.
    intros k w' Hw'. destruct k as [|k]; simpl in *.
    + inversion Hw'; subst. simpl. exists lo, la, lb. auto.
    + now apply Hk.
Qed.

(** C4. For a polygon relation, [get_osm_relations] stores as many rings
    as the relation has member ways, in the order of the members, each
    labelled by its member, and one attribute row and one label for the
    whole relation. *)
Theorem one_ring_per_member (rels : Relations) (nodes : @Nodes float)
    (ways : Ways) (unique_vals : UniqueVals) (bbox : BBox) (crs : CRS)
    (ret : ret_t) :
  get_osm_relations (trace_multipolygon_spec trace_way)
    trace_multilinestring convert_poly_linestring_to_Rcpp
    restructure_kv_mat as_data_frame_null rels nodes ways unique_vals
    bbox crs = Ok ret ->
  exists f,
    ret = ret_of convert_poly_linestring_to_Rcpp restructure_kv_mat
            as_data_frame_null f unique_vals bbox crs /\
    rel_id (f_mp f) = map rel_label (poly_rels rels) /\
    length (lon_arr (f_mp f)) = length (poly_rels rels) /\
    cm_nrow (kv_mat (f_mp f)) = length (poly_rels rels) /\
    count (f_mp f) = length (poly_rels rels) /\
    forall i r,
      nth_error (poly_rels rels) i = Some r ->
      exists rings lats labels,
        nth_error (lon_arr (f_mp f)) i = Some rings /\
        nth_error (lat_arr (f_mp f)) i = Some lats /\
        nth_error (rowname_arr (f_mp f)) i = Some labels /\
        nth_error (id_vec (f_mp f)) i
        = Some (map (fun w => to_string (fst w)) (r_ways r)) /\
        length rings = length (r_ways r) /\
        forall k w,
          nth_error (r_ways r) k = Some w ->
          exists lo la lb,
            trace_way ways nodes (fst w) = Ok (lo, la, lb) /\
            nth_error rings k = Some lo /\
            nth_error lats k = Some la /\
            nth_error labels k = Some lb.
Proof.
  intros Hret.
  destruct (get_osm_relations_ok _ _ _ _ _ _ _ _ _ _ _ _ Hret)
    as (f & Hrun & _ & ->).
  pose proof (trace_relations_light _ _ _ _ _ _ _ Hrun)
    as (_ & _ & _ & Hmp & _).
  destruct Hmp as (Hcnt & Hid & Hlon & _ & _ & _ & Hr & Hitems).
  exists f. split; [reflexivity|]. split; [assumption|].
  split; [assumption|]. split; [assumption|]. split; [assumption|].
  intros i r Hi.
  destruct (Hitems i r Hi) as (t & Ht & H1 & H2 & H3 & H4).
  unfold trace_poly, trace_multipolygon_spec in Ht.
  destruct (trace_rings_members _ _ _ _ _ Ht)
    as (rings & lats & labels & E1 & E2 & E3 & E4 & L1 & _ & _ & Hk).
  simpl in E1, E2, E3, E4.
  exists rings, lats, labels.
  rewrite H1, H2, H3, H4, E1, E2, E3, E4.
  do 5 (split; [reflexivity || assumption|]).
  intros k w Hw. destruct (Hk k w Hw) as (lo & la & lb & A & _ & B).
  exists lo, la, lb. auto.
Qed.
End RingClaims.

(** ** What rcpp_osmdata_sf returns *)

Section TopClaims.
Context {float NumericMatrix DataFrame BBox CRS : Type}.
Variable trace_multipolygon :
  Relation -> Ways -> @Nodes float -> @traced float string ->
  result (@traced float string).
Variable trace_multilinestring :
  Relation -> string -> Ways -> @Nodes float -> @traced float osmid_t ->
  result (@traced float osmid_t).
Variable trace_way_nmat :
  Ways -> @Nodes float -> osmid_t -> result NumericMatrix.
Variable convert_poly_linestring_to_Rcpp :
  forall T : Type,
    list (list (list float)) -> list (list (list float)) ->
    list (list (list string)) -> list (list T) -> list string -> string ->
    @RcppList float NumericMatrix BBox CRS.
Variable restructure_kv_mat : CharacterMatrix -> bool -> DataFrame.
Variable as_data_frame_null : DataFrame.
Variable as_list :
  @TableValue DataFrame -> @RcppList float NumericMatrix BBox CRS.
Variable empty_frame : DataFrame.

Local Abbreviation RList := (@RcppList float NumericMatrix BBox CRS).
Local Abbreviation run :=
  (rcpp_osmdata_sf trace_multipolygon trace_multilinestring trace_way_nmat
     convert_poly_linestring_to_Rcpp restructure_kv_mat
     as_data_frame_null as_list empty_frame).
Local Abbreviation run_ways :=
  (get_osm_ways trace_way_nmat restructure_kv_mat).
Local Abbreviation run_relations :=
  (get_osm_relations trace_multipolygon trace_multilinestring
     convert_poly_linestring_to_Rcpp restructure_kv_mat
     as_data_frame_null).

(** The calls that a call of [rcpp_osmdata_sf] that returns has made. *)
Lemma rcpp_osmdata_sf_ok (nodes : @Nodes float) (ways : Ways)
    (rels : Relations) (unique_vals : UniqueVals) (bbox : BBox) (crs : CRS)
    (ret : osmdata_ret) :
  run nodes ways rels unique_vals bbox crs = Ok ret ->
  exists poly non,
    classify_ways ways = ((poly, non), Done) /\
    run_ways (new_list (length poly)) empty_frame poly ways nodes
      unique_vals "POLYGON" bbox crs
    = ((polygons ret, polygons_kv ret), Done) /\
    run_ways (new_list (length non)) empty_frame non ways nodes
      unique_vals "LINESTRING" bbox crs
    = ((linestrings ret, linestrings_kv ret), Done) /\
    get_osm_nodes restructure_kv_mat (new_list (length nodes))
      empty_frame nodes unique_vals bbox crs
    = ((points ret, points_kv ret), Done).
Proof.
  unfold rcpp_osmdata_sf.
  destruct (get_osm_relations _ _ _ _ _ rels nodes ways unique_vals
              bbox crs)
    as [t|e|]; try discriminate.
  destruct (classify_ways ways) as [[poly non] st] eqn:Ec.
  destruct st; [| intros H; simpl in H; discriminate ..].
  destruct (get_osm_ways _ _ (new_list (length poly)) _ poly _ _ _ _ _ _)
    as [[pl pk] st] eqn:Ep.
  destruct st; [| intros H; simpl in H; discriminate ..].
  destruct (get_osm_ways _ _ (new_list (length non)) _ non _ _ _ _ _ _)
    as [[ll lk] st] eqn:El.
  destruct st; [| intros H; simpl in H; discriminate ..].
  destruct (get_osm_nodes _ _ _ nodes _ _ _) as [[ptl ptk] st] eqn:En.
  destruct st; [| intros H; simpl in H; discriminate ..].
  intros H; inversion H; subst; simpl.
  exists poly, non. rewrite Ep, El. auto.
Qed.

(** [rcpp_osmdata_sf] returns when [get_osm_relations] does, every way
    has a node and is traced, every key of a node or of a way is known,
    and there is a way of each kind or no key of ways at all. *)
Lemma rcpp_osmdata_sf_defined (nodes : @Nodes float) (ways : Ways)
    (rels : Relations) (unique_vals : UniqueVals) (bbox : BBox) (crs : CRS)
    (t : relations_ret) :
  get_osm_relations trace_multipolygon trace_multilinestring
    convert_poly_linestring_to_Rcpp restructure_kv_mat
    as_data_frame_null rels nodes ways unique_vals bbox crs = Ok t ->
  Forall (fun x => w_nodes (snd x) <> []) ways ->
  (forall x, In x ways ->
             exists nmat, trace_way_nmat ways nodes (fst x) = Ok nmat) ->
  Forall (fun x => keys_known (k_way unique_vals) (w_key_val (snd x)))
    ways ->
  Forall (fun x => keys_known (k_point unique_vals) (n_key_val (snd x)))
    nodes ->
  (forall poly non,
      classify_ways ways = ((poly, non), Done) ->
      (poly <> [] /\ non <> []) \/ k_way unique_vals = []) ->
  exists ret, run nodes ways rels unique_vals bbox crs = Ok ret.
Proof.
  intros Hrel Hne Htrace Hkw Hkn Hfit. unfold rcpp_osmdata_sf.
  rewrite Hrel.
  destruct (classify_ways_defined ways Hne) as ([poly non] & Hcl).
  rewrite Hcl.
  assert (Hfp : poly <> [] \/ k_way unique_vals = [])
    by (destruct (Hfit _ _ Hcl) as [[? ?] | ?]; auto).
  assert (Hfn : non <> [] \/ k_way unique_vals = [])
    by (destruct (Hfit _ _ Hcl) as [[? ?] | ?]; auto).
  assert (Hids : forall ids,
             (forall id, In id ids -> In id poly \/ In id non) ->
             forall wi, In wi ids ->
                        In wi (map fst ways) /\
                        exists nmat, trace_way_nmat ways nodes wi = Ok nmat).
  { intros ids Hsub wi Hwi.
    pose proof (classify_ways_In _ _ _ Hcl wi (Hsub wi Hwi)) as Hin.
    split; [assumption|].
    apply in_map_iff in Hin as (x & <- & Hx). now apply Htrace. }
  assert (Hlen : forall n, length (elts (@new_list float NumericMatrix
                                          BBox CRS n)) = n).
  { intros n. simpl. apply repeat_length. }
  destruct (get_osm_ways_defined trace_way_nmat restructure_kv_mat
              (new_list (length poly)) empty_frame poly ways nodes
              unique_vals "POLYGON" bbox crs
              (or_introl eq_refl) (Hlen _) Hfp
              (Hids poly (fun id H => or_introl H)) Hkw)
    as (pl & pk & Hp).
  rewrite Hp.
  destruct (get_osm_ways_defined trace_way_nmat restructure_kv_mat
              (new_list (length non)) empty_frame non ways nodes
              unique_vals "LINESTRING" bbox crs
              (or_intror eq_refl) (Hlen _) Hfn
              (Hids non (fun id H => or_intror H)) Hkw)
    as (ll & lk & Hl).
  rewrite Hl.
  destruct (get_osm_nodes_status restructure_kv_mat
              (new_list (length nodes)) empty_frame nodes
              unique_vals bbox crs (Hlen _)) as [Hdone _].
  specialize (Hdone Hkn).
  destruct (get_osm_nodes _ _ _ nodes _ _ _) as [[ptl ptk] st].
  simpl in Hdone. subst st. eexists. reflexivity.
Qed.

(** C5. The attribute row of an entity has one cell for each key of its
    kind; the cell under the column of the key of a tag holds the value
    of the tag, and every other cell is [NA_STRING].  This holds of the
    rows of the nodes, which [get_osm_nodes] writes itself, and of the
    rows of the ways and of the relations, which [get_value_mat_way] and
    [get_value_mat_rel] write into the tables of [get_osm_ways] and
    [get_osm_relations]. *)
Theorem attribute_rows (nodes : @Nodes float) (ways : Ways)
    (rels : Relations) (unique_vals : UniqueVals) (bbox : BBox)
    (crs : CRS) :
  (forall (ptList : RList) (kv_df : DataFrame) (l : RList)
          (kv : DataFrame),
      Forall (fun x => tags_ok (n_key_val (snd x))) nodes ->
      get_osm_nodes restructure_kv_mat ptList kv_df nodes unique_vals
        bbox crs = ((l, kv), Done) ->
      exists m,
        kv = restructure_kv_mat m false /\
        cm_nrow m = length nodes /\
        cm_ncol m = length (k_point unique_vals) /\
        forall i id n,
          nth_error nodes i = Some (id, n) ->
          attribute_row (k_point unique_vals) (n_key_val n) m i) /\
  (forall (wayList : RList) (kv_df : DataFrame) (way_ids : list osmid_t)
          (geom_type : string) (l : RList) (kv : DataFrame),
      Forall (fun x => tags_ok (w_key_val (snd x))) ways ->
      run_ways wayList kv_df way_ids ways nodes unique_vals geom_type
        bbox crs = ((l, kv), Done) ->
      exists m,
        kv = restructure_kv_mat m false /\
        cm_nrow m = length way_ids /\
        cm_ncol m = length (k_way unique_vals) /\
        forall i wi,
          nth_error way_ids i = Some wi ->
          exists w,
            In (wi, w) ways /\
            attribute_row (k_way unique_vals) (w_key_val w) m i) /\
  (forall ret,
      Forall (fun r => tags_ok (r_key_val r)) rels ->
      run_relations rels nodes ways unique_vals bbox crs = Ok ret ->
      (poly_rels rels <> [] ->
       exists m,
         kv_df_mp ret = FrameValue (restructure_kv_mat m false) /\
         cm_nrow m = length (poly_rels rels) /\
         cm_ncol m = length (k_rel unique_vals) /\
         forall i r,
           nth_error (poly_rels rels) i = Some r ->
           attribute_row (k_rel unique_vals) (r_key_val r) m i) /\
      (line_items rels <> [] ->
       exists m,
         kv_df_ls ret = FrameValue (restructure_kv_mat m true) /\
         cm_nrow m = length (line_items rels) /\
         cm_ncol m = length (k_rel unique_vals) /\
         forall i x,
           nth_error (line_items rels) i = Some x ->
           attribute_row (k_rel unique_vals) (r_key_val (fst x)) m i)).
Proof.
  split; [|split].
  - intros ptList kv_df l kv Htags Hrun.
    destruct (node_rows_built _ _ _ _ _ _ _ _ _ Htags Hrun)
      as (m & Hkv & Hr & Hc & Hrows).
    exists m. do 3 (split; [assumption|]).
    intros i id n Hi. exact (Hrows i id n Hi).
  - intros wayList kv_df way_ids geom_type l kv Htags Hrun.
    destruct (way_attribute_rows _ _ _ _ _ _ _ _ _ _ _ _ _ Htags Hrun)
      as (m & Hkv & Hr & Hc & Hrows).
    exists m. do 3 (split; [assumption|]).
    intros i wi Hi. destruct (Hrows i wi Hi) as (w & Hin & Hkn & Hrow).
    exists w. split; [assumption|].
    now apply row_is_attribute_row.
  - intros ret Htags Hret.
    destruct (get_osm_relations_ok _ _ _ _ _ _ _ _ _ _ _ _ Hret)
      as (f & Hrun & _ & ->).
    destruct (trace_relations_inv _ _ _ _ _ _ _ Htags Hrun)
      as (_ & _ & _ & Hmp & Hls).
    destruct Hmp as (_ & Hid & _ & _ & _ & _ & _ & Hr & Hc & Hrows).
    destruct Hls as (_ & Hidl & _ & _ & _ & _ & _ & Hrl & Hcl & Hrowsl).
    unfold ret_of, table_of; simpl. rewrite Hid, Hidl. split.
    + intros Hne. destruct (poly_rels rels) as [|r0 l0] eqn:E;
        [congruence|].
      eexists. split; [reflexivity|]. simpl.
      split; [assumption|]. split; [assumption|].
      intros i r Hi. destruct (Hrows i r Hi) as (_ & Hkn & Hrow).
      apply row_is_attribute_row; auto.
    + intros Hne. destruct (line_items rels) as [|x0 l0] eqn:E;
        [congruence|].
      eexists. split; [reflexivity|]. simpl.
      split; [assumption|]. split; [assumption|].
      intros i x Hi. destruct (Hrowsl i x Hi) as (_ & Hkn & Hrow).
      apply row_is_attribute_row; auto.
Qed.

(** C6, as the source has it.  Every way whose first node is its last
    node is stored as a POLYGON, a list holding the matrix of the way, and
    every other way as a LINESTRING, the matrix itself; each way is in one
    of the two collections and not in the other.  The source compares the
    two nodes and does not look at the length: on a way of more than one
    node this is the closed way of the specification, and a way of a
    single node is stored as a POLYGON although the specification does not
    call it closed.  The source reads the first and the last node of every
    way: the division ends normally when every way has a node, and the
    call returns only then. *)
Theorem ways_divided_by_endpoints (nodes : @Nodes float) (ways : Ways)
    (rels : Relations) (unique_vals : UniqueVals) (bbox : BBox) (crs : CRS)
    (ret : osmdata_ret) :
  map_ok Z.ltb ways ->
  Forall (fun x => tags_ok (w_key_val (snd x))) ways ->
  run nodes ways rels unique_vals bbox crs = Ok ret ->
  (get_attr "names" (attrs (polygons ret))
   = Some (Strings (map to_string (map fst (filter closed_way ways)))) /\
   get_attr "class" (attrs (polygons ret))
   = Some (Strings ["sfc_POLYGON"; "sfc"]) /\
   length (elts (polygons ret)) = length (filter closed_way ways) /\
   forall i x,
     nth_error (filter closed_way ways) i = Some x ->
     exists nmat,
       trace_way_nmat ways nodes (fst x) = Ok nmat /\
       nth_error (elts (polygons ret)) i
       = Some (MatrixList [nmat]
                 [("class", Strings ["XY"; "POLYGON"; "sfg"])])) /\
  (get_attr "names" (attrs (linestrings ret))
   = Some (Strings (map to_string
                      (map fst (filter (fun x => negb (closed_way x))
                                  ways)))) /\
   get_attr "class" (attrs (linestrings ret))
   = Some (Strings ["sfc_LINESTRING"; "sfc"]) /\
   length (elts (linestrings ret))
   = length (filter (fun x => negb (closed_way x)) ways) /\
   forall i x,
     nth_error (filter (fun x => negb (closed_way x)) ways) i = Some x ->
     exists nmat,
       trace_way_nmat ways nodes (fst x) = Ok nmat /\
       nth_error (elts (linestrings ret)) i
       = Some (Matrix nmat
                 [("class", Strings ["XY"; "LINESTRING"; "sfg"])])) /\
  (forall x,
      In x ways ->
      exists a b,
        front (w_nodes (snd x)) = Some a /\
        back (w_nodes (snd x)) = Some b /\
        closed_way x = (a =? b)%Z) /\
  (forall x,
      In x ways ->
      (closed_way x = true /\
       In x (filter closed_way ways) /\
       ~ In x (filter (fun x => negb (closed_way x)) ways)) \/
      (closed_way x = false /\
       In x (filter (fun x => negb (closed_way x)) ways) /\
       ~ In x (filter closed_way ways))) /\
  (forall ways' : Ways,
      Forall (fun x => w_nodes (snd x) <> []) ways' ->
      exists s, classify_ways ways' = (s, Done)) /\
  (forall x,
      In x ways ->
      w_nodes (snd x) <> [] /\
      closed_way x
      = closed_spec (w_nodes (snd x))
        || (length (w_nodes (snd x)) =? 1)%nat /\
      (1 < length (w_nodes (snd x)) ->
       closed_way x = closed_spec (w_nodes (snd x))) /\
      (length (w_nodes (snd x)) = 1 ->
       closed_way x = true /\ closed_spec (w_nodes (snd x)) = false)).
Proof.
  intros Hok Htags Hret.
  destruct (rcpp_osmdata_sf_ok _ _ _ _ _ _ _ Hret)
    as (poly & non & Hcl & Hpoly & Hline & _).
  destruct (classify_ways_filter _ _ _ Hok Hcl) as (-> & -> & Hne).
  destruct (get_osm_ways_emits _ _ _ _ _ _ _ _ _ _ _ _ _ Htags Hpoly)
    as (Pn & Pc & Pl & Pe).
  destruct (get_osm_ways_emits _ _ _ _ _ _ _ _ _ _ _ _ _ Htags Hline)
    as (Ln & Lc & Ll & Le).
  rewrite length_map in Pl, Ll.
  split; [|split; [|split; [|split; [|split]]]];
    [| | | |apply classify_ways_defined|].
  - split; [assumption|]. split; [assumption|]. split; [assumption|].
    intros i x Hi. apply (Pe i (fst x)).
    rewrite nth_error_map, Hi. reflexivity.
  - split; [assumption|]. split; [assumption|]. split; [assumption|].
    intros i x Hi. apply (Le i (fst x)).
    rewrite nth_error_map, Hi. reflexivity.
  - intros x Hin. rewrite Forall_forall in Hne. specialize (Hne x Hin).
    unfold closed_way, same_endpoints.
    destruct (w_nodes (snd x)) as [|a v] eqn:E; [congruence|].
    destruct (back_some (a :: v)) as (b & Hb); [discriminate|].
    exists a, b. simpl front. rewrite Hb. auto.
  - intros x Hin. destruct (closed_way x) eqn:E; [left | right].
    + split; [reflexivity|]. split.
      * apply filter_In. auto.
      * intros H. apply filter_In in H as [_ H]. rewrite E in H.
        discriminate.
    + split; [reflexivity|]. split.
      * apply filter_In. rewrite E. auto.
      * intros H. apply filter_In in H as [_ H]. congruence.
  - intros x Hin. rewrite Forall_forall in Hne. specialize (Hne x Hin).
    split; [assumption|]. unfold closed_way.
    split; [now apply same_endpoints_spec|].
    split; [intros Hl; symmetry; now apply closed_spec_same_endpoints|].
    intros Hl. destruct (w_nodes (snd x)) as [|a [|b t]]; try discriminate.
    apply single_node_way.
Qed.

(** C10. The names of the points, of the polygons and of the line strings
    are the identifiers in strictly ascending order: those of the node
    map and of the two sets of way identifiers.  The order is that of the
    identifiers alone: maps and sets with the same identifiers give the
    same sequences. *)
Theorem row_labels_ascending (nodes : @Nodes float) (ways : Ways)
    (rels : Relations) (unique_vals : UniqueVals) (bbox : BBox) (crs : CRS)
    (ret : osmdata_ret) :
  map_ok Z.ltb nodes ->
  run nodes ways rels unique_vals bbox crs = Ok ret ->
  exists polys lines,
    classify_ways ways = ((polys, lines), Done) /\
    get_attr "names" (attrs (points ret))
    = Some (Strings (map to_string (map fst nodes))) /\
    get_attr "names" (attrs (polygons ret))
    = Some (Strings (map to_string polys)) /\
    get_attr "names" (attrs (linestrings ret))
    = Some (Strings (map to_string lines)) /\
    StronglySorted Z.lt (map fst nodes) /\
    StronglySorted Z.lt polys /\
    StronglySorted Z.lt lines /\
    (forall nodes' : @Nodes float,
        map_ok Z.ltb nodes' ->
        (forall id, In id (map fst nodes') <-> In id (map fst nodes)) ->
        map fst nodes' = map fst nodes) /\
    (forall ways' polys' lines',
        classify_ways ways' = ((polys', lines'), Done) ->
        ((forall id, In id polys' <-> In id polys) -> polys' = polys) /\
        ((forall id, In id lines' <-> In id lines) -> lines' = lines)).
Proof.
  intros Hok Hret.
  destruct (rcpp_osmdata_sf_ok _ _ _ _ _ _ _ Hret)
    as (poly & non & Hcl & Hpoly & Hline & Hpts).
  destruct (classify_ways_sets _ _ _ Hcl) as [Hp Hn].
  exists poly, non.
  split; [assumption|].
  split; [eapply get_osm_nodes_names; eauto|].
  split; [eapply get_osm_ways_names; eauto|].
  split; [eapply get_osm_ways_names; eauto|].
  split; [now apply set_ok_Zlt|].
  split; [now apply set_ok_Zlt|].
  split; [now apply set_ok_Zlt|].
  split.
  - intros nodes' Hok' Hiff.
    apply (set_ok_unique Z.ltb Zltb_irrefl Zltb_trans); auto.
  - intros ways' polys' lines' Hcl'.
    destruct (classify_ways_sets _ _ _ Hcl') as [Hp' Hn'].
    split; intros Hiff;
      apply (set_ok_unique Z.ltb Zltb_irrefl Zltb_trans); auto.
Qed.
End TopClaims.

(** * Further properties of the four functions *)

(** ** The point column *)

Section PointColumn.
Context {float NumericMatrix DataFrame BBox CRS : Type}.
Variable restructure_kv_mat : CharacterMatrix -> bool -> DataFrame.

Local Abbreviation RList := (@RcppList float NumericMatrix BBox CRS).
Local Abbreviation NodeT := (@Node float).
Local Abbreviation frame := (@node_frame float NumericMatrix BBox CRS).

(** The list, the names and the attributes of the table after the loop
    over the nodes, whatever the tag maps are. *)
Lemma nodes_loop_points (ptList : RList) (nodes : list (osmid_t * NodeT))
    (unique_vals : UniqueVals) (f : frame) :
  nodes_loop ptList nodes unique_vals = (f, Done) ->
  nf_count f = length nodes /\
  length (elts (nf_ptList f)) = length (elts ptList) /\
  attrs (nf_ptList f) = attrs ptList /\
  nf_ptnames f = map (fun x => to_string (fst x)) nodes /\
  cm_names (nf_kv_mat f) = None /\
  forall i x,
    nth_error nodes i = Some x ->
    nth_error (elts (nf_ptList f)) i = Some (point_geometry (snd x)).
Proof.
  unfold nodes_loop.
  apply (for_each_invariant (node_body unique_vals)
           (fun pre (f : frame) =>
              nf_count f = length pre /\
              length (elts (nf_ptList f)) = length (elts ptList) /\
              attrs (nf_ptList f) = attrs ptList /\
              nf_ptnames f = map (fun x => to_string (fst x)) pre /\
              cm_names (nf_kv_mat f) = None /\
              forall i x,
                nth_error pre i = Some x ->
                nth_error (elts (nf_ptList f)) i
                = Some (point_geometry (snd x)))).
  - intros pre x suf s s' _ (Hcnt & Hlen & Hattr & Hnames & Hnm & Hdone) Hb.
    unfold node_body, list_put in Hb.
    destruct (vec_set (elts (nf_ptList s)) (nf_count s)
                (point_geometry (snd x))) as [e|] eqn:Eset;
      [|discriminate].
    destruct (write_tags (k_point unique_vals) (n_key_val (snd x))
                (nf_count s) (nf_kv_mat s)) as [m| |] eqn:Ew;
      try discriminate.
    inversion Hb; subst s'; clear Hb; simpl.
    destruct (vec_set_length _ _ _ _ Eset) as [Hlen' _].
    destruct (write_tags_shape _ _ _ _ _ Ew) as (_ & _ & Hn & _).
    split; [rewrite length_app; simpl; lia|].
    split; [congruence|].
    split; [assumption|].
    split; [rewrite map_app; simpl; now rewrite Hnames|].
    split; [congruence|].
    intros i y Hi. apply nth_error_snoc in Hi as [[Hi Hy] | [-> ->]].
    + erewrite vec_set_nth_error_ne; eauto. lia.
    + rewrite <- Hcnt. eapply vec_set_nth_error_eq; eauto.
  - simpl. repeat split; auto. intros [|i] x; discriminate.
Qed.

(** X1. Every node gives one point, at the position of the node in the map:
    a vector of the longitude and then the latitude of the node, of class
    XY, POINT, sfg. *)
Theorem points_are_lon_lat (ptList : RList) (kv_df : DataFrame)
    (nodes : list (osmid_t * NodeT)) (unique_vals : UniqueVals)
    (bbox : BBox) (crs : CRS) (l : RList) (kv : DataFrame) :
  get_osm_nodes restructure_kv_mat ptList kv_df nodes unique_vals bbox crs
  = ((l, kv), Done) ->
  length (elts l) = length nodes /\
  forall i id n,
    nth_error nodes i = Some (id, n) ->
    nth_error (elts l) i
    = Some (NumericVector [n_lon n; n_lat n]
              [("class", Strings ["XY"; "POINT"; "sfg"])]).
Proof.
  intros Hrun.
  destruct (get_osm_nodes_done _ _ _ _ _ _ _ _ _ Hrun)
    as (f & Hloop & Hlen & -> & _).
  destruct (nodes_loop_points _ _ _ _ Hloop)
    as (_ & Hl & _ & _ & _ & Hpt).
  rewrite sfc_attrs_elts; simpl. split; [congruence|].
  intros i id n Hi. apply (Hpt i (id, n) Hi).
Qed.

(** X2. The table of the points is made from a matrix whose rows are
    labelled with the identifiers of the nodes, the names of the point
    column, and whose columns are labelled with the keys of [k_point]; the
    matrix has no names of its own. *)
Theorem point_table_labels (ptList : RList) (kv_df : DataFrame)
    (nodes : list (osmid_t * NodeT)) (unique_vals : UniqueVals)
    (bbox : BBox) (crs : CRS) (l : RList) (kv : DataFrame) :
  get_osm_nodes restructure_kv_mat ptList kv_df nodes unique_vals bbox crs
  = ((l, kv), Done) ->
  exists m labels,
    kv = restructure_kv_mat m false /\
    labels = map (fun x => to_string (fst x)) nodes /\
    cm_dimnames m
    = Some {| dn_rows := labels; dn_cols := k_point unique_vals |} /\
    cm_names m = None /\
    get_attr "names" (attrs l) = Some (Strings labels) /\
    length labels = length (elts l).
Proof.
  intros Hrun.
  destruct (get_osm_nodes_done _ _ _ _ _ _ _ _ _ Hrun)
    as (f & Hloop & Hlen & -> & ->).
  destruct (nodes_loop_points _ _ _ _ Hloop)
    as (_ & Hl & _ & Hnames & Hnm & _).
  eexists; eexists. split; [reflexivity|]. split; [reflexivity|].
  split; [simpl; now rewrite Hnames|]. split; [assumption|].
  split.
  - rewrite sfc_attrs_names. simpl. rewrite get_set_attr_eq.
    now rewrite Hnames.
  - rewrite length_map. rewrite sfc_attrs_elts; simpl. congruence.
Qed.
End PointColumn.

(** ** The columns of the ways *)

Section WayColumns.
Context {float NumericMatrix DataFrame BBox CRS : Type}.
Variable trace_way_nmat :
  Ways -> @Nodes float -> osmid_t -> result NumericMatrix.
Variable restructure_kv_mat : CharacterMatrix -> bool -> DataFrame.

Local Abbreviation RList := (@RcppList float NumericMatrix BBox CRS).
Local Abbreviation NodeT := (@Node float).
Local Abbreviation frame := (@way_frame float NumericMatrix BBox CRS).
Local Abbreviation run_ways :=
  (get_osm_ways trace_way_nmat restructure_kv_mat).

(** The names and the traces after the loop over the identifiers,
    whatever the tag maps are. *)
Lemma ways_loop_traced (wayList : RList) (way_ids : list osmid_t)
    (ways : Ways) (nodes : list (osmid_t * NodeT))
    (unique_vals : UniqueVals) (geom_type : string) (m0 : CharacterMatrix)
    (f : frame) :
  for_each (way_body trace_way_nmat ways nodes unique_vals geom_type)
    way_ids
    {| wf_wayList := wayList; wf_waynames := []; wf_kv_mat := m0;
       wf_count := 0 |} = (f, Done) ->
  wf_waynames f = map to_string way_ids /\
  length (elts (wf_wayList f)) = length (elts wayList) /\
  cm_nrow (wf_kv_mat f) = cm_nrow m0 /\
  cm_ncol (wf_kv_mat f) = cm_ncol m0 /\
  (mat_ok m0 -> mat_ok (wf_kv_mat f)) /\
  forall wi, In wi way_ids ->
             exists nmat, trace_way_nmat ways nodes wi = Ok nmat.
Proof.
  apply (for_each_invariant
           (way_body trace_way_nmat ways nodes unique_vals geom_type)
           (fun pre (f : frame) =>
              wf_waynames f = map to_string pre /\
              length (elts (wf_wayList f)) = length (elts wayList) /\
              cm_nrow (wf_kv_mat f) = cm_nrow m0 /\
              cm_ncol (wf_kv_mat f) = cm_ncol m0 /\
              (mat_ok m0 -> mat_ok (wf_kv_mat f)) /\
              forall wi, In wi pre ->
                         exists nmat,
                           trace_way_nmat ways nodes wi = Ok nmat)).
  - intros pre x suf s s' _ (Hnames & Hlen & Hr & Hc & Hok & Htr) Hb.
    unfold way_body, list_set in Hb.
    destruct (trace_way_nmat ways nodes x) as [nmat| |] eqn:Et;
      try discriminate.
    destruct (vec_set (elts (wf_wayList s)) (wf_count s)
                (way_geometry geom_type nmat)) as [e|] eqn:Eset;
      [|discriminate].
    destruct (get_value_mat_way _ _ _ _) as [m| |] eqn:Eg;
      try discriminate.
    inversion Hb; subst s'; clear Hb; simpl.
    destruct (vec_set_length _ _ _ _ Eset) as [Hlen' _].
    unfold get_value_mat_way in Eg.
    destruct (map_find Z.ltb x ways) as [w|]; [|discriminate].
    destruct (get_value_mat_keeps _ _ _ _ _ Eg) as (R & C & Hok').
    split; [rewrite map_app; simpl; now rewrite Hnames|].
    split; [congruence|].
    split; [congruence|]. split; [congruence|]. split; [auto|].
    intros wi Hin. apply in_app_or in Hin as [Hin | [<- | []]]; eauto.
  - simpl. repeat split; auto. intros wi [].
Qed.

(** X3. The table of the ways is made from a matrix whose rows are
    labelled with the identifiers to trace, the names of the column of
    the ways, and whose columns are labelled with the keys of [k_way].
    The names of the matrix are the keys of [k_way] followed by
    [NA_STRING] for every further cell: R fills the names up to the
    number of cells of the matrix. *)
Theorem way_table_labels (wayList : RList) (kv_df : DataFrame)
    (way_ids : list osmid_t) (ways : Ways) (nodes : list (osmid_t * NodeT))
    (unique_vals : UniqueVals) (geom_type : string) (bbox : BBox)
    (crs : CRS) (l : RList) (kv : DataFrame) :
  run_ways wayList kv_df way_ids ways nodes unique_vals geom_type bbox crs
  = ((l, kv), Done) ->
  exists m,
    kv = restructure_kv_mat m false /\
    cm_dimnames m
    = Some {| dn_rows := map to_string way_ids;
              dn_cols := k_way unique_vals |} /\
    cm_names m
    = Some (map Chr (k_way unique_vals)
            ++ repeat NA_STRING
                 (length way_ids * length (k_way unique_vals)
                  - length (k_way unique_vals))) /\
    length (k_way unique_vals)
    <= length way_ids * length (k_way unique_vals) /\
    get_attr "names" (attrs l) = Some (Strings (map to_string way_ids)) /\
    length (elts l) = length way_ids.
Proof.
  intros Hret.
  destruct (get_osm_ways_returns _ _ _ _ _ _ _ _ _ _ _ _ _ Hret)
    as (f & Hrun & _ & Elen & Hfit & -> & ->).
  destruct (ways_loop_traced _ _ _ _ _ _ _ _ Hrun)
    as (Hnames & Hlen & Hr & Hc & Hok & _).
  assert (Hcells : length (cm_data (wf_kv_mat f))
                   = length way_ids * length (k_way unique_vals)).
  { specialize (Hok (fill_ok _ _ (new_matrix_ok _ _))).
    unfold mat_ok in Hok. rewrite Hok, Hr, Hc. reflexivity. }
  eexists. split; [reflexivity|].
  split; [simpl; now rewrite Hnames|].
  split; [simpl; unfold padded_names; now rewrite Hcells|].
  split; [now rewrite <- Hcells|].
  split.
  - rewrite sfc_attrs_names. simpl. rewrite get_set_attr_eq.
    now rewrite Hnames.
  - rewrite sfc_attrs_elts; simpl. congruence.
Qed.

(** X4. A way that the tracer does not trace stops the call: it does not end
    normally, and when it ends with an error the table of the caller is as
    it was. *)
Theorem way_trace_failure_stops (wayList : RList) (kv_df : DataFrame)
    (way_ids : list osmid_t) (ways : Ways) (nodes : list (osmid_t * NodeT))
    (unique_vals : UniqueVals) (geom_type : string) (bbox : BBox)
    (crs : CRS) (wi : osmid_t) :
  In wi way_ids ->
  (forall nmat, trace_way_nmat ways nodes wi <> Ok nmat) ->
  snd (run_ways wayList kv_df way_ids ways nodes unique_vals geom_type
         bbox crs) <> Done /\
  forall e,
    snd (run_ways wayList kv_df way_ids ways nodes unique_vals geom_type
           bbox crs) = Throw e ->
    snd (fst (run_ways wayList kv_df way_ids ways nodes unique_vals
                geom_type bbox crs)) = kv_df.
Proof.
  intros Hin Hfail. unfold get_osm_ways.
  destruct (negb _); [split; [discriminate|reflexivity]|].
  destruct (negb _); [split; [discriminate|reflexivity]|].
  destruct (for_each _ way_ids _) as [f st] eqn:Hrun.
  destruct st; simpl; try (split; [discriminate|reflexivity]).
  destruct (ways_loop_traced _ _ _ _ _ _ _ _ Hrun)
    as (_ & _ & _ & _ & _ & Htr).
  destruct (Htr wi Hin) as (nmat & Ht). now destruct (Hfail nmat).
Qed.
End WayColumns.

(** ** The division of the ways *)

Lemma classify_body_status (x : osmid_t * OneWay)
    (s : list osmid_t * list osmid_t) :
  snd (classify_body x s)
  = match w_nodes (snd x) with [] => Undefined | _ => Done end.
Proof.
  unfold classify_body.
  destruct (w_nodes (snd x)) as [|a v] eqn:E; [reflexivity|].
  destruct (back_some (a :: v)) as (b & Hb); [discriminate|].
  simpl front. rewrite Hb.
  destruct (a =? b)%Z; destruct (negb _); reflexivity.
Qed.

Lemma classify_loop_status (ways : Ways) :
  forall s,
    (Forall (fun x => w_nodes (snd x) <> []) ways ->
     snd (for_each classify_body ways s) = Done) /\
    (Exists (fun x => w_nodes (snd x) = []) ways ->
     snd (for_each classify_body ways s) = Undefined).
Proof.
  induction ways as [|x ways IH]; intros s; simpl.
  - split; [reflexivity|]. intros H; inversion H.
  - pose proof (classify_body_status x s) as Hx.
    destruct (classify_body x s) as [s' st]; simpl in Hx.
    destruct (w_nodes (snd x)) as [|a v] eqn:E; subst st.
    + split; [|reflexivity].
      intros H; inversion H; subst; congruence.
    + destruct (IH s') as [IH1 IH2]. split.
      * intros H; inversion H; auto.
      * intros H; inversion H; subst; [congruence|auto].
Qed.

(** X5. The division of the ways throws nothing. It ends normally exactly
    when every way has a node; a way without nodes, whose first and last
    node the source reads all the same, leaves it undefined. *)
Theorem classify_ways_status (ways : Ways) :
  (forall e, snd (classify_ways ways) <> Throw e) /\
  (snd (classify_ways ways) = Done
   <-> Forall (fun x => w_nodes (snd x) <> []) ways) /\
  (snd (classify_ways ways) = Undefined
   <-> Exists (fun x => w_nodes (snd x) = []) ways).
Proof.
  unfold classify_ways.
  destruct (classify_loop_status ways ([], [])) as [HD HU].
  assert (Hdec : Forall (fun x : osmid_t * OneWay => w_nodes (snd x) <> [])
                   ways
                 \/ Exists (fun x : osmid_t * OneWay => w_nodes (snd x) = [])
                      ways).
  { clear. induction ways as [|x ways [IH | IH]]; auto.
    destruct (w_nodes (snd x)) as [|a v] eqn:E.
    - right. now left.
    - left. constructor; [congruence | assumption]. }
  split; [|split; split]; auto.
  - intros e. destruct Hdec as [H | H];
      [rewrite (HD H) | rewrite (HU H)]; discriminate.
  - intros Hs. destruct Hdec as [H | H]; auto.
    rewrite (HU H) in Hs. discriminate.
  - intros Hs. destruct Hdec as [H | H]; auto.
    rewrite (HD H) in Hs. discriminate.
Qed.

(** ** The columns of the relations *)

Section RelationColumns.
Context {float NumericMatrix DataFrame BBox CRS : Type}.
Variable trace_multipolygon trace_multipolygon' :
  Relation -> Ways -> @Nodes float -> @traced float string ->
  result (@traced float string).
Variable trace_multilinestring trace_multilinestring' :
  Relation -> string -> Ways -> @Nodes float -> @traced float osmid_t ->
  result (@traced float osmid_t).
Variable convert_poly_linestring_to_Rcpp :
  forall T : Type,
    list (list (list float)) -> list (list (list float)) ->
    list (list (list string)) -> list (list T) -> list string -> string ->
    @RcppList float NumericMatrix BBox CRS.
Variable restructure_kv_mat : CharacterMatrix -> bool -> DataFrame.
Variable as_data_frame_null : DataFrame.

Local Abbreviation frame := (@rel_frame float).
Local Abbreviation ret_t :=
  (@relations_ret float NumericMatrix DataFrame BBox CRS).
Local Abbreviation run_relations :=
  (get_osm_relations trace_multipolygon trace_multilinestring
     convert_poly_linestring_to_Rcpp restructure_kv_mat
     as_data_frame_null).
Local Abbreviation run_relations' :=
  (get_osm_relations trace_multipolygon' trace_multilinestring'
     convert_poly_linestring_to_Rcpp restructure_kv_mat
     as_data_frame_null).
Local Abbreviation body :=
  (rel_body trace_multipolygon trace_multilinestring).
Local Abbreviation body' :=
  (rel_body trace_multipolygon' trace_multilinestring').

(** The invariant of the loop over the relations holds after any part of
    the relations that the loop has passed. *)
Lemma relations_prefix_light (rels pre : Relations) (nodes : @Nodes float)
    (ways : Ways) (unique_vals : UniqueVals) (f : frame) :
  for_each (body ways nodes unique_vals) pre
    (@rel_frame0 float rels unique_vals) = (f, Done) ->
  rel_light trace_multipolygon trace_multilinestring ways nodes rels pre f.
Proof.
  intros Hrun.
  apply (for_each_invariant (body ways nodes unique_vals)
           (rel_light trace_multipolygon trace_multilinestring ways nodes
              rels)) in Hrun; auto.
  - intros p r suf s s' _ Hinv Hb. eapply rel_body_light; eauto.
  - unfold rel_light, rel_frame0, buffers_empty; simpl.
    rewrite count_rels_spec; simpl.
    split; [repeat split; reflexivity|].
    split; [reflexivity|]. split; [reflexivity|].
    split; apply gathers_start.
Qed.

(** X6. The labels of the relations are shared by the geometries and the
    rows: the identifiers of the polygon relations, and the labels of the
    roles of the other relations, both in the order of the document, are
    handed to the conversion and are the row labels of the matrix from
    which the table is made, whose columns are labelled with the keys of
    [k_rel].  The names of the matrix are the keys of [k_rel] followed by
    [NA_STRING] for every further cell. *)
Theorem relation_labels_shared (rels : Relations) (nodes : @Nodes float)
    (ways : Ways) (unique_vals : UniqueVals) (bbox : BBox) (crs : CRS)
    (ret : ret_t) :
  run_relations rels nodes ways unique_vals bbox crs = Ok ret ->
  (exists lon lat rn idv,
      polygonList ret
      = sfc_attrs ["sfc_MULTIPOLYGON"; "sfc"] bbox crs
          (convert_poly_linestring_to_Rcpp string lon lat rn idv
             (map rel_label (poly_rels rels)) "MULTIPOLYGON")) /\
  (exists lon lat rn idv,
      linestringList ret
      = sfc_attrs ["sfc_MULTILINESTRING"; "sfc"] bbox crs
          (convert_poly_linestring_to_Rcpp osmid_t lon lat rn idv
             (map item_label (line_items rels)) "MULTILINESTRING")) /\
  (poly_rels rels <> [] ->
   exists m,
     kv_df_mp ret = FrameValue (restructure_kv_mat m false) /\
     cm_dimnames m
     = Some {| dn_rows := map rel_label (poly_rels rels);
               dn_cols := k_rel unique_vals |} /\
     cm_names m
     = Some (map Chr (k_rel unique_vals)
             ++ repeat NA_STRING
                  (length (poly_rels rels) * length (k_rel unique_vals)
                   - length (k_rel unique_vals))) /\
     cm_nrow m = length (poly_rels rels)) /\
  (line_items rels <> [] ->
   exists m,
     kv_df_ls ret = FrameValue (restructure_kv_mat m true) /\
     cm_dimnames m
     = Some {| dn_rows := map item_label (line_items rels);
               dn_cols := k_rel unique_vals |} /\
     cm_names m
     = Some (map Chr (k_rel unique_vals)
             ++ repeat NA_STRING
                  (length (line_items rels) * length (k_rel unique_vals)
                   - length (k_rel unique_vals))) /\
     cm_nrow m = length (line_items rels)).
Proof.
  intros Hret.
  destruct (get_osm_relations_ok _ _ _ _ _ _ _ _ _ _ _ _ Hret)
    as (f & Hrun & _ & ->).
  destruct (trace_relations_light _ _ _ _ _ _ _ Hrun)
    as (_ & _ & _ & (_ & Hid & _ & _ & _ & _ & Hr & _)
        & (_ & Hidl & _ & _ & _ & _ & Hrl & _)).
  destruct (trace_relations_tables _ _ _ _ _ _ _ Hrun)
    as (Hokm & Hcm & Hokl & Hcl).
  unfold mat_ok in Hokm, Hokl.
  unfold ret_of, rel_geometries, table_of; simpl.
  rewrite Hid, Hidl.
  split; [do 4 eexists; reflexivity|].
  split; [do 4 eexists; reflexivity|].
  split.
  - intros Hne. destruct (poly_rels rels) as [|r l]; [congruence|].
    eexists. split; [reflexivity|]. simpl.
    split; [reflexivity|]. split; [|assumption].
    unfold padded_names. now rewrite Hokm, Hr, Hcm.
  - intros Hne. destruct (line_items rels) as [|x l]; [congruence|].
    eexists. split; [reflexivity|]. simpl.
    split; [reflexivity|]. split; [|assumption].
    unfold padded_names. now rewrite Hokl, Hrl, Hcl.
Qed.

(** X7. An error of a tracer is passed on as it is, and nothing is checked
    or converted: when the loop has passed the relations before [r] and the
    tracer of polygon relations raises [e] on [r], or the tracer of the
    other relations raises [e] on the first role of [r], the call raises
    [e]. The tracer is called with empty vectors. *)
Theorem tracer_error_is_passed_on (pre suf : Relations) (r : Relation)
    (nodes : @Nodes float) (ways : Ways) (unique_vals : UniqueVals)
    (bbox : BBox) (crs : CRS) (f : frame) (e : exn) :
  for_each (body ways nodes unique_vals) pre
    (@rel_frame0 float (pre ++ r :: suf) unique_vals) = (f, Done) ->
  (r_ispoly r = true ->
   trace_multipolygon r ways nodes (@empty_traced float string) = Raise e ->
   run_relations (pre ++ r :: suf) nodes ways unique_vals bbox crs
   = Raise e) /\
  (forall role rsuf,
      r_ispoly r = false ->
      roles_set_of r = role :: rsuf ->
      trace_multilinestring r role ways nodes (@empty_traced float osmid_t)
      = Raise e ->
      run_relations (pre ++ r :: suf) nodes ways unique_vals bbox crs
      = Raise e).
Proof.
  intros Hpre.
  destruct (relations_prefix_light _ _ _ _ _ _ Hpre)
    as ((B1 & B2 & B3 & B4 & B5) & Hroles & _).
  split.
  - intros Hp Ht. unfold get_osm_relations, trace_relations.
    rewrite for_each_app, Hpre. simpl.
    unfold rel_body at 1. rewrite Hp.
    unfold poly_body at 1. rewrite B1, B2, B3, B4.
    fold (@empty_traced float string). rewrite Ht. reflexivity.
  - intros role rsuf Hp Hset Ht. unfold get_osm_relations, trace_relations.
    rewrite for_each_app, Hpre. simpl.
    unfold rel_body at 1. rewrite Hp.
    unfold line_body at 1. rewrite Hroles, Hset. simpl.
    unfold role_body at 1. simpl. rewrite B1, B2, B3, B5.
    fold (@empty_traced float osmid_t). rewrite Ht. reflexivity.
Qed.

(** The loop over the roles of a relation, for two tracers that agree on
    empty vectors. *)
Lemma role_loop_agree (rels pre : Relations) (r : Relation)
    (nodes : @Nodes float) (ways : Ways) (unique_vals : UniqueVals)
    (f0 : frame) (rsuf : list string) :
  forall (rpre : list string) (s : frame),
    roles_light trace_multilinestring ways nodes rels pre r f0 rpre s ->
    (forall role,
        In role rsuf ->
        trace_multilinestring r role ways nodes
          (@empty_traced float osmid_t)
        = trace_multilinestring' r role ways nodes
            (@empty_traced float osmid_t)) ->
    for_each (role_body trace_multilinestring ways nodes unique_vals r)
      rsuf s
    = for_each (role_body trace_multilinestring' ways nodes unique_vals r)
        rsuf s.
Proof.
  induction rsuf as [|role rsuf IH]; intros rpre s Hinv Hagree;
    [reflexivity|].
  assert (Hb : role_body trace_multilinestring ways nodes unique_vals r
                 role s
               = role_body trace_multilinestring' ways nodes unique_vals r
                   role s).
  { pose proof Hinv as ((B1 & B2 & B3 & B4 & B5) & _).
    unfold role_body. rewrite B1, B2, B3, B5.
    fold (@empty_traced float osmid_t).
    rewrite (Hagree role (or_introl eq_refl)). reflexivity. }
  simpl. rewrite <- Hb.
  destruct (role_body trace_multilinestring ways nodes unique_vals r role s)
    as [s' [| |]] eqn:E; try reflexivity.
  apply (IH (rpre ++ [role]) s').
  - eapply role_body_light; eauto.
  - intros role' Hin. apply Hagree. now right.
Qed.

(** The loop over the relations, for two pairs of tracers that agree on
    empty vectors. *)
Lemma rel_loop_agree (rels : Relations) (nodes : @Nodes float)
    (ways : Ways) (unique_vals : UniqueVals) (suf : Relations) :
  forall (pre : Relations) (f : frame),
    rel_light trace_multipolygon trace_multilinestring ways nodes rels
      pre f ->
    (forall r,
        In r suf -> r_ispoly r = true ->
        trace_multipolygon r ways nodes (@empty_traced float string)
        = trace_multipolygon' r ways nodes (@empty_traced float string)) ->
    (forall r role,
        In r suf -> r_ispoly r = false -> In role (roles_set_of r) ->
        trace_multilinestring r role ways nodes
          (@empty_traced float osmid_t)
        = trace_multilinestring' r role ways nodes
            (@empty_traced float osmid_t)) ->
    for_each (body ways nodes unique_vals) suf f
    = for_each (body' ways nodes unique_vals) suf f.
Proof.
  induction suf as [|r suf IH]; intros pre f Hinv Hmp Hls; [reflexivity|].
  assert (Hb : body ways nodes unique_vals r f
               = body' ways nodes unique_vals r f).
  { pose proof Hinv as ((B1 & B2 & B3 & B4 & B5) & Hroles & _).
    unfold rel_body. destruct (r_ispoly r) eqn:Hp.
    - unfold poly_body. rewrite B1, B2, B3, B4.
      fold (@empty_traced float string).
      rewrite (Hmp r (or_introl eq_refl) Hp). reflexivity.
    - unfold line_body. rewrite Hroles. simpl.
      rewrite (role_loop_agree rels pre r nodes ways unique_vals
                 (set_roles (roles_set_of r) f) (roles_set_of r) []
                 (set_roles (roles_set_of r) f)); auto.
      + eapply roles_light_start; exact Hinv.
      + intros role Hin. apply (Hls r role); auto. now left. }
  simpl. rewrite <- Hb.
  destruct (body ways nodes unique_vals r f) as [f' [| |]] eqn:E;
    try reflexivity.
  apply (IH (pre ++ [r]) f').
  - eapply rel_body_light; eauto.
  - intros r' Hin. apply Hmp. now right.
  - intros r' role Hin. apply Hls. now right.
Qed.

(** X8. The tracers are always called with empty vectors: what
    [get_osm_relations] gives depends on a tracer only through what it
    returns on empty vectors, for the relations and the roles of the
    document. *)
Theorem tracers_start_from_empty (rels : Relations) (nodes : @Nodes float)
    (ways : Ways) (unique_vals : UniqueVals) (bbox : BBox) (crs : CRS) :
  (forall r,
      In r rels -> r_ispoly r = true ->
      trace_multipolygon r ways nodes (@empty_traced float string)
      = trace_multipolygon' r ways nodes (@empty_traced float string)) ->
  (forall r role,
      In r rels -> r_ispoly r = false -> In role (roles_set_of r) ->
      trace_multilinestring r role ways nodes (@empty_traced float osmid_t)
      = trace_multilinestring' r role ways nodes
          (@empty_traced float osmid_t)) ->
  run_relations rels nodes ways unique_vals bbox crs
  = run_relations' rels nodes ways unique_vals bbox crs.
Proof.
  intros Hmp Hls. unfold get_osm_relations, trace_relations.
  rewrite (rel_loop_agree rels nodes ways unique_vals rels []
             (@rel_frame0 float rels unique_vals)); auto.
  apply (relations_prefix_light rels [] nodes ways unique_vals).
  reflexivity.
Qed.
End RelationColumns.

(** ** Labels *)

Lemma to_int_proper (z : osmid_t) :
  Z.to_int z <> Decimal.Pos Decimal.Nil /\
  Z.to_int z <> Decimal.Neg Decimal.Nil.
Proof.
  destruct z; simpl; split; try discriminate;
    intros H; inversion H as [H1];
    now apply DecimalPos.Unsigned.to_uint_nonnil in H1.
Qed.

(** The label of an identifier reads back as the identifier. *)
Lemma to_string_parse (z : osmid_t) :
  option_map Z.of_int (NilZero.int_of_string (to_string z)) = Some z.
Proof.
  unfold to_string. destruct (to_int_proper z) as [Hp Hn].
  rewrite NilZero.isi by assumption. simpl.
  now rewrite DecimalZ.of_to.
Qed.

Lemma to_string_inj (x y : osmid_t) : to_string x = to_string y -> x = y.
Proof.
  intros H. pose proof (to_string_parse x) as Hx.
  rewrite H, to_string_parse in Hx. now inversion Hx.
Qed.

Lemma to_string_NoDup (s : list osmid_t) :
  NoDup s -> NoDup (map to_string s).
Proof.
  induction 1 as [|x s Hx Hs IH]; simpl; constructor; auto.
  intros Hin. apply in_map_iff in Hin as (y & Hy & Hin).
  apply to_string_inj in Hy. now subst y.
Qed.

Lemma string_ltb_empty (s : string) : String.ltb s "" = false.
Proof. destruct s; reflexivity. Qed.

(** X9. The line string of the members without a role comes first among the
    line strings of its relation: the empty role is the least element of the
    role set, its label ends in (no role), and the labels of the other
    roles, none of them empty, end in the role. *)
Theorem unnamed_role_comes_first (r : Relation) (w : osmid_t) :
  In (w, "") (r_ways r) ->
  exists rest,
    roles_set_of r = "" :: rest /\
    ~ In "" rest /\
    map (role_label (r_id r)) (roles_set_of r)
    = (to_string (r_id r) ++ "-(no role)")%string
      :: map (fun role => (to_string (r_id r) ++ "-" ++ role)%string) rest.
Proof.
  intros Hw.
  assert (Hin : In "" (roles_set_of r)) by (apply roles_set_In; eauto).
  pose proof (roles_set_ok r) as Hok.
  pose proof (roles_set_NoDup r) as Hnd.
  destruct (roles_set_of r) as [|h rest]; [destruct Hin|].
  assert (Hh : h = "").
  { destruct Hin as [Hh | Hin]; [assumption|].
    inversion Hok as [|? ? _ Hall]; subst.
    rewrite Forall_forall in Hall. specialize (Hall "" Hin).
    unfold lt_of in Hall. rewrite string_ltb_empty in Hall.
    discriminate Hall. }
  subst h. inversion Hnd as [|? ? Hnot _]; subst.
  exists rest. split; [reflexivity|]. split; [assumption|].
  simpl. f_equal. apply map_ext_in. intros role Hrole.
  apply role_label_cases. intros ->. contradiction.
Qed.

(** ** The list that rcpp_osmdata_sf returns *)

Section ReturnedList.
Context {float NumericMatrix DataFrame BBox CRS : Type}.
Variable trace_multipolygon :
  Relation -> Ways -> @Nodes float -> @traced float string ->
  result (@traced float string).
Variable trace_multilinestring :
  Relation -> string -> Ways -> @Nodes float -> @traced float osmid_t ->
  result (@traced float osmid_t).
Variable trace_way_nmat :
  Ways -> @Nodes float -> osmid_t -> result NumericMatrix.
Variable convert_poly_linestring_to_Rcpp :
  forall T : Type,
    list (list (list float)) -> list (list (list float)) ->
    list (list (list string)) -> list (list T) -> list string -> string ->
    @RcppList float NumericMatrix BBox CRS.
Variable restructure_kv_mat : CharacterMatrix -> bool -> DataFrame.
Variable as_data_frame_null : DataFrame.
Variable as_list :
  @TableValue DataFrame -> @RcppList float NumericMatrix BBox CRS.
Variable empty_frame : DataFrame.

Local Abbreviation RList := (@RcppList float NumericMatrix BBox CRS).
Local Abbreviation run :=
  (rcpp_osmdata_sf trace_multipolygon trace_multilinestring trace_way_nmat
     convert_poly_linestring_to_Rcpp restructure_kv_mat
     as_data_frame_null as_list empty_frame).
Local Abbreviation run_relations :=
  (get_osm_relations trace_multipolygon trace_multilinestring
     convert_poly_linestring_to_Rcpp restructure_kv_mat
     as_data_frame_null).
Local Abbreviation run_ways :=
  (get_osm_ways trace_way_nmat restructure_kv_mat).

Lemma sfc_attrs_column (class : string) (bbox : BBox) (crs : CRS)
    (l : RList) :
  sfc_column class bbox crs (sfc_attrs [class; "sfc"] bbox crs l).
Proof.
  unfold sfc_column, sfc_attrs, list_attr; simpl.
  repeat split;
    repeat (rewrite get_set_attr_ne by discriminate);
    apply get_set_attr_eq.
Qed.

(** A call of [get_osm_ways] that returns has given the list the
    attributes of a geometry column. *)
Lemma get_osm_ways_column (wayList : RList) (kv_df : DataFrame)
    (way_ids : list osmid_t) (ways : Ways) (nodes : @Nodes float)
    (unique_vals : UniqueVals) (geom_type : string) (bbox : BBox)
    (crs : CRS) (l : RList) (kv : DataFrame) :
  run_ways wayList kv_df way_ids ways nodes unique_vals geom_type bbox crs
  = ((l, kv), Done) ->
  sfc_column ("sfc_" ++ geom_type) bbox crs l.
Proof.
  intros Hret.
  destruct (get_osm_ways_returns _ _ _ _ _ _ _ _ _ _ _ _ _ Hret)
    as (f & _ & _ & _ & _ & -> & _).
  apply sfc_attrs_column.
Qed.

(** What a call of [rcpp_osmdata_sf] that returns has taken from
    [get_osm_relations]. *)
Lemma rcpp_osmdata_sf_relations (nodes : @Nodes float) (ways : Ways)
    (rels : Relations) (unique_vals : UniqueVals) (bbox : BBox) (crs : CRS)
    (ret : osmdata_ret) :
  run nodes ways rels unique_vals bbox crs = Ok ret ->
  exists t,
    run_relations rels nodes ways unique_vals bbox crs = Ok t /\
    multipolygons ret = polygonList t /\
    multilinestrings ret = linestringList t /\
    multipolygons_kv ret
    = list_attr (as_list (kv_df_mp t)) "class" (Strings ["data.frame"]) /\
    multilinestrings_kv ret
    = list_attr (as_list (kv_df_ls t)) "class" (Strings ["data.frame"]).
Proof.
  unfold rcpp_osmdata_sf.
  destruct (get_osm_relations _ _ _ _ _ rels nodes ways unique_vals
              bbox crs)
    as [t|e|]; try discriminate.
  destruct (classify_ways ways) as [[poly non] st].
  destruct st; [| intros H; simpl in H; discriminate ..].
  destruct (get_osm_ways _ _ (new_list (length poly)) _ poly _ _ _ _ _ _)
    as [[pl pk] st].
  destruct st; [| intros H; simpl in H; discriminate ..].
  destruct (get_osm_ways _ _ (new_list (length non)) _ non _ _ _ _ _ _)
    as [[ll lk] st].
  destruct st; [| intros H; simpl in H; discriminate ..].
  destruct (get_osm_nodes _ _ _ nodes _ _ _) as [[ptl ptk] st].
  destruct st; [| intros H; simpl in H; discriminate ..].
  intros H; inversion H; subst; simpl.
  exists t. auto.
Qed.

(** X10. Each of the five geometry columns of the result has [n_empty] 0,
    its own class before the class sfc, precision 0, and the bounding box
    and the reference system of the document; the two tables of the
    relations have the class data.frame, which [rcpp_osmdata_sf] sets
    itself. *)
Theorem geometry_columns_metadata (nodes : @Nodes float) (ways : Ways)
    (rels : Relations) (unique_vals : UniqueVals) (bbox : BBox) (crs : CRS)
    (ret : osmdata_ret) :
  run nodes ways rels unique_vals bbox crs = Ok ret ->
  sfc_column "sfc_POINT" bbox crs (points ret) /\
  sfc_column "sfc_LINESTRING" bbox crs (linestrings ret) /\
  sfc_column "sfc_POLYGON" bbox crs (polygons ret) /\
  sfc_column "sfc_MULTIPOLYGON" bbox crs (multipolygons ret) /\
  sfc_column "sfc_MULTILINESTRING" bbox crs (multilinestrings ret) /\
  get_attr "class" (attrs (multipolygons_kv ret))
  = Some (Strings ["data.frame"]) /\
  get_attr "class" (attrs (multilinestrings_kv ret))
  = Some (Strings ["data.frame"]).
Proof.
  intros Hret.
  destruct (rcpp_osmdata_sf_ok _ _ _ _ _ _ _ _ _ _ _ _ _ _ _ Hret)
    as (poly & non & _ & Hp & Hl & Hn).
  destruct (rcpp_osmdata_sf_relations _ _ _ _ _ _ _ Hret)
    as (t & Ht & -> & -> & -> & ->).
  destruct (get_osm_relations_ok _ _ _ _ _ _ _ _ _ _ _ _ Ht)
    as (f & _ & _ & ->).
  destruct (get_osm_nodes_done _ _ _ _ _ _ _ _ _ Hn)
    as (fn & _ & _ & Hpts & _).
  split; [rewrite Hpts; apply sfc_attrs_column|].
  split; [apply (get_osm_ways_column _ _ _ _ _ _ _ _ _ _ _ Hl)|].
  split; [apply (get_osm_ways_column _ _ _ _ _ _ _ _ _ _ _ Hp)|].
  split; [apply sfc_attrs_column|].
  split; [apply sfc_attrs_column|].
  split; apply get_set_attr_eq.
Qed.

(** X11. A column of ways without ways.  When there is no way to trace,
    the matrix of [get_osm_ways] has no cell, and R refuses the keys of
    [k_way] as its names unless there is no key: the call throws, after
    the list has got its attributes and before the table of the caller is
    assigned.  So a document without a way whose first node is its last,
    and a document without ways above all, stops [rcpp_osmdata_sf] when
    the ways have a key. *)
Theorem way_column_without_ways (wayList : RList) (kv_df : DataFrame)
    (ways : Ways) (nodes : @Nodes float) (unique_vals : UniqueVals)
    (geom_type : string) (bbox : BBox) (crs : CRS) :
  (geom_type = "POLYGON" \/ geom_type = "LINESTRING" ->
   elts wayList = [] ->
   (k_way unique_vals <> [] ->
    run_ways wayList kv_df [] ways nodes unique_vals geom_type bbox crs
    = ((sfc_attrs [("sfc_" ++ geom_type)%string; "sfc"] bbox crs
          (list_attr wayList "names" (Strings [])), kv_df),
       Throw (names_length_error (length (k_way unique_vals)) 0))) /\
   (k_way unique_vals = [] ->
    snd (run_ways wayList kv_df [] ways nodes unique_vals geom_type
           bbox crs) = Done)) /\
  (forall rels t non,
      run_relations rels nodes ways unique_vals bbox crs = Ok t ->
      classify_ways ways = (([], non), Done) ->
      k_way unique_vals <> [] ->
      run nodes ways rels unique_vals bbox crs
      = Raise (names_length_error (length (k_way unique_vals)) 0)).
Proof.
  assert (A : forall (l0 : RList) (d : DataFrame) (g : string),
             g = "POLYGON" \/ g = "LINESTRING" ->
             elts l0 = [] ->
             k_way unique_vals <> [] ->
             run_ways l0 d [] ways nodes unique_vals g bbox crs
             = ((sfc_attrs [("sfc_" ++ g)%string; "sfc"] bbox crs
                   (list_attr l0 "names" (Strings [])), d),
                Throw (names_length_error (length (k_way unique_vals))
                         0))).
  { intros l0 d g Hg Hl Hk. unfold get_osm_ways. rewrite Hl.
    destruct Hg as [-> | ->]; simpl; unfold set_matrix_names; simpl;
      destruct (k_way unique_vals); try congruence; reflexivity. }
  split.
  - intros Hg Hl. split; [now apply A|].
    intros Hk. unfold get_osm_ways. rewrite Hl, Hk.
    destruct Hg as [-> | ->]; reflexivity.
  - intros rels t non Ht Hc Hk. unfold rcpp_osmdata_sf. rewrite Ht, Hc.
    simpl length. rewrite A by auto. reflexivity.
Qed.

(** X12. A way without nodes leaves the conversion undefined, once the
    relations are converted: the source reads the first and the last node of
    every way. *)
Theorem way_without_nodes_undefined (nodes : @Nodes float) (ways : Ways)
    (rels : Relations) (unique_vals : UniqueVals) (bbox : BBox) (crs : CRS)
    (t : relations_ret) :
  Exists (fun x => w_nodes (snd x) = []) ways ->
  (forall ret, run nodes ways rels unique_vals bbox crs <> Ok ret) /\
  (run_relations rels nodes ways unique_vals bbox crs = Ok t ->
   run nodes ways rels unique_vals bbox crs = Undef).
Proof.
  intros Hex.
  destruct (classify_loop_status ways ([], [])) as [_ HU].
  specialize (HU Hex). fold (classify_ways ways) in HU.
  split.
  - intros ret Hret.
    destruct (rcpp_osmdata_sf_ok _ _ _ _ _ _ _ _ _ _ _ _ _ _ _ Hret)
      as (poly & non & Hc & _).
    rewrite Hc in HU. discriminate.
  - intros Ht. unfold rcpp_osmdata_sf. rewrite Ht.
    destruct (classify_ways ways) as [[poly non] st]. simpl in HU.
    now subst st.
Qed.
(** X13. The names of the points and of the two columns of the ways tell the
    entities apart: two identifiers never have the same name, so that no
    name is there twice in a column. *)
Theorem row_labels_identify (nodes : @Nodes float) (ways : Ways)
    (rels : Relations) (unique_vals : UniqueVals) (bbox : BBox) (crs : CRS)
    (ret : osmdata_ret) :
  map_ok Z.ltb nodes ->
  run nodes ways rels unique_vals bbox crs = Ok ret ->
  exists polys lines,
    classify_ways ways = ((polys, lines), Done) /\
    get_attr "names" (attrs (points ret))
    = Some (Strings (map to_string (map fst nodes))) /\
    get_attr "names" (attrs (polygons ret))
    = Some (Strings (map to_string polys)) /\
    get_attr "names" (attrs (linestrings ret))
    = Some (Strings (map to_string lines)) /\
    NoDup (map to_string (map fst nodes)) /\
    NoDup (map to_string polys) /\
    NoDup (map to_string lines) /\
    forall a b : osmid_t, to_string a = to_string b -> a = b.
Proof.
  intros Hmap Hret.
  destruct (rcpp_osmdata_sf_ok _ _ _ _ _ _ _ _ _ _ _ _ _ _ _ Hret)
    as (poly & non & Hc & Hp & Hl & Hn).
  destruct (classify_ways_sets _ _ _ Hc) as [Sp Sn].
  exists poly, non.
  split; [assumption|].
  split; [apply (get_osm_nodes_names _ _ _ _ _ _ _ _ _ Hn)|].
  split; [apply (get_osm_ways_names _ _ _ _ _ _ _ _ _ _ _ _ _ Hp)|].
  split; [apply (get_osm_ways_names _ _ _ _ _ _ _ _ _ _ _ _ _ Hl)|].
  split; [apply to_string_NoDup, (set_ok_NoDup Z.ltb Zltb_irrefl), Hmap|].
  split; [apply to_string_NoDup, (set_ok_NoDup Z.ltb Zltb_irrefl), Sp|].
  split; [apply to_string_NoDup, (set_ok_NoDup Z.ltb Zltb_irrefl), Sn|].
  apply to_string_inj.
Qed.
End ReturnedList.

(** * The statements on the small graph *)

Lemma ex_rels_tags : Forall (fun r => tags_ok (r_key_val r)) ex_rels.
Proof. sorted_tags. Qed.

Lemma ex_ways_tags : Forall (fun x => tags_ok (w_key_val (snd x))) ex_ways.
Proof. sorted_tags. Qed.

Lemma ex_relations_run :
  exists ret, ex_relations ex_trace_multilinestring = Ok ret.
Proof. eexists. vm_compute. reflexivity. Qed.

Lemma ex_point_table_run :
  exists l kv,
    get_osm_nodes ex_restructure (ex_list 4) ex_frame ex_nodes
      ex_unique_vals tt tt = ((l, kv), Done).
Proof. do 2 eexists. vm_compute. reflexivity. Qed.

Lemma ex_line_table_run :
  exists l kv,
    get_osm_ways ex_trace_way_nmat ex_restructure (ex_list 3) ex_frame
      [10; 11; 12]%Z ex_ways ex_nodes ex_unique_vals "LINESTRING" tt tt
    = ((l, kv), Done).
Proof. do 2 eexists. vm_compute. reflexivity. Qed.

(** The rows of the four nodes, of the three ways, and of the geometries
    of the three relations: node 3 has a cafe called c, way 11 is a path
    without a name, and relation 100 is a multipolygon called lake. *)
Lemma attribute_rows_witness :
  (exists l kv m,
      get_osm_nodes ex_restructure (ex_list 4) ex_frame ex_nodes
        ex_unique_vals tt tt = ((l, kv), Done) /\
      kv = ex_restructure m false /\
      attribute_row ["amenity"; "name"]
        [("amenity", "cafe"); ("name", "c")] m 2 /\
      attribute_row ["amenity"; "name"] [] m 3) /\
  (exists l kv m w,
      get_osm_ways ex_trace_way_nmat ex_restructure (ex_list 3) ex_frame
        [10; 11; 12]%Z ex_ways ex_nodes ex_unique_vals "LINESTRING" tt tt
      = ((l, kv), Done) /\
      kv = ex_restructure m false /\
      In (11%Z, w) ex_ways /\
      attribute_row ["highway"; "name"] (w_key_val w) m 1) /\
  (exists ret m1 m2,
      ex_relations ex_trace_multilinestring = Ok ret /\
      kv_df_mp ret = FrameValue (ex_restructure m1 false) /\
      attribute_row ["name"; "type"]
        [("name", "lake"); ("type", "multipolygon")] m1 0 /\
      kv_df_ls ret = FrameValue (ex_restructure m2 true) /\
      attribute_row ["name"; "type"] [("type", "route")] m2 1).
Proof.
  destruct (attribute_rows ex_trace_multipolygon ex_trace_multilinestring
              ex_trace_way_nmat ex_convert ex_restructure ex_frame
              ex_nodes ex_ways ex_rels ex_unique_vals tt tt)
    as (N & W & R).
  split; [|split].
  - destruct ex_point_table_run as (l & kv & Hrun).
    destruct (N (ex_list 4) ex_frame l kv ltac:(sorted_tags) Hrun)
      as (m & Hkv & _ & _ & Hrows).
    exists l, kv, m. split; [exact Hrun|]. split; [exact Hkv|]. split.
    + apply (Hrows 2 3%Z
               (ex_node 12 52 [("amenity", "cafe"); ("name", "c")])).
      reflexivity.
    + apply (Hrows 3 4%Z (ex_node 13 53 [])). reflexivity.
  - destruct ex_line_table_run as (l & kv & Hrun).
    destruct (W (ex_list 3) ex_frame [10; 11; 12]%Z "LINESTRING" l kv
                ex_ways_tags Hrun)
      as (m & Hkv & _ & _ & Hrows).
    destruct (Hrows 1 11%Z eq_refl) as (w & Hin & Hrow).
    exists l, kv, m, w. auto.
  - destruct ex_relations_run as (ret & Hrun).
    destruct (R ret ex_rels_tags Hrun) as (P & L).
    destruct P as (m1 & Hmp & _ & _ & Prows);
      [vm_compute; discriminate|].
    destruct L as (m2 & Hls & _ & _ & Lrows);
      [vm_compute; discriminate|].
    exists ret, m1, m2.
    split; [exact Hrun|]. split; [exact Hmp|]. split.
    + apply (Prows 0 ex_lake). reflexivity.
    + split; [exact Hls|].
      apply (Lrows 1 (ex_route, "alt")). reflexivity.
Defined.

(** With the keys of the nodes every write is inside the table and the
    call returns; without the key [name], which the first node carries,
    the call stops with the error of the write past the matrix of four
    cells. *)
Lemma unknown_key_fails_witness :
  snd (get_osm_nodes ex_restructure (ex_list 4) ex_frame ex_nodes
         ex_unique_vals tt tt) = Done /\
  (exists e,
      snd (get_osm_nodes ex_restructure (ex_list 4) ex_frame ex_nodes
             ex_short_vals tt tt) = Throw e /\
      write_outside 4 e).
Proof.
  split.
  - apply (proj1 (proj2 (unknown_key_fails ex_restructure (ex_list 4)
                           ex_frame ex_nodes ex_unique_vals tt tt
                           eq_refl))).
    known_keys.
  - apply (proj2 (proj2 (unknown_key_fails ex_restructure (ex_list 4)
                           ex_frame ex_nodes ex_short_vals tt tt
                           eq_refl))).
    intros Hall. inversion Hall as [|x l Hx _]; subst.
    specialize (Hx "name" "a" (or_introl eq_refl)).
    simpl in Hx. intuition discriminate.
Defined.

Lemma ex_relations_no_lat_run :
  exists e, ex_relations ex_trace_no_lat = Raise e.
Proof. eexists. vm_compute. reflexivity. Qed.

Lemma ex_osmdata_run : exists ret, ex_osmdata = Ok ret.
Proof. eexists. vm_compute. reflexivity. Qed.

Lemma ex_loop_run :
  exists f,
    trace_relations ex_trace_multipolygon ex_trace_multilinestring ex_rels
      ex_nodes ex_ways ex_unique_vals = (f, Done).
Proof. eexists. vm_compute. reflexivity. Qed.

Lemma ex_loop_no_lat_run :
  exists f,
    trace_relations ex_trace_multipolygon ex_trace_no_lat ex_rels
      ex_nodes ex_ways ex_unique_vals = (f, Done).
Proof. eexists. vm_compute. reflexivity. Qed.

(** With the tracer that forgets the latitudes the call throws, and with
    the other one it returns. *)
Lemma misaligned_arrays_abort_witness :
  (exists ret, ex_relations ex_trace_multilinestring = Ok ret) /\
  (exists collection len1 len2,
      ex_relations ex_trace_no_lat
      = Raise (StructuralMismatchError collection len1 len2)).
Proof.
  split.
  - destruct ex_loop_run as (f & Hrun).
    destruct (proj1 (misaligned_arrays_abort ex_trace_multipolygon
                       ex_trace_multilinestring ex_convert ex_restructure
                       ex_frame ex_rels ex_nodes ex_ways ex_unique_vals tt tt)
                f Hrun)
      as [[_ Hok] | [_ (c & a & b & _ & Hraise)]].
    + eexists. exact Hok.
    + exfalso. clear Hrun. destruct ex_relations_run as (ret & Hret).
      rewrite Hret in Hraise. discriminate Hraise.
  - destruct ex_loop_no_lat_run as (f & Hrun).
    destruct (proj1 (misaligned_arrays_abort ex_trace_multipolygon
                       ex_trace_no_lat ex_convert ex_restructure
                       ex_frame ex_rels ex_nodes ex_ways ex_unique_vals tt tt)
                f Hrun)
      as [[_ Hok] | [_ (c & a & b & _ & Hraise)]].
    + exfalso. clear Hrun. destruct ex_relations_no_lat_run as (e & He).
      rewrite He in Hok. discriminate Hok.
    + exists c, a, b. exact Hraise.
Defined.

(** Relation 101 has three members and two roles: two labels. *)
Lemma one_line_string_per_role_witness :
  exists ret f,
    ex_relations ex_trace_multilinestring = Ok ret /\
    ret = ret_of ex_convert ex_restructure ex_frame f ex_unique_vals tt tt /\
    rel_id (f_ls f) = ["101-(no role)"; "101-alt"] /\
    length (lon_arr (f_ls f)) = 2 /\
    cm_nrow (kv_mat (f_ls f)) = 2.
Proof.
  destruct ex_relations_run as (ret & Hrun). exists ret.
  destruct (one_line_string_per_role ex_trace_multipolygon
              ex_trace_multilinestring ex_convert ex_restructure
              ex_frame ex_rels ex_nodes ex_ways ex_unique_vals tt tt ret Hrun)
    as ((f & Hret & _ & Hid & Hlon & _ & _ & _ & Hrows & _) & _).
  exists f. split; [exact Hrun|]. split; [exact Hret|].
  rewrite Hid, Hlon, Hrows. vm_compute. auto.
Defined.

(** The two rows of relation 101 are its own row: no name, type route. *)
Lemma role_rows_copy_relation_row_witness :
  exists ret f,
    ex_relations ex_trace_multilinestring = Ok ret /\
    ret = ret_of ex_convert ex_restructure ex_frame f ex_unique_vals tt tt /\
    mat_row (kv_mat (f_ls f)) 0 = [NA_STRING; Chr "route"] /\
    mat_row (kv_mat (f_ls f)) 1 = [NA_STRING; Chr "route"].
Proof.
  destruct ex_relations_run as (ret & Hrun). exists ret.
  destruct (role_rows_copy_relation_row ex_trace_multipolygon
              ex_trace_multilinestring ex_convert ex_restructure
              ex_frame ex_rels ex_nodes ex_ways ex_unique_vals tt tt ret
              ex_rels_tags ltac:(sorted_tags) Hrun)
    as (f & Hret & _ & Hrow & _).
  exists f. split; [exact Hrun|]. split; [exact Hret|].
  assert (H0 : nth_error (line_items ex_rels) 0 = Some (ex_route, ""))
    by (vm_compute; reflexivity).
  assert (H1 : nth_error (line_items ex_rels) 1 = Some (ex_route, "alt"))
    by (vm_compute; reflexivity).
  rewrite (Hrow 0 ex_route "" H0), (Hrow 1 ex_route "alt" H1).
  vm_compute. auto.
Defined.

(** Relation 100 has two members: two rings, labelled 10 and 12, and one
    row. *)
Lemma one_ring_per_member_witness :
  exists ret f rings,
    ex_relations ex_trace_multilinestring = Ok ret /\
    ret = ret_of ex_convert ex_restructure ex_frame f ex_unique_vals tt tt /\
    rel_id (f_mp f) = ["100"] /\
    cm_nrow (kv_mat (f_mp f)) = 1 /\
    nth_error (lon_arr (f_mp f)) 0 = Some rings /\
    length rings = 2 /\
    nth_error (id_vec (f_mp f)) 0 = Some ["10"; "12"].
Proof.
  destruct ex_relations_run as (ret & Hrun). exists ret.
  destruct (one_ring_per_member ex_trace_way ex_trace_multilinestring
              ex_convert ex_restructure ex_frame ex_rels ex_nodes ex_ways
              ex_unique_vals tt tt ret Hrun)
    as (f & Hret & Hid & _ & Hrows & _ & Hrings).
  assert (H0 : nth_error (poly_rels ex_rels) 0 = Some ex_lake)
    by (vm_compute; reflexivity).
  destruct (Hrings 0 ex_lake H0)
    as (rings & lats & labels & H1 & _ & _ & H4 & L & _).
  exists f, rings. split; [exact Hrun|]. split; [exact Hret|].
  rewrite Hid, Hrows, H1, H4, L. vm_compute. auto.
Defined.

(** The ring 10 and the way 12 of a single node are polygons, the open
    way 11 is a line string; the ring is closed in the words of the
    specification and way 12 is not. *)
Lemma ways_divided_by_endpoints_witness :
  exists ret,
    ex_osmdata = Ok ret /\
    get_attr "names" (attrs (polygons ret)) = Some (Strings ["10"; "12"]) /\
    get_attr "names" (attrs (linestrings ret)) = Some (Strings ["11"]) /\
    closed_way (10%Z, {| w_key_val := [("name", "ring")];
                         w_nodes := [1; 2; 3; 1]%Z |})
    = closed_spec [1; 2; 3; 1]%Z /\
    closed_way (12%Z, {| w_key_val := []; w_nodes := [3%Z] |}) = true /\
    closed_spec [3%Z] = false.
Proof.
  destruct ex_osmdata_run as (ret & Hrun). exists ret.
  destruct (ways_divided_by_endpoints ex_trace_multipolygon
              ex_trace_multilinestring ex_trace_way_nmat ex_convert
              ex_restructure ex_frame ex_as_list ex_frame
              ex_nodes ex_ways ex_rels ex_unique_vals tt tt ret
              ltac:(sorted_tags) ex_ways_tags Hrun)
    as ((Pn & _) & (Ln & _) & _ & _ & _ & Hspec).
  split; [exact Hrun|]. rewrite Pn, Ln.
  split; [vm_compute; reflexivity|]. split; [vm_compute; reflexivity|].
  destruct (Hspec (10%Z, {| w_key_val := [("name", "ring")];
                            w_nodes := [1; 2; 3; 1]%Z |})
              (or_introl eq_refl)) as (_ & _ & Hlong & _).
  destruct (Hspec (12%Z, {| w_key_val := []; w_nodes := [3%Z] |})
              (or_intror (or_intror (or_introl eq_refl))))
    as (_ & _ & _ & Hone).
  split; [apply Hlong; simpl; lia|]. apply Hone. reflexivity.
Defined.

(** C6, as the specification has it, fails.  Way 12 has the single node
    3, so it is not closed in the words of the specification, which ask
    for more than one node, and so it is one of the other ways; yet it is
    a POLYGON and not a LINESTRING.  And way 20 has no node: the source
    reads its first and its last node all the same, and the way is in
    neither collection, as nothing is returned. *)
Lemma single_node_way_is_polygon :
  (In (12%Z, {| w_key_val := []; w_nodes := [3%Z] |}) ex_ways /\
   closed_spec [3%Z] = false /\
   exists ret,
     ex_osmdata = Ok ret /\
     get_attr "class" (attrs (polygons ret))
     = Some (Strings ["sfc_POLYGON"; "sfc"]) /\
     get_attr "names" (attrs (polygons ret))
     = Some (Strings ["10"; "12"]) /\
     get_attr "names" (attrs (linestrings ret)) = Some (Strings ["11"])) /\
  (In (20%Z, {| w_key_val := []; w_nodes := [] |}) ex_hollow_ways /\
   closed_spec [] = false /\
   rcpp_osmdata_sf ex_trace_multipolygon ex_trace_multilinestring
     ex_trace_way_nmat ex_convert ex_restructure ex_frame ex_as_list
     ex_frame [] ex_hollow_ways [] ex_unique_vals tt tt = Undef).
Proof.
  split.
  - split; [simpl; tauto|]. split; [reflexivity|].
    eexists. split; [vm_compute; reflexivity|].
    repeat split; vm_compute; reflexivity.
  - split; [left; reflexivity|]. split; [reflexivity|].
    vm_compute. reflexivity.
Qed.

Lemma argument_misuse_rejected_witness :
  get_osm_ways ex_trace_way_nmat ex_restructure (ex_list 3) ex_frame
    [10; 11; 12]%Z ex_ways ex_nodes ex_unique_vals "POINT" tt tt
  = ((ex_list 3, ex_frame),
     Throw (runtime_error "geom_type must be POLYGON or LINESTRING")) /\
  get_osm_ways ex_trace_way_nmat ex_restructure (ex_list 2) ex_frame
    [10; 11; 12]%Z ex_ways ex_nodes ex_unique_vals "POLYGON" tt tt
  = ((ex_list 2, ex_frame),
     Throw (runtime_error "ways and IDs must have same lengths")) /\
  get_osm_nodes ex_restructure (ex_list 5) ex_frame ex_nodes
    ex_unique_vals tt tt
  = ((ex_list 5, ex_frame),
     Throw (runtime_error "points must have same size as nodes")).
Proof.
  split; [|split].
  - apply (argument_misuse_rejected ex_trace_way_nmat ex_restructure
             (ex_list 3) (ex_list 5) ex_frame [10; 11; 12]%Z ex_ways
             ex_nodes ex_unique_vals "POINT" tt tt); discriminate.
  - apply (argument_misuse_rejected ex_trace_way_nmat ex_restructure
             (ex_list 2) (ex_list 5) ex_frame [10; 11; 12]%Z ex_ways
             ex_nodes ex_unique_vals "POLYGON" tt tt);
      [left; reflexivity | discriminate].
  - apply (argument_misuse_rejected ex_trace_way_nmat ex_restructure
             (ex_list 3) (ex_list 5) ex_frame [10; 11; 12]%Z ex_ways
             ex_nodes ex_unique_vals "POLYGON" tt tt). discriminate.
Defined.

Lemma ex_no_relations_run :
  exists ret,
    get_osm_relations ex_trace_multipolygon ex_trace_multilinestring
      ex_convert ex_restructure ex_frame [] ex_nodes ex_ways
      ex_unique_vals tt tt = Ok ret.
Proof. eexists. vm_compute. reflexivity. Qed.

(** Both tables are made from their matrices here; without relations
    both are the empty data frame. *)
Lemma relation_tables_empty_not_null_witness :
  (exists ret m1 m2,
      ex_relations ex_trace_multilinestring = Ok ret /\
      kv_df_mp ret = FrameValue (ex_restructure m1 false) /\
      cm_nrow m1 = 1 /\
      kv_df_ls ret = FrameValue (ex_restructure m2 true) /\
      cm_nrow m2 = 2) /\
  (exists ret,
      get_osm_relations ex_trace_multipolygon ex_trace_multilinestring
        ex_convert ex_restructure ex_frame [] ex_nodes ex_ways
        ex_unique_vals tt tt = Ok ret /\
      kv_df_mp ret = FrameValue ex_frame /\
      kv_df_ls ret = FrameValue ex_frame).
Proof.
  split.
  - destruct ex_relations_run as (ret & Hrun).
    destruct (relation_tables_empty_not_null ex_trace_multipolygon
                ex_trace_multilinestring ex_convert ex_restructure
                ex_frame ex_rels ex_nodes ex_ways ex_unique_vals tt tt
                ret Hrun)
      as (f & _ & _ & _ & _ & _ & _ & _ & F1 & F2).
    destruct F1 as (m1 & H1 & _ & R1); [vm_compute; discriminate|].
    destruct F2 as (m2 & H2 & _ & R2); [vm_compute; discriminate|].
    exists ret, m1, m2. split; [exact Hrun|].
    split; [exact H1|]. split; [exact R1|]. split; [exact H2|exact R2].
  - destruct ex_no_relations_run as (ret & Hrun). exists ret.
    destruct (relation_tables_empty_not_null ex_trace_multipolygon
                ex_trace_multilinestring ex_convert ex_restructure
                ex_frame [] ex_nodes ex_ways ex_unique_vals tt tt ret
                Hrun)
      as (f & _ & _ & _ & _ & _ & N1 & N2 & _).
    split; [exact Hrun|]. split; [apply N1 | apply N2]; reflexivity.
Defined.

(** C9, as the specification has it, fails: without relations there is
    no multipolygon relation and no line string of a relation, and the
    two tables that the call returns are the empty data frame, not the
    null value. *)
Lemma empty_relation_tables_are_frames :
  poly_rels [] = [] /\
  line_items [] = [] /\
  exists ret,
    get_osm_relations ex_trace_multipolygon ex_trace_multilinestring
      ex_convert ex_restructure ex_frame [] ex_nodes ex_ways
      ex_unique_vals tt tt = Ok ret /\
    kv_df_mp ret = FrameValue ex_frame /\
    kv_df_ls ret = FrameValue ex_frame /\
    kv_df_mp ret <> NullValue /\
    kv_df_ls ret <> NullValue.
Proof.
  split; [reflexivity|]. split; [reflexivity|].
  eexists. split; [vm_compute; reflexivity|].
  repeat split; try reflexivity; discriminate.
Qed.

Lemma row_labels_ascending_witness :
  exists ret,
    ex_osmdata = Ok ret /\
    get_attr "names" (attrs (points ret))
    = Some (Strings ["1"; "2"; "3"; "4"]) /\
    StronglySorted Z.lt [1; 2; 3; 4]%Z.
Proof.
  destruct ex_osmdata_run as (ret & Hrun). exists ret.
  destruct (row_labels_ascending ex_trace_multipolygon
              ex_trace_multilinestring ex_trace_way_nmat ex_convert
              ex_restructure ex_frame ex_as_list ex_frame
              ex_nodes ex_ways ex_rels ex_unique_vals tt tt ret
              ltac:(sorted_tags) Hrun)
    as (polys & lines & _ & Hn & _ & _ & Hs & _).
  split; [exact Hrun|]. split; [|exact Hs].
  rewrite Hn. vm_compute. reflexivity.
Defined.

(** * The further properties on the small graph *)

(** The third point is node 3, at longitude 12 and latitude 52. *)
Lemma points_are_lon_lat_witness :
  exists l kv,
    get_osm_nodes ex_restructure (ex_list 4) ex_frame ex_nodes
      ex_unique_vals tt tt = ((l, kv), Done) /\
    length (elts l) = 4 /\
    nth_error (elts l) 2
    = Some (NumericVector [12; 52]%Z
              [("class", Strings ["XY"; "POINT"; "sfg"])]).
Proof.
  destruct ex_point_table_run as (l & kv & Hrun). exists l, kv.
  destruct (points_are_lon_lat ex_restructure (ex_list 4) ex_frame ex_nodes
              ex_unique_vals tt tt l kv Hrun) as [Hlen Hpt].
  split; [exact Hrun|]. split; [exact Hlen|].
  apply (Hpt 2 3%Z (ex_node 12 52 [("amenity", "cafe"); ("name", "c")])).
  reflexivity.
Defined.

Lemma point_table_labels_witness :
  exists l kv m,
    get_osm_nodes ex_restructure (ex_list 4) ex_frame ex_nodes
      ex_unique_vals tt tt = ((l, kv), Done) /\
    kv = ex_restructure m false /\
    cm_dimnames m
    = Some {| dn_rows := ["1"; "2"; "3"; "4"];
              dn_cols := ["amenity"; "name"] |} /\
    get_attr "names" (attrs l) = Some (Strings ["1"; "2"; "3"; "4"]).
Proof.
  destruct ex_point_table_run as (l & kv & Hrun).
  destruct (point_table_labels ex_restructure (ex_list 4) ex_frame ex_nodes
              ex_unique_vals tt tt l kv Hrun)
    as (m & labels & Hkv & Hlab & Hdn & _ & Hnames & _).
  exists l, kv, m. subst labels.
  split; [exact Hrun|]. split; [exact Hkv|].
  split; [rewrite Hdn | rewrite Hnames]; vm_compute; reflexivity.
Defined.

Lemma ex_polygons_run :
  exists l kv,
    get_osm_ways ex_trace_way_nmat ex_restructure (ex_list 2) ex_frame
      [10; 12]%Z ex_ways ex_nodes ex_unique_vals "POLYGON" tt tt
    = ((l, kv), Done).
Proof. do 2 eexists. vm_compute. reflexivity. Qed.

Lemma way_table_labels_witness :
  exists l kv m,
    get_osm_ways ex_trace_way_nmat ex_restructure (ex_list 2) ex_frame
      [10; 12]%Z ex_ways ex_nodes ex_unique_vals "POLYGON" tt tt
    = ((l, kv), Done) /\
    kv = ex_restructure m false /\
    cm_dimnames m
    = Some {| dn_rows := ["10"; "12"]; dn_cols := ["highway"; "name"] |} /\
    cm_names m
    = Some [Chr "highway"; Chr "name"; NA_STRING; NA_STRING] /\
    get_attr "names" (attrs l) = Some (Strings ["10"; "12"]).
Proof.
  destruct ex_polygons_run as (l & kv & Hrun).
  destruct (way_table_labels ex_trace_way_nmat ex_restructure (ex_list 2)
              ex_frame [10; 12]%Z ex_ways ex_nodes ex_unique_vals "POLYGON"
              tt tt l kv Hrun)
    as (m & Hkv & Hdn & Hnm & _ & Hnames & _).
  exists l, kv, m.
  split; [exact Hrun|]. split; [exact Hkv|].
  split; [rewrite Hdn; vm_compute; reflexivity|].
  split; [exact Hnm|]. rewrite Hnames. vm_compute. reflexivity.
Defined.

Lemma ex_polygons_fail :
  snd (get_osm_ways (ex_trace_without 12%Z) ex_restructure (ex_list 2)
         ex_frame [10; 12]%Z ex_ways ex_nodes ex_unique_vals "POLYGON"
         tt tt) = Throw (MissingNodeError 0%Z 12%Z).
Proof. vm_compute. reflexivity. Qed.

(** Way 12 is not traced: the call throws and the table is the table of
    the caller. *)
Lemma way_trace_failure_stops_witness :
  In 12%Z [10; 12]%Z /\
  snd (get_osm_ways (ex_trace_without 12%Z) ex_restructure (ex_list 2)
         ex_frame [10; 12]%Z ex_ways ex_nodes ex_unique_vals "POLYGON"
         tt tt) <> Done /\
  snd (fst (get_osm_ways (ex_trace_without 12%Z) ex_restructure (ex_list 2)
              ex_frame [10; 12]%Z ex_ways ex_nodes ex_unique_vals "POLYGON"
              tt tt)) = ex_frame.
Proof.
  assert (Hin : In 12%Z [10; 12]%Z) by (right; left; reflexivity).
  assert (Hfail : forall nmat,
             ex_trace_without 12%Z ex_ways ex_nodes 12%Z <> Ok nmat).
  { intros nmat H. vm_compute in H. discriminate H. }
  destruct (way_trace_failure_stops (ex_trace_without 12%Z) ex_restructure
              (ex_list 2) ex_frame [10; 12]%Z ex_ways ex_nodes
              ex_unique_vals "POLYGON" tt tt 12%Z Hin Hfail) as [Hnot Hkeep].
  split; [exact Hin|]. split; [exact Hnot|].
  exact (Hkeep _ ex_polygons_fail).
Defined.

(** The two line strings of relation 101 label the rows of the table. *)
Lemma relation_labels_shared_witness :
  exists ret m,
    ex_relations ex_trace_multilinestring = Ok ret /\
    kv_df_ls ret = FrameValue (ex_restructure m true) /\
    cm_dimnames m
    = Some {| dn_rows := ["101-(no role)"; "101-alt"];
              dn_cols := ["name"; "type"] |} /\
    cm_names m = Some [Chr "name"; Chr "type"; NA_STRING; NA_STRING].
Proof.
  destruct ex_relations_run as (ret & Hrun).
  destruct (relation_labels_shared ex_trace_multipolygon
              ex_trace_multilinestring ex_convert ex_restructure
              ex_frame ex_rels ex_nodes ex_ways ex_unique_vals tt tt ret
              Hrun)
    as (_ & _ & _ & Hls).
  destruct Hls as (m & Hkv & Hdn & Hnm & _).
  { intros H. vm_compute in H. discriminate H. }
  exists ret, m. split; [exact Hrun|]. split; [exact Hkv|].
  split; [rewrite Hdn | rewrite Hnm]; vm_compute; reflexivity.
Defined.

(** The errors of the two tracers come out of the call. *)
Lemma tracer_error_is_passed_on_witness :
  get_osm_relations ex_trace_unclosed ex_trace_multilinestring ex_convert
    ex_restructure ex_frame ([] ++ ex_lake :: [ex_route; ex_bare])
    ex_nodes ex_ways ex_unique_vals tt tt
  = Raise (UnclosedRingError 100%Z) /\
  get_osm_relations ex_trace_multipolygon ex_trace_missing ex_convert
    ex_restructure ex_frame ([] ++ ex_route :: [ex_bare]) ex_nodes ex_ways
    ex_unique_vals tt tt = Raise (MissingNodeError 0%Z 101%Z).
Proof.
  split.
  - apply (proj1 (tracer_error_is_passed_on ex_trace_unclosed
                    ex_trace_multilinestring ex_convert ex_restructure
                    ex_frame [] [ex_route; ex_bare] ex_lake ex_nodes ex_ways
                    ex_unique_vals tt tt _ (UnclosedRingError 100%Z)
                    eq_refl));
      reflexivity.
  - apply (proj2 (tracer_error_is_passed_on ex_trace_multipolygon
                    ex_trace_missing ex_convert ex_restructure
                    ex_frame [] [ex_bare] ex_route ex_nodes ex_ways
                    ex_unique_vals tt tt _ (MissingNodeError 0%Z 101%Z)
                    eq_refl) "" ["alt"]);
      reflexivity.
Defined.

(** The strict tracers give what the other ones give. *)
Lemma tracers_start_from_empty_witness :
  ex_relations ex_trace_multilinestring
  = get_osm_relations ex_strict_multipolygon ex_strict_multilinestring
      ex_convert ex_restructure ex_frame ex_rels ex_nodes ex_ways ex_unique_vals
      tt tt.
Proof.
  apply (tracers_start_from_empty ex_trace_multipolygon
           ex_strict_multipolygon ex_trace_multilinestring
           ex_strict_multilinestring ex_convert ex_restructure ex_frame ex_rels
           ex_nodes ex_ways ex_unique_vals tt tt).
  - intros r _ _. reflexivity.
  - intros r role _ _ _. reflexivity.
Defined.

Lemma geometry_columns_metadata_witness :
  exists ret,
    ex_osmdata = Ok ret /\
    get_attr "class" (attrs (points ret))
    = Some (Strings ["sfc_POINT"; "sfc"]) /\
    get_attr "bbox" (attrs (multipolygons ret)) = Some (Bbox tt) /\
    get_attr "n_empty" (attrs (linestrings ret)) = Some (Integer 0).
Proof.
  destruct ex_osmdata_run as (ret & Hrun). exists ret.
  destruct (geometry_columns_metadata ex_trace_multipolygon
              ex_trace_multilinestring ex_trace_way_nmat ex_convert
              ex_restructure ex_frame ex_as_list ex_frame
              ex_nodes ex_ways ex_rels ex_unique_vals tt tt ret Hrun)
    as ((_ & Hc & _) & (Hn & _) & _ & (_ & _ & _ & Hb & _) & _).
  split; [exact Hrun|]. split; [exact Hc|]. split; [exact Hb|exact Hn].
Defined.

(** No way to trace and two keys: R refuses the names. *)
Lemma way_column_without_ways_witness :
  get_osm_ways ex_trace_way_nmat ex_restructure (ex_list 0) ex_frame []
    ex_ways ex_nodes ex_unique_vals "POLYGON" tt tt
  = ((sfc_attrs ["sfc_POLYGON"; "sfc"] tt tt
        (list_attr (ex_list 0) "names" (Strings [])), ex_frame),
     Throw (names_length_error 2 0)).
Proof.
  apply (proj1 (way_column_without_ways ex_trace_multipolygon
                  ex_trace_multilinestring ex_trace_way_nmat ex_convert
                  ex_restructure ex_frame ex_as_list ex_frame
                  (ex_list 0) ex_frame ex_ways ex_nodes ex_unique_vals
                  "POLYGON" tt tt)
           (or_introl eq_refl) eq_refl).
  discriminate.
Defined.

Lemma ex_no_relations :
  exists t,
    get_osm_relations ex_trace_multipolygon ex_trace_multilinestring
      ex_convert ex_restructure ex_frame [] [] ex_hollow_ways
      ex_unique_vals tt tt = Ok t.
Proof. eexists. vm_compute. reflexivity. Qed.

(** Way 20 has no nodes. *)
Lemma way_without_nodes_undefined_witness :
  rcpp_osmdata_sf ex_trace_multipolygon ex_trace_multilinestring
    ex_trace_way_nmat ex_convert ex_restructure ex_frame ex_as_list
    ex_frame [] ex_hollow_ways [] ex_unique_vals tt tt = Undef.
Proof.
  destruct ex_no_relations as (t & Ht).
  assert (Hex : Exists (fun x : osmid_t * OneWay => w_nodes (snd x) = [])
                  ex_hollow_ways) by (left; reflexivity).
  apply (proj2 (way_without_nodes_undefined ex_trace_multipolygon
                  ex_trace_multilinestring ex_trace_way_nmat ex_convert
                  ex_restructure ex_frame ex_as_list ex_frame
                  [] ex_hollow_ways [] ex_unique_vals tt tt t Hex) Ht).
Defined.

(** Relation 101 has members without a role and members of role alt. *)
Lemma unnamed_role_comes_first_witness :
  exists rest,
    roles_set_of ex_route = "" :: rest /\
    map (role_label 101%Z) (roles_set_of ex_route)
    = ["101-(no role)"; "101-alt"].
Proof.
  destruct (unnamed_role_comes_first ex_route 11%Z (or_introl eq_refl))
    as (rest & Hset & _ & Hlabels).
  exists rest. split; [exact Hset|].
  vm_compute. reflexivity.
Defined.

Lemma row_labels_identify_witness :
  exists ret,
    ex_osmdata = Ok ret /\
    get_attr "names" (attrs (points ret))
    = Some (Strings ["1"; "2"; "3"; "4"]) /\
    NoDup (map to_string (map fst ex_nodes)).
Proof.
  destruct ex_osmdata_run as (ret & Hrun). exists ret.
  destruct (row_labels_identify ex_trace_multipolygon
              ex_trace_multilinestring ex_trace_way_nmat ex_convert
              ex_restructure ex_frame ex_as_list ex_frame
              ex_nodes ex_ways ex_rels ex_unique_vals tt tt ret
              ltac:(sorted_tags) Hrun)
    as (polys & lines & _ & Hn & _ & _ & Hd & _).
  split; [exact Hrun|]. split; [|exact Hd].
  rewrite Hn. vm_compute. reflexivity.
Defined.
